(** * Social-media backend: storage model, handlers and their properties

    A shallow embedding of [models.py] and of the handlers of [routes.py]
    that write or aggregate the Like, Follower, Post, Comment and User
    tables.  A table is the list of its rows in storage order; a handler is
    a function from the stored state and the request to the stored state
    after the request and the response. *)

From Stdlib Require Import Ascii String ZArith QArith List Bool Lia Arith.
From Stdlib Require Import Permutation Sorting.Sorted.
Import ListNotations.

Local Open Scope Z_scope.

(** ** Values of the standard library *)

(** [datetime.datetime], naive: the seven fields of the Python object. *)
Record datetime : Type := mkDatetime
  { year : Z; month : Z; day : Z;
    hour : Z; minute : Z; second : Z; microsecond : Z }.

(** [datetime.replace(hour=, minute=, second=, microsecond=)]. *)
Definition replace (d : datetime) (h mi sec us : Z) : datetime :=
  mkDatetime (year d) (month d) (day d) h mi sec us.

(** Order of naive datetimes and of dates: field by field, most significant
    first. *)
Fixpoint lex_leb (a b : list Z) : bool :=
  match a, b with
  | [], _ => true
  | _ :: _, [] => false
  | x :: a', y :: b' =>
      if x <? y then true else if y <? x then false else lex_leb a' b'
  end.

Definition datetime_fields (d : datetime) : list Z :=
  [year d; month d; day d; hour d; minute d; second d; microsecond d].

Definition datetime_leb (a b : datetime) : bool :=
  lex_leb (datetime_fields a) (datetime_fields b).

(** A calendar date (year, month, day): the value of SQL [DATE(...)]. *)
Definition calendar_date : Type := (Z * Z * Z)%type.

Definition date_of (d : datetime) : calendar_date := (year d, month d, day d).

Definition date_fields (d : calendar_date) : list Z :=
  let '(y, m, dd) := d in [y; m; dd].

Definition date_leb (a b : calendar_date) : bool :=
  lex_leb (date_fields a) (date_fields b).

Definition date_eq_dec (a b : calendar_date) : {a = b} + {a <> b}.
Proof. repeat decide equality. Defined.

(** Truth value of a Python [str]: non-empty. *)
Definition truthy (x : string) : bool := negb (String.eqb x "").

(** ** What the handlers take from outside this repository's sources

    Library and storage-engine functions, and the two validators of the
    [forms] module, which is imported by [routes.py] but is not among the
    sources.  Every property below holds whatever these functions are. *)
Class Env : Type := mkEnv
  { (** [datetime.datetime.fromisoformat]; [None] is [ValueError]. *)
    fromisoformat : string -> option datetime;
    (** [str.isdigit]. *)
    isdigit : string -> bool;
    (** [int(str)]; [None] is [ValueError]. *)
    int : string -> option Z;
    (** [column.ilike(pattern)]: value first, pattern second. *)
    ilike : string -> string -> bool;
    (** [forms.validate_email], [forms.validate_password]. *)
    validate_email : string -> bool;
    validate_password : string -> bool;
    (** [bcrypt.generate_password_hash(...).decode('utf-8')]. *)
    generate_password_hash : string -> string;
    (** Equality of two strings under the collation of the indexed
        [username] and [email] columns. *)
    collate_eqb : string -> string -> bool;
    (** SQL [/] of two non-NULL integers, the divisor not zero. *)
    sql_div : Z -> Z -> Q }.

(** ** models.py *)

Module User.
Record t : Type := mk
  { user_id : Z;
    username : string;
    name : string;
    email : string;
    password_hash : string;
    created_at : datetime }.
End User.

Module Post.
Record t : Type := mk
  { post_id : Z;
    user_id : Z;
    content : string;
    created_at : datetime }.
End Post.

Module Comment.
Record t : Type := mk
  { comment_id : Z;
    post_id : Z;
    user_id : Z;
    content : string;
    created_at : datetime }.
End Comment.

Module Like.
Record t : Type := mk
  { like_id : Z;
    post_id : Z;
    user_id : Z;
    created_at : datetime }.
End Like.

Module Follower.
Record t : Type := mk
  { follower_id : Z;
    follower_user_id : Z;
    followed_user_id : Z;
    created_at : datetime }.
End Follower.

(** The stored state: one list of rows per [__tablename__]. *)
Record db : Type := mkDb
  { Users : list User.t;
    Posts : list Post.t;
    Comments : list Comment.t;
    Likes : list Like.t;
    Followers : list Follower.t }.

(** ** The storage layer *)

(** The key that an auto-increment primary key column receives on insert is
    a key that no row of the table has; the model takes one past the largest
    key of the table. *)
Definition next_id (ids : list Z) : Z := 1 + fold_right Z.max 0 ids.

(** [Query.first()]. *)
Definition first {A : Type} (rows : list A) : option A := hd_error rows.

(** [Model.query.get(pk)]: the row with that primary key. *)
Definition User_get (s : db) (pk : Z) : option User.t :=
  find (fun u => User.user_id u =? pk) (Users s).

Definition Post_get (s : db) (pk : Z) : option Post.t :=
  find (fun p => Post.post_id p =? pk) (Posts s).

Definition is_some {A : Type} (o : option A) : bool :=
  match o with Some _ => true | None => false end.

(** [Like.query.filter_by(post_id=..., user_id=...)]. *)
Definition Like_filter_by (s : db) (post_id user_id : Z) : list Like.t :=
  filter (fun l => (Like.post_id l =? post_id) && (Like.user_id l =? user_id))
         (Likes s).

(** [Follower.query.filter_by(follower_user_id=..., followed_user_id=...)]. *)
Definition Follower_filter_by (s : db) (follower followed : Z)
  : list Follower.t :=
  filter (fun f => (Follower.follower_user_id f =? follower)
                   && (Follower.followed_user_id f =? followed))
         (Followers s).

Definition set_Likes (s : db) (ls : list Like.t) : db :=
  mkDb (Users s) (Posts s) (Comments s) ls (Followers s).

Definition set_Followers (s : db) (fs : list Follower.t) : db :=
  mkDb (Users s) (Posts s) (Comments s) (Likes s) fs.

Definition set_Users (s : db) (us : list User.t) : db :=
  mkDb us (Posts s) (Comments s) (Likes s) (Followers s).

(** [db.session.add(Like(...)); db.session.commit()].  The row gets its key
    and is appended; both foreign keys of [Like] are [nullable=False]
    references, so the commit raises (here [None]) when the post or the user
    is not stored. *)
Definition add_Like (s : db) (post_id user_id : Z) (now : datetime)
  : option db :=
  if is_some (Post_get s post_id) && is_some (User_get s user_id) then
    Some (set_Likes s
            (Likes s ++ [Like.mk (next_id (map Like.like_id (Likes s)))
                                 post_id user_id now]))
  else None.

(** [db.session.delete(like); db.session.commit()]: DELETE by primary key. *)
Definition delete_Like (s : db) (l : Like.t) : db :=
  set_Likes s
    (filter (fun l' => negb (Like.like_id l' =? Like.like_id l)) (Likes s)).

Definition add_Follower (s : db) (follower followed : Z) (now : datetime)
  : option db :=
  if is_some (User_get s follower) && is_some (User_get s followed) then
    Some (set_Followers s
            (Followers s
               ++ [Follower.mk (next_id (map Follower.follower_id (Followers s)))
                               follower followed now]))
  else None.

Definition delete_Follower (s : db) (f : Follower.t) : db :=
  set_Followers s
    (filter (fun f' => negb (Follower.follower_id f' =? Follower.follower_id f))
            (Followers s)).

(** ** Responses *)

(** [jsonify(body), status].  An error body is [{"error": msg}]. *)
Inductive response (B : Type) : Type :=
| Ok (body : B) (status : Z)
| Error (error : string) (status : Z).
Arguments Ok {B} body status.
Arguments Error {B} error status.

Definition status_of {B : Type} (r : response B) : Z :=
  match r with Ok _ st => st | Error _ st => st end.

(** ** routes.py: the two toggles *)

(** Body of a like toggle: [{"message": ..., "liked": ...}]. *)
Record like_body : Type := mkLikeBody { message : string; liked : bool }.

(** [toggle_like(post_id)].  [user_id] is the subject of the bearer token,
    which [handle_login] issues as [str(user.user_id)]; the model carries the
    integer it denotes.  [now] is the clock reading that the column default
    [datetime.utcnow] takes on insert. *)
Definition toggle_like (s : db) (post_id user_id : Z) (now : datetime)
  : db * response like_body :=
  match Post_get s post_id with
  | None => (s, Error "Post not found" 404)
  | Some _ =>
      match first (Like_filter_by s post_id user_id) with
      | Some existing_like =>
          (delete_Like s existing_like,
           Ok (mkLikeBody "Post unliked successfully" false) 200)
      | None =>
          match add_Like s post_id user_id now with
          | Some s' => (s', Ok (mkLikeBody "Post liked successfully" true) 201)
          | None =>
              (* except Exception: db.session.rollback() *)
              (s, Error "Failed to process like" 500)
          end
      end
  end.

(** [toggle_follow(user_id)].  [current_user_id] is the integer that the
    token subject denotes, the value of [int(current_user_id)]. *)
Definition toggle_follow (s : db) (current_user_id user_id : Z) (now : datetime)
  : db * response string :=
  if current_user_id =? user_id then
    (s, Error "You cannot follow yourself" 400)
  else
    match User_get s user_id with
    | None => (s, Error "User not found" 404)
    | Some _ =>
        match first (Follower_filter_by s current_user_id user_id) with
        | Some existing_follow =>
            (delete_Follower s existing_follow,
             Ok "User unfollowed successfully"%string 200)
        | None =>
            match add_Follower s current_user_id user_id now with
            | Some s' => (s', Ok "User followed successfully"%string 201)
            | None =>
                (* except Exception: db.session.rollback() *)
                (s, Error "Failed to process follow request" 500)
            end
        end
    end.

(** Consecutive like toggles of one user on one post, one per clock
    reading. *)
Fixpoint toggle_like_times (s : db) (post_id user_id : Z) (nows : list datetime)
  : db :=
  match nows with
  | [] => s
  | now :: rest =>
      toggle_like_times (fst (toggle_like s post_id user_id now))
                        post_id user_id rest
  end.

(** A like-toggle request: post, requesting user, clock. *)
Definition like_request : Type := (Z * Z * datetime)%type.

Fixpoint toggle_like_all (s : db) (reqs : list like_request) : db :=
  match reqs with
  | [] => s
  | (post_id, user_id, now) :: rest =>
      toggle_like_all (fst (toggle_like s post_id user_id now)) rest
  end.

(** Number of Like rows of the pair. *)
Definition like_rows (s : db) (post_id user_id : Z) : nat :=
  length (Like_filter_by s post_id user_id).

(** At most one Like row per (post, user). *)
Definition one_like_per_pair (s : db) : Prop :=
  forall post_id user_id, (like_rows s post_id user_id <= 1)%nat.

(** ** Relational operators

    The queries of the aggregation handlers are evaluated in SQL's order:
    joins, WHERE, GROUP BY, HAVING, ORDER BY, LIMIT. *)

(** [query.join(B, on)]. *)
Definition join {A B : Type} (on : A -> B -> bool)
    (rows : list A) (tbl : list B) : list (A * B) :=
  flat_map (fun a => map (pair a) (filter (on a) tbl)) rows.

(** [query.outerjoin(B, on)]: a row without a match is kept once, with NULL
    on the right. *)
Definition outer {B : Type} (matches : list B) : list (option B) :=
  match matches with
  | [] => [None]
  | _ :: _ => map Some matches
  end.

Definition outerjoin {A B : Type} (on : A -> B -> bool)
    (rows : list A) (tbl : list B) : list (A * option B) :=
  flat_map (fun a => map (pair a) (outer (filter (on a) tbl))) rows.

(** The non-NULL values of a column. *)
Definition non_null {A : Type} (col : list (option A)) : list A :=
  flat_map (fun o => match o with Some v => [v] | None => [] end) col.

(** [func.count(distinct(column))] over the rows of a group. *)
Definition count_distinct (col : list (option Z)) : Z :=
  Z.of_nat (length (nodup Z.eq_dec (non_null col))).

(** [query.group_by(key)]: one group per key value, holding the rows that
    have it. *)
Definition group_by {R K : Type} (K_eq_dec : forall a b : K, {a = b} + {a <> b})
    (key : R -> K) (rows : list R) : list (list R) :=
  map (fun k => filter (fun r => if K_eq_dec (key r) k then true else false) rows)
      (nodup K_eq_dec (map key rows)).

(** [query.order_by(...)]: rows in the order [leb], rows that compare equal
    staying in their order of arrival. *)
Fixpoint insert_by {A : Type} (leb : A -> A -> bool) (x : A) (l : list A)
  : list A :=
  match l with
  | [] => [x]
  | y :: l' => if leb x y then x :: l else y :: insert_by leb x l'
  end.

Definition order_by {A : Type} (leb : A -> A -> bool) (l : list A) : list A :=
  fold_right (insert_by leb) [] l.

(** [query.limit(n)]. *)
Definition limit {A : Type} (n : nat) (l : list A) : list A := firstn n l.

(** Evaluation of a list of computations that may raise. *)
Fixpoint traverse {A B : Type} (f : A -> option B) (l : list A)
  : option (list B) :=
  match l with
  | [] => Some []
  | a :: l' =>
      match f a with
      | None => None
      | Some b =>
          match traverse f l' with
          | None => None
          | Some bs => Some (b :: bs)
          end
      end
  end.

Definition pair_eq_dec (a b : Z * Z) : {a = b} + {a <> b}.
Proof. repeat decide equality. Defined.

(** ** routes.py: the aggregation handlers *)

(** Rows of [Post JOIN User LEFT JOIN Like LEFT JOIN Comment]. *)
Definition feed_row : Type :=
  (Post.t * User.t * option Like.t * option Comment.t)%type.

Definition feed_post (r : feed_row) : Post.t := fst (fst (fst r)).
Definition feed_user (r : feed_row) : User.t := snd (fst (fst r)).
Definition feed_like (r : feed_row) : option Like.t := snd (fst r).
Definition feed_comment (r : feed_row) : option Comment.t := snd r.

Definition feed_rows (s : db) : list feed_row :=
  outerjoin (fun r c => Comment.post_id c =? Post.post_id (fst (fst r)))
    (outerjoin (fun r l => Like.post_id l =? Post.post_id (fst r))
       (join (fun p u => User.user_id u =? Post.user_id p) (Posts s) (Users s))
       (Likes s))
    (Comments s).

Definition feed_key (r : feed_row) : Z * Z :=
  (Post.post_id (feed_post r), User.user_id (feed_user r)).

Definition likes_count_of (g : list feed_row) : Z :=
  count_distinct (map (fun r => option_map Like.like_id (feed_like r)) g).

Definition comments_count_of (g : list feed_row) : Z :=
  count_distinct (map (fun r => option_map Comment.comment_id (feed_comment r)) g).

(** The selected columns of one group: [(Post, User, likes_count,
    comments_count)]. *)
Definition feed_select (g : list feed_row) : list (Post.t * User.t * Z * Z) :=
  match g with
  | [] => []
  | r :: _ => [(feed_post r, feed_user r, likes_count_of g, comments_count_of g)]
  end.

Module Author.
Record t : Type := mk
  { user_id : Z; username : string; name : string }.
End Author.

Definition author_of (u : User.t) : Author.t :=
  Author.mk (User.user_id u) (User.username u) (User.name u).

Module CommentData.
Record t : Type := mk
  { comment_id : Z;
    content : string;
    created_at : datetime;
    author : Author.t }.
End CommentData.

Module PostData.
Record t : Type := mk
  { post_id : Z;
    content : string;
    created_at : datetime;
    likes_count : Z;
    comments_count : Z;
    user_liked : bool;
    comments : list CommentData.t;
    author : Author.t }.
End PostData.

(** The query string of the discover feed; an absent parameter is [None]. *)
Record discover_args : Type := mkArgs
  { date_from : option string;
    date_to : option string;
    min_likes : option string;
    author : option string }.

(** One comment of [comments_data]; [None] when the author lookup returns
    [None] and the attribute access raises. *)
Definition comment_data (s : db) (comment : Comment.t) : option CommentData.t :=
  match User_get s (Comment.user_id comment) with
  | None => None
  | Some comment_author =>
      Some (CommentData.mk (Comment.comment_id comment)
              (Comment.content comment) (Comment.created_at comment)
              (author_of comment_author))
  end.

(** [Comment.query.filter_by(post_id=...).order_by(created_at.asc()).all()]
    turned into [comments_data]. *)
Definition comments_data (s : db) (post_id : Z) : option (list CommentData.t) :=
  traverse (comment_data s)
    (order_by (fun a b => datetime_leb (Comment.created_at a) (Comment.created_at b))
       (filter (fun c => Comment.post_id c =? post_id) (Comments s))).

(** One entry of [posts_data]. *)
Definition post_data (s : db) (user_id : Z) (row : Post.t * User.t * Z * Z)
  : option PostData.t :=
  let '(post, author, likes_count, comments_count) := row in
  let user_liked := is_some (first (Like_filter_by s (Post.post_id post) user_id)) in
  match comments_data s (Post.post_id post) with
  | None => None
  | Some comments =>
      Some (PostData.mk (Post.post_id post) (Post.content post)
              (Post.created_at post) likes_count comments_count user_liked
              comments (author_of author))
  end.

Section Discover.
Context `{Env}.

(** The WHERE clause that [date_from] adds. *)
Definition where_date_from (date_from : option string) (rows : list feed_row)
  : list feed_row :=
  match date_from with
  | None => rows
  | Some df =>
      if truthy df then
        match fromisoformat df with
        | Some from_date =>
            filter (fun r => datetime_leb (replace from_date 0 0 0 0)
                                          (Post.created_at (feed_post r)))
                   rows
        | None => rows
        end
      else rows
  end.

(** The WHERE clause that [date_to] adds. *)
Definition where_date_to (date_to : option string) (rows : list feed_row)
  : list feed_row :=
  match date_to with
  | None => rows
  | Some dt =>
      if truthy dt then
        match fromisoformat dt with
        | Some to_date =>
            filter (fun r => datetime_leb (Post.created_at (feed_post r))
                                          (replace to_date 23 59 59 999999))
                   rows
        | None => rows
        end
      else rows
  end.

(** The HAVING clause that [min_likes] adds, [None] when [int] raises. *)
Definition having_min_likes (min_likes : option string)
  : option (Post.t * User.t * Z * Z -> bool) :=
  match min_likes with
  | None => Some (fun _ => true)
  | Some ml =>
      if truthy ml && isdigit ml then
        match int ml with
        | Some n => Some (fun '(_, _, likes_count, _) => n <=? likes_count)
        | None => None
        end
      else Some (fun _ => true)
  end.

(** The WHERE clause that [author] adds. *)
Definition where_author (author : option string) (rows : list feed_row)
  : list feed_row :=
  match author with
  | None => rows
  | Some author_username =>
      if truthy author_username then
        filter (fun r => ilike (User.username (feed_user r))
                               ("%" ++ author_username ++ "%")%string)
               rows
      else rows
  end.

(** [get_discover_posts()]; any exception inside the handler becomes the
    generic 500. *)
Definition get_discover_posts (s : db) (user_id : Z) (args : discover_args)
  : response (list PostData.t) :=
  let rows :=
    where_author (author args)
      (where_date_to (date_to args)
         (where_date_from (date_from args) (feed_rows s))) in
  match having_min_likes (min_likes args) with
  | None => Error "Failed to fetch posts" 500
  | Some having =>
      let results :=
        limit 20
          (order_by (fun a b => datetime_leb (Post.created_at (fst (fst (fst b))))
                                             (Post.created_at (fst (fst (fst a)))))
             (filter having
                (flat_map feed_select (group_by pair_eq_dec feed_key rows)))) in
      match traverse (post_data s user_id) results with
      | Some posts_data => Ok posts_data 200
      | None => Error "Failed to fetch posts" 500
      end
  end.
End Discover.

Module TopPost.
Record t : Type := mk
  { post_id : Z;
    content : string;
    created_at : datetime;
    author : Author.t;
    likes_count : Z;
    comments_count : Z;
    engagement_score : Z }.
End TopPost.

(** The selected columns of one group of the top-posts query. *)
Definition top_select (g : list feed_row) : list (Post.t * User.t * Z * Z * Z) :=
  match g with
  | [] => []
  | r :: _ =>
      [(feed_post r, feed_user r, likes_count_of g, comments_count_of g,
        likes_count_of g + comments_count_of g)]
  end.

Definition top_post (row : Post.t * User.t * Z * Z * Z) : TopPost.t :=
  let '(post, author, likes_count, comments_count, engagement_score) := row in
  TopPost.mk (Post.post_id post) (Post.content post) (Post.created_at post)
    (author_of author) likes_count comments_count engagement_score.

(** [get_top_posts()]. *)
Definition get_top_posts (s : db) : response (list TopPost.t) :=
  let top_posts :=
    limit 10
      (order_by (fun a b => snd b <=? snd a)
         (flat_map top_select (group_by pair_eq_dec feed_key (feed_rows s)))) in
  Ok (map top_post top_posts) 200.

(** Rows of [Post LEFT JOIN Like LEFT JOIN Comment]. *)
Definition post_row : Type := (Post.t * option Like.t * option Comment.t)%type.

Definition post_rows (s : db) : list post_row :=
  outerjoin (fun r c => Comment.post_id c =? Post.post_id (fst r))
    (outerjoin (fun p l => Like.post_id l =? Post.post_id p) (Posts s) (Likes s))
    (Comments s).

(** [func.date(Post.created_at)] of a joined row. *)
Definition row_date (r : post_row) : calendar_date :=
  date_of (Post.created_at (fst (fst r))).

(** [Post.user_id == user_id] on a joined row. *)
Definition owned_by (user_id : Z) (r : post_row) : bool :=
  Post.user_id (fst (fst r)) =? user_id.

Definition posts_col (g : list post_row) : list (option Z) :=
  map (fun r => Some (Post.post_id (fst (fst r)))) g.

Definition likes_col (g : list post_row) : list (option Z) :=
  map (fun r => option_map Like.like_id (snd (fst r))) g.

Definition comments_col (g : list post_row) : list (option Z) :=
  map (fun r => option_map Comment.comment_id (snd r)) g.

Module Engagement.
Record t : Type := mk
  { date : calendar_date;
    posts_count : Z;
    likes_count : Z;
    comments_count : Z }.
End Engagement.

Definition engagement_select (g : list post_row) : list Engagement.t :=
  match g with
  | [] => []
  | r :: _ =>
      [Engagement.mk (row_date r)
         (count_distinct (posts_col g)) (count_distinct (likes_col g))
         (count_distinct (comments_col g))]
  end.

(** [get_engagement_by_date()]. *)
Definition get_engagement_by_date (s : db) (user_id : Z)
  : response (list Engagement.t) :=
  let engagement_data :=
    limit 30
      (order_by (fun a b => date_leb (Engagement.date b) (Engagement.date a))
         (flat_map engagement_select
            (group_by date_eq_dec row_date
               (filter (owned_by user_id) (post_rows s))))) in
  Ok engagement_data 200.

Module Stats.
Record t : Type := mk
  { total_posts : Z;
    total_likes : Z;
    total_comments : Z;
    average_likes_per_post : Q;
    average_comments_per_post : Q }.
End Stats.

(** SQL [NULLIF(a, b)]. *)
Definition nullif (a b : Z) : option Z := if a =? b then None else Some a.

(** SQL [a / b] with a divisor that may be NULL. *)
Definition div_null `{Env} (a : Z) (b : option Z) : option Q :=
  match b with
  | None => None
  | Some d => Some (sql_div a d)
  end.

(** [x or 0] on a count. *)
Definition or_0 (x : Z) : Z := if x =? 0 then 0 else x.

(** [float(x or 0)] on a quotient that may be NULL. *)
Definition float_or_0 (x : option Q) : Q :=
  match x with
  | None => 0%Q
  | Some q => if Qeq_bool q 0 then 0%Q else q
  end.

(** [get_post_stats()]: one aggregate row over all the joined rows of the
    user's posts. *)
Definition get_post_stats `{Env} (s : db) (user_id : Z) : response Stats.t :=
  let g := filter (owned_by user_id) (post_rows s) in
  let total_posts := count_distinct (posts_col g) in
  let total_likes := count_distinct (likes_col g) in
  let total_comments := count_distinct (comments_col g) in
  let avg_likes_per_post := div_null total_likes (nullif total_posts 0) in
  let avg_comments_per_post := div_null total_comments (nullif total_posts 0) in
  Ok (Stats.mk (or_0 total_posts) (or_0 total_likes) (or_0 total_comments)
        (float_or_0 avg_likes_per_post) (float_or_0 avg_comments_per_post))
     200.

(** ** routes.py: the handlers that write a User row *)

(** The JSON object of a registration; a key that is absent is [None]. *)
Module RegisterData.
Record t : Type := mk
  { username : option string;
    name : option string;
    email : option string;
    password : option string }.
End RegisterData.

(** The JSON object of a profile update. *)
Module ProfileData.
Record t : Type := mk
  { username : option string;
    email : option string;
    name : option string }.
End ProfileData.

(** Body of a successful registration. *)
Record registered : Type := mkRegistered
  { registered_message : string; registered_user_id : Z }.

(** Body of a successful profile update. *)
Module Profile.
Record t : Type := mk
  { message : string;
    user_id : Z;
    username : string;
    name : string;
    email : string }.
End Profile.

Section UserWrites.
Context `{Env}.

(** [db.session.add(User(...)); db.session.commit()].  [username] and
    [email] are [unique=True]: the commit raises [IntegrityError] (here
    [None]) when a stored row has the username or the email. *)
Definition add_User (s : db) (username name email password_hash : string)
    (now : datetime) : option (db * Z) :=
  if existsb (fun u => collate_eqb (User.username u) username
                       || collate_eqb (User.email u) email)
             (Users s)
  then None
  else
    let pk := next_id (map User.user_id (Users s)) in
    Some (set_Users s
            (Users s ++ [User.mk pk username name email password_hash now]),
          pk).

(** [handle_register()]. *)
Definition handle_register (s : db) (content_type : string)
    (data : RegisterData.t) (now : datetime) : db * response registered :=
  if negb (String.eqb content_type "application/json") then
    (s, Error "Content-Type must be application/json" 400)
  else
    match RegisterData.username data, RegisterData.name data,
          RegisterData.email data, RegisterData.password data with
    | Some username, Some name, Some email, Some password =>
        if negb (validate_email email) then
          (s, Error "Invalid email format" 400)
        else if negb (validate_password password) then
          (s, Error "Password does not meet requirements" 400)
        else
          let hashed_password := generate_password_hash password in
          match add_User s username name email hashed_password now with
          | Some (s', user_id) =>
              (s', Ok (mkRegistered "User registered successfully" user_id) 201)
          | None =>
              (* except IntegrityError: db.session.rollback() *)
              (s, Error "Username or email already exists" 409)
          end
    | _, _, _, _ => (s, Error "Missing required fields" 400)
    end.

(** [User.query.filter_by(username=...).first()], and the same on
    [email]. *)
Definition User_by_username (s : db) (username : string) : option User.t :=
  first (filter (fun u => collate_eqb (User.username u) username) (Users s)).

Definition User_by_email (s : db) (email : string) : option User.t :=
  first (filter (fun u => collate_eqb (User.email u) email) (Users s)).

(** The commit of a modified [User] object: UPDATE of the row with the
    object's key.  It raises (here [None]) when a column that changed
    takes a value that another row has. *)
Definition update_User (s : db) (old new : User.t) : option db :=
  let others :=
    filter (fun u => negb (User.user_id u =? User.user_id old)) (Users s) in
  if (negb (String.eqb (User.username new) (User.username old))
      && existsb (fun u => collate_eqb (User.username u) (User.username new))
                 others)
     || (negb (String.eqb (User.email new) (User.email old))
         && existsb (fun u => collate_eqb (User.email u) (User.email new))
                    others)
  then None
  else
    Some (set_Users s
            (map (fun u => if User.user_id u =? User.user_id old then new else u)
                 (Users s))).

Definition with_username (u : User.t) (username : string) : User.t :=
  User.mk (User.user_id u) username (User.name u) (User.email u)
          (User.password_hash u) (User.created_at u).

Definition with_email (u : User.t) (email : string) : User.t :=
  User.mk (User.user_id u) (User.username u) (User.name u) email
          (User.password_hash u) (User.created_at u).

Definition with_name (u : User.t) (name : string) : User.t :=
  User.mk (User.user_id u) (User.username u) name (User.email u)
          (User.password_hash u) (User.created_at u).

(** [update_user_profile()]. *)
Definition update_user_profile (s : db) (user_id : Z) (data : ProfileData.t)
  : db * response Profile.t :=
  match User_get s user_id with
  | None => (s, Error "User not found" 404)
  | Some user =>
      let new_username := ProfileData.username data in
      let username_taken :=
        match new_username with
        | Some n =>
            truthy n && negb (String.eqb n (User.username user))
            && is_some (User_by_username s n)
        | None => false
        end in
      if username_taken then (s, Error "Username already taken" 400)
      else
        let user1 :=
          match new_username with
          | Some n =>
              if truthy n && negb (String.eqb n (User.username user))
              then with_username user n else user
          | None => user
          end in
        let new_email := ProfileData.email data in
        let email_taken :=
          match new_email with
          | Some e =>
              truthy e && negb (String.eqb e (User.email user1))
              && is_some (User_by_email s e)
          | None => false
          end in
        if email_taken then (s, Error "Email already registered" 400)
        else
          let user2 :=
            match new_email with
            | Some e =>
                if truthy e && negb (String.eqb e (User.email user1))
                then with_email user1 e else user1
            | None => user1
            end in
          let user3 :=
            match ProfileData.name data with
            | Some n => if truthy n then with_name user2 n else user2
            | None => user2
            end in
          match update_User s user user3 with
          | Some s' =>
              (s', Ok (Profile.mk "Profile updated successfully"
                         (User.user_id user3) (User.username user3)
                         (User.name user3) (User.email user3)) 200)
          | None => (s, Error "Failed to update profile" 500)
          end
  end.
End UserWrites.

(** ** Vocabulary of the properties *)

(** A post, a user, with that key is stored. *)
Definition post_stored (s : db) (post_id : Z) : Prop :=
  exists p, In p (Posts s) /\ Post.post_id p = post_id.

Definition user_stored (s : db) (user_id : Z) : Prop :=
  exists u, In u (Users s) /\ User.user_id u = user_id.


(** A write of a User row that the storage rejects: the username or the email
    it would store is the username or the email of another stored row. *)
Definition username_in_use `{Env} (s : db) (but : option Z) (username : string)
  : Prop :=
  exists u, In u (Users s) /\ Some (User.user_id u) <> but
            /\ collate_eqb (User.username u) username = true.

Definition email_in_use `{Env} (s : db) (but : option Z) (email : string)
  : Prop :=
  exists u, In u (Users s) /\ Some (User.user_id u) <> but
            /\ collate_eqb (User.email u) email = true.

(** The number of distinct values of a key column. *)
Definition distinct (keys : list Z) : Z :=
  Z.of_nat (length (nodup Z.eq_dec keys)).

(** Primary keys are unique in the three tables the aggregates count. *)
Definition keys_unique (s : db) : Prop :=
  NoDup (map Post.post_id (Posts s))
  /\ NoDup (map Like.like_id (Likes s))
  /\ NoDup (map Comment.comment_id (Comments s)).

(** The Like rows and the Comment rows of a post. *)
Definition likes_of (s : db) (post_id : Z) : list Like.t :=
  filter (fun l => Like.post_id l =? post_id) (Likes s).

Definition comments_of (s : db) (post_id : Z) : list Comment.t :=
  filter (fun c => Comment.post_id c =? post_id) (Comments s).

(** The requesting user's posts created on a calendar date, and the Like rows
    and Comment rows of those posts. *)
Definition posts_on (s : db) (user_id : Z) (d : calendar_date) : list Post.t :=
  filter (fun p => (Post.user_id p =? user_id)
                   && (if date_eq_dec (date_of (Post.created_at p)) d
                       then true else false))
         (Posts s).

Definition likes_on (s : db) (user_id : Z) (d : calendar_date) : list Like.t :=
  filter (fun l => existsb (fun p => Post.post_id p =? Like.post_id l)
                           (posts_on s user_id d))
         (Likes s).

Definition comments_on (s : db) (user_id : Z) (d : calendar_date)
  : list Comment.t :=
  filter (fun c => existsb (fun p => Post.post_id p =? Comment.post_id c)
                           (posts_on s user_id d))
         (Comments s).

(** Every comment's author is a stored user (the foreign key of
    [Comment.user_id]). *)
Definition comment_authors_stored (s : db) : Prop :=
  forall c, In c (Comments s) -> user_stored s (Comment.user_id c).

(** ** Data of the examples *)

(** The library functions on the inputs of the examples: ASCII digit strings
    with an optional sign for [int], dates written [YYYY-MM-DD] for
    [fromisoformat], patterns [%text%] for [ilike]. *)
Module Demo.

Definition is_digit (c : Ascii.ascii) : bool :=
  ((48 <=? Ascii.nat_of_ascii c) && (Ascii.nat_of_ascii c <=? 57))%nat.

Fixpoint all_digits (x : string) : bool :=
  match x with
  | EmptyString => true
  | String c x' => is_digit c && all_digits x'
  end.

Definition isdigit (x : string) : bool := truthy x && all_digits x.

Fixpoint digits_value (acc : Z) (x : string) : Z :=
  match x with
  | EmptyString => acc
  | String c x' =>
      digits_value (10 * acc + Z.of_nat (Ascii.nat_of_ascii c - 48)) x'
  end.

Definition int (x : string) : option Z :=
  match x with
  | String "+"%char x' =>
      if isdigit x' then Some (digits_value 0 x') else None
  | String "-"%char x' =>
      if isdigit x' then Some (- digits_value 0 x') else None
  | _ => if isdigit x then Some (digits_value 0 x) else None
  end.

Definition fromisoformat (x : string) : option datetime :=
  let y := substring 0 4 x in
  let m := substring 5 2 x in
  let d := substring 8 2 x in
  if (String.length x =? 10)%nat
     && all_digits y && all_digits m && all_digits d
     && String.eqb (substring 4 1 x) "-" && String.eqb (substring 7 1 x) "-"
     && (1 <=? digits_value 0 m) && (digits_value 0 m <=? 12)
     && (1 <=? digits_value 0 d) && (digits_value 0 d <=? 31)
  then Some (mkDatetime (digits_value 0 y) (digits_value 0 m)
                        (digits_value 0 d) 0 0 0 0)
  else None.

Definition lower (c : Ascii.ascii) : Ascii.ascii :=
  let n := Ascii.nat_of_ascii c in
  if ((65 <=? n) && (n <=? 90))%nat then Ascii.ascii_of_nat (n + 32) else c.

Fixpoint lowercase (x : string) : string :=
  match x with
  | EmptyString => EmptyString
  | String c x' => String (lower c) (lowercase x')
  end.

Fixpoint contains (text : string) (x : string) : bool :=
  prefix text x
  || match x with
     | EmptyString => false
     | String _ x' => contains text x'
     end.

Definition ilike (value pattern : string) : bool :=
  contains (lowercase (substring 1 (String.length pattern - 2) pattern))
           (lowercase value).

Definition validate_email (x : string) : bool := contains "@" x.

Definition validate_password (x : string) : bool :=
  (8 <=? String.length x)%nat.

Definition generate_password_hash (x : string) : string :=
  ("$2b$12$" ++ x)%string.

Definition env : Env :=
  mkEnv fromisoformat isdigit int ilike validate_email validate_password
        generate_password_hash String.eqb
        (fun a b => Qmake a (Z.to_pos b)).

Definition noon (y m d : Z) : datetime := mkDatetime y m d 12 0 0 0.

Definition alice : User.t :=
  User.mk 1 "alice" "Alice" "alice@example.org" "$2b$12$a" (noon 2024 1 1).

Definition bob : User.t :=
  User.mk 2 "bob" "Bob" "bob@example.org" "$2b$12$b" (noon 2024 1 2).

(** Two users, three posts of which two are Alice's, a like of Bob on
    Alice's first post, and two comments. *)
Definition store : db :=
  mkDb [alice; bob]
       [Post.mk 1 1 "hello" (noon 2024 1 10);
        Post.mk 2 2 "world" (noon 2024 1 12);
        Post.mk 3 1 "again" (noon 2024 1 12)]
       [Comment.mk 1 1 2 "nice" (noon 2024 1 11);
        Comment.mk 2 2 1 "thanks" (noon 2024 1 13)]
       [Like.mk 1 1 2 (noon 2024 1 11)]
       [].

(** A discover request that only sets [min_likes]. *)
Definition only_min_likes (x : string) : discover_args :=
  mkArgs None None (Some x) None.

End Demo.

(** [str.isdigit] beyond ASCII, on text in UTF-8.  U+00B2, U+00B3 and U+00B9
    (superscript two, three and one) are digits for [str.isdigit], their
    Unicode Numeric_Type being Digit; they are not decimal digits, and [int]
    raises ValueError on a string that holds one. *)
Module Superscript.

(** The bytes [C2 B2]: U+00B2, superscript two. *)
Definition two : string := String "194" (String "178" EmptyString).

Definition is_superscript (c d : Ascii.ascii) : bool :=
  ((Ascii.nat_of_ascii c =? 194)
   && ((Ascii.nat_of_ascii d =? 178) || (Ascii.nat_of_ascii d =? 179)
       || (Ascii.nat_of_ascii d =? 185)))%nat.

Fixpoint digit_chars (x : string) : bool :=
  match x with
  | EmptyString => true
  | String c x' =>
      if Demo.is_digit c then digit_chars x'
      else
        match x' with
        | EmptyString => false
        | String d x'' => is_superscript c d && digit_chars x''
        end
  end.

Definition isdigit (x : string) : bool := truthy x && digit_chars x.

(** The example functions, with this [isdigit]; [int] still reads ASCII
    digits only. *)
Definition env : Env :=
  mkEnv Demo.fromisoformat isdigit Demo.int Demo.ilike Demo.validate_email
        Demo.validate_password Demo.generate_password_hash String.eqb
        (fun a b => Qmake a (Z.to_pos b)).

End Superscript.

(** ** routes.py: the remaining handlers *)

From Stdlib Require Import DecimalString.

(** [str(n)] of an [int]: its decimal writing. *)
Definition str (n : Z) : string := NilZero.string_of_int (Z.to_int n).

(** The two functions of the authentication libraries that [handle_login]
    calls. *)
Class Auth : Type := mkAuth
  { (** [bcrypt.check_password_hash(hash, password)]. *)
    check_password_hash : string -> string -> bool;
    (** [create_access_token(identity=...)]. *)
    create_access_token : string -> string }.

Definition set_Posts (s : db) (ps : list Post.t) : db :=
  mkDb (Users s) ps (Comments s) (Likes s) (Followers s).

Definition set_Comments (s : db) (cs : list Comment.t) : db :=
  mkDb (Users s) (Posts s) cs (Likes s) (Followers s).

(** [db.session.add(Post(...)); db.session.commit()]: [Post.user_id] is a
    [nullable=False] foreign key, the commit raises (here [None]) when the
    user is not stored. *)
Definition add_Post (s : db) (user_id : Z) (content : string) (now : datetime)
  : option (db * Z) :=
  if is_some (User_get s user_id) then
    let pk := next_id (map Post.post_id (Posts s)) in
    Some (set_Posts s (Posts s ++ [Post.mk pk user_id content now]), pk)
  else None.

(** [db.session.add(Comment(...)); db.session.commit()]. *)
Definition add_Comment (s : db) (post_id user_id : Z) (content : string)
    (now : datetime) : option (db * Comment.t) :=
  if is_some (Post_get s post_id) && is_some (User_get s user_id) then
    let new_comment :=
      Comment.mk (next_id (map Comment.comment_id (Comments s)))
                 post_id user_id content now in
    Some (set_Comments s (Comments s ++ [new_comment]), new_comment)
  else None.

(** Body of a created post. *)
Record post_created : Type := mkPostCreated
  { post_created_message : string; post_created_id : Z }.

(** [create_post()].  [content] is [data.get('content')]. *)
Definition create_post (s : db) (user_id : Z) (content : option string)
    (now : datetime) : db * response post_created :=
  match content with
  | None => (s, Error "Post content is required" 400)
  | Some text =>
      if negb (truthy text) then (s, Error "Post content is required" 400)
      else
        match add_Post s user_id text now with
        | Some (s', post_id) =>
            (s', Ok (mkPostCreated "Post created successfully" post_id) 201)
        | None => (s, Error "Failed to create post" 500)
        end
  end.

(** Body of an added comment. *)
Record comment_added : Type := mkCommentAdded
  { comment_added_message : string; comment_added_comment : CommentData.t }.

(** [add_comment(post_id)].  [content] is [None] when the JSON body is
    missing or empty or has no ['content'] key, else [data['content']]. *)
Definition add_comment (s : db) (post_id user_id : Z) (content : option string)
    (now : datetime) : db * response comment_added :=
  match content with
  | None => (s, Error "Comment content is required" 400)
  | Some text =>
      match Post_get s post_id with
      | None => (s, Error "Post not found" 404)
      | Some _ =>
          match add_Comment s post_id user_id text now with
          | None =>
              (* except Exception: db.session.rollback() *)
              (s, Error "Failed to add comment" 500)
          | Some (s', new_comment) =>
              match User_get s' user_id with
              | Some author =>
                  (s', Ok (mkCommentAdded "Comment added successfully"
                             (CommentData.mk (Comment.comment_id new_comment)
                                (Comment.content new_comment)
                                (Comment.created_at new_comment)
                                (author_of author)))
                          201)
              | None =>
                  (* the attribute access raises after the commit *)
                  (s', Error "Failed to add comment" 500)
              end
          end
      end
  end.

(** Body of a successful login. *)
Module Login.
Record t : Type := mk
  { access_token : string;
    user_id : Z;
    username : string }.
End Login.

(** [handle_login()]: [username] and [password] are the values of the two
    keys of the JSON body, [None] for a key that is absent. *)
Definition handle_login `{Env} `{Auth} (s : db) (content_type : string)
    (username password : option string) : response Login.t :=
  if negb (String.eqb content_type "application/json") then
    Error "Content-Type must be application/json" 400
  else
    match username, password with
    | Some name, Some pass =>
        match User_by_username s name with
        | Some user =>
            if check_password_hash (User.password_hash user) pass then
              Ok (Login.mk (create_access_token (str (User.user_id user)))
                           (User.user_id user) (User.username user))
                 200
            else Error "Invalid credentials" 401
        | None => Error "Invalid credentials" 401
        end
    | _, _ => Error "Missing username or password" 400
    end.

(** [check_follow_status(user_id)]: the body is [{"is_following": ...}]. *)
Definition check_follow_status (s : db) (current_user_id user_id : Z)
  : response bool :=
  if current_user_id =? user_id then Ok false 200
  else Ok (is_some (first (Follower_filter_by s current_user_id user_id))) 200.

(** What [Query.all()] returns for a query of one mapped class: each object
    once, by primary key, in the order of first appearance. *)
Fixpoint unique_by {A : Type} (key : A -> Z) (rows : list A) : list A :=
  match rows with
  | [] => []
  | r :: rest =>
      r :: filter (fun r' => negb (key r' =? key r)) (unique_by key rest)
  end.

(** [get_followers()]. *)
Definition get_followers (s : db) (user_id : Z) : response (list Author.t) :=
  let followers :=
    unique_by User.user_id
      (map fst
         (filter (fun r => Follower.followed_user_id (snd r) =? user_id)
            (join (fun u f => User.user_id u =? Follower.follower_user_id f)
                  (Users s) (Followers s)))) in
  Ok (map author_of followers) 200.

(** [get_following()]. *)
Definition get_following (s : db) (user_id : Z) : response (list Author.t) :=
  let following :=
    unique_by User.user_id
      (map fst
         (filter (fun r => Follower.follower_user_id (snd r) =? user_id)
            (join (fun u f => User.user_id u =? Follower.followed_user_id f)
                  (Users s) (Followers s)))) in
  Ok (map author_of following) 200.

(** [Post.query.filter_by(user_id=...).order_by(Post.created_at.desc())]. *)
Definition posts_by (s : db) (user_id : Z) : list Post.t :=
  order_by (fun a b => datetime_leb (Post.created_at b) (Post.created_at a))
    (filter (fun p => Post.user_id p =? user_id) (Posts s)).

(** [Like.query.filter_by(post_id=...).count()]. *)
Definition Like_count (s : db) (post_id : Z) : Z :=
  Z.of_nat (length (filter (fun l => Like.post_id l =? post_id) (Likes s))).

Module UserPost.
Record t : Type := mk
  { post_id : Z;
    content : string;
    created_at : datetime;
    likes_count : Z;
    comments : list CommentData.t }.
End UserPost.

Definition user_post (s : db) (post : Post.t) : option UserPost.t :=
  match comments_data s (Post.post_id post) with
  | None => None
  | Some comments =>
      Some (UserPost.mk (Post.post_id post) (Post.content post)
              (Post.created_at post) (Like_count s (Post.post_id post)) comments)
  end.

(** [get_current_user_posts()]. *)
Definition get_current_user_posts (s : db) (user_id : Z)
  : response (list UserPost.t) :=
  match traverse (user_post s) (posts_by s user_id) with
  | Some posts_data => Ok posts_data 200
  | None => Error "Failed to fetch user posts" 500
  end.

Module OtherPost.
Record t : Type := mk
  { post_id : Z;
    content : string;
    created_at : datetime;
    likes_count : Z;
    user_liked : bool }.
End OtherPost.

Definition other_post (s : db) (current_user_id : Z) (post : Post.t)
  : OtherPost.t :=
  OtherPost.mk (Post.post_id post) (Post.content post) (Post.created_at post)
    (Like_count s (Post.post_id post))
    (is_some (first (Like_filter_by s (Post.post_id post) current_user_id))).

(** What the engine may answer to [ORDER BY Post.created_at DESC] over
    [rows]: the rows, each once, arranged so that no row is newer than one
    before it.  The order among rows of equal [created_at] is the engine's
    choice, and may differ from one query to the next. *)
Definition newest_first (rows ordered : list Post.t) : Prop :=
  Permutation rows ordered
  /\ StronglySorted
       (fun a b => datetime_leb (Post.created_at b) (Post.created_at a) = true)
       ordered.

(** [get_other_user_posts(user_id)].  [ordered] is the arrangement that the
    engine gives to the rows of
    [Post.query.filter_by(user_id=user_id).order_by(Post.created_at.desc())]
    in this query; [.limit(5)] keeps its first five rows. *)
Definition get_other_user_posts (s : db) (user_id current_user_id : Z)
    (ordered : list Post.t) : response (list OtherPost.t) :=
  match User_get s user_id with
  | None => Error "User not found" 404
  | Some _ => Ok (map (other_post s current_user_id) (limit 5 ordered)) 200
  end.

Module OwnProfile.
Record t : Type := mk
  { user_id : Z;
    username : string;
    name : string;
    email : string;
    posts_count : Z;
    followers_count : Z;
    following_count : Z }.
End OwnProfile.

(** [show_user_profile()]. *)
Definition show_user_profile (s : db) (user_id : Z) : response OwnProfile.t :=
  match User_get s user_id with
  | None => Error "User not found" 404
  | Some user =>
      let posts := filter (fun p => Post.user_id p =? user_id) (Posts s) in
      let followers_count :=
        length (filter (fun f => Follower.followed_user_id f =? user_id)
                       (Followers s)) in
      let following_count :=
        length (filter (fun f => Follower.follower_user_id f =? user_id)
                       (Followers s)) in
      Ok (OwnProfile.mk (User.user_id user) (User.username user)
            (User.name user) (User.email user)
            (Z.of_nat (length posts)) (Z.of_nat followers_count)
            (Z.of_nat following_count))
         200
  end.

Module PublicProfile.
Record t : Type := mk
  { user_id : Z;
    username : string;
    name : string;
    posts_count : Z;
    total_likes_received : Z;
    total_comments_received : Z;
    followers_count : Z;
    following_count : Z }.
End PublicProfile.

(** Rows of [Post LEFT JOIN Comment LEFT JOIN Like], the order of the joins
    of [get_user_profile]. *)
Definition profile_row : Type :=
  (Post.t * option Comment.t * option Like.t)%type.

Definition profile_rows (s : db) : list profile_row :=
  outerjoin (fun r l => Like.post_id l =? Post.post_id (fst r))
    (outerjoin (fun p c => Comment.post_id c =? Post.post_id p)
               (Posts s) (Comments s))
    (Likes s).

(** The selected columns of one group: [(Post, comment_count, like_count)]. *)
Definition profile_select (g : list profile_row) : list (Post.t * Z * Z) :=
  match g with
  | [] => []
  | r :: _ =>
      [(fst (fst r),
        count_distinct (map (fun r => option_map Comment.comment_id (snd (fst r))) g),
        count_distinct (map (fun r => option_map Like.like_id (snd r)) g))]
  end.

(** [sum(...)] of a list of integers. *)
Definition sum (l : list Z) : Z := fold_right Z.add 0 l.

(** [get_user_profile(user_id)].  [.all()] on rows of (Follower, User) drops
    a row only when both objects repeat, which rows of distinct primary keys
    never do. *)
Definition get_user_profile (s : db) (user_id : Z) : response PublicProfile.t :=
  match User_get s user_id with
  | None => Error "User not found" 404
  | Some user =>
      let posts_stats :=
        flat_map profile_select
          (group_by Z.eq_dec (fun r : profile_row => Post.post_id (fst (fst r)))
             (filter (fun r : profile_row => Post.user_id (fst (fst r)) =? user_id)
                     (profile_rows s))) in
      let followers :=
        filter (fun r => Follower.followed_user_id (fst r) =? user_id)
          (join (fun f u => User.user_id u =? Follower.follower_user_id f)
                (Followers s) (Users s)) in
      let following :=
        filter (fun r => Follower.follower_user_id (fst r) =? user_id)
          (join (fun f u => User.user_id u =? Follower.followed_user_id f)
                (Followers s) (Users s)) in
      let total_likes := sum (map snd posts_stats) in
      let total_comments := sum (map (fun r => snd (fst r)) posts_stats) in
      Ok (PublicProfile.mk (User.user_id user) (User.username user)
            (User.name user) (Z.of_nat (length posts_stats))
            total_likes total_comments
            (Z.of_nat (length followers)) (Z.of_nat (length following)))
         200
  end.

(** ** Vocabulary of the further properties *)

(** A request to one of the handlers that write, with what it carries. *)
Inductive request : Type :=
| Register (content_type : string) (data : RegisterData.t)
| UpdateProfile (user_id : Z) (data : ProfileData.t)
| CreatePost (user_id : Z) (content : option string)
| AddComment (post_id user_id : Z) (content : option string)
| ToggleLike (post_id user_id : Z)
| ToggleFollow (current_user_id user_id : Z).

(** The stored state after a request and the status of its answer. *)
Definition serve `{Env} (s : db) (r : request) (now : datetime) : db * Z :=
  match r with
  | Register content_type data =>
      let '(s', a) := handle_register s content_type data now in (s', status_of a)
  | UpdateProfile user_id data =>
      let '(s', a) := update_user_profile s user_id data in (s', status_of a)
  | CreatePost user_id content =>
      let '(s', a) := create_post s user_id content now in (s', status_of a)
  | AddComment post_id user_id content =>
      let '(s', a) := add_comment s post_id user_id content now in
      (s', status_of a)
  | ToggleLike post_id user_id =>
      let '(s', a) := toggle_like s post_id user_id now in (s', status_of a)
  | ToggleFollow current_user_id user_id =>
      let '(s', a) := toggle_follow s current_user_id user_id now in
      (s', status_of a)
  end.

(** The state after a sequence of requests, each with its clock reading. *)
Fixpoint serve_all `{Env} (s : db) (rs : list (request * datetime)) : db :=
  match rs with
  | [] => s
  | (r, now) :: rest => serve_all (fst (serve s r now)) rest
  end.

(** Primary keys are unique in each of the five tables. *)
Definition primary_keys_unique (s : db) : Prop :=
  NoDup (map User.user_id (Users s))
  /\ NoDup (map Post.post_id (Posts s))
  /\ NoDup (map Comment.comment_id (Comments s))
  /\ NoDup (map Like.like_id (Likes s))
  /\ NoDup (map Follower.follower_id (Followers s)).

(** Number of Follower rows of the directed pair. *)
Definition follow_rows (s : db) (follower followed : Z) : nat :=
  length (Follower_filter_by s follower followed).

(** At most one Follower row per directed pair, and none from a user to
    itself. *)
Definition follows_well_formed (s : db) : Prop :=
  (forall a b, (follow_rows s a b <= 1)%nat)
  /\ (forall f, In f (Followers s) ->
        Follower.follower_user_id f <> Follower.followed_user_id f).

(** Consecutive follow toggles of one user on another. *)
Fixpoint toggle_follow_times (s : db) (current_user_id user_id : Z)
    (nows : list datetime) : db :=
  match nows with
  | [] => s
  | now :: rest =>
      toggle_follow_times (fst (toggle_follow s current_user_id user_id now))
                          current_user_id user_id rest
  end.

(** The state after a sequence of follow-toggle requests
    (requesting user, target, clock). *)
Fixpoint toggle_follow_all (s : db) (reqs : list (Z * Z * datetime)) : db :=
  match reqs with
  | [] => s
  | (current_user_id, user_id, now) :: rest =>
      toggle_follow_all (fst (toggle_follow s current_user_id user_id now)) rest
  end.

(** The [user_id]s of a list of users of an answer. *)
Definition ids_of (r : response (list Author.t)) : list Z :=
  match r with
  | Ok users _ => map Author.user_id users
  | Error _ _ => []
  end.

(** The value a profile field takes: the requested one when it is supplied
    and non-empty, else the stored one. *)
Definition requested (new : option string) (old : string) : string :=
  match new with
  | Some x => if truthy x then x else old
  | None => old
  end.

(** Authentication functions for the examples: the hash check compares with
    the example hash, the token is its subject behind a prefix. *)
Definition demo_auth : Auth :=
  mkAuth (fun hash password =>
            String.eqb hash (Demo.generate_password_hash password))
         (fun identity => ("token:" ++ identity)%string).

(** What both post listings show of a post: key, content, creation time and
    likes count. *)
Definition shown_of_user_post (e : UserPost.t) : Z * string * datetime * Z :=
  (UserPost.post_id e, UserPost.content e, UserPost.created_at e,
   UserPost.likes_count e).

Definition shown_of_other_post (e : OtherPost.t) : Z * string * datetime * Z :=
  (OtherPost.post_id e, OtherPost.content e, OtherPost.created_at e,
   OtherPost.likes_count e).

(** What both post listings show of a stored post. *)
Definition shown_of_post (s : db) (p : Post.t) : Z * string * datetime * Z :=
  (Post.post_id p, Post.content p, Post.created_at p,
   Like_count s (Post.post_id p)).

(** Both users of every Follower row are stored (the two foreign keys of the
    table). *)
Definition follow_users_stored (s : db) : Prop :=
  forall f, In f (Followers s) ->
    user_stored s (Follower.follower_user_id f)
    /\ user_stored s (Follower.followed_user_id f).

(** The posts that a user owns, and the Like rows and the Comment rows on
    them. *)
Definition owned_posts (s : db) (user_id : Z) : list Post.t :=
  filter (fun p => Post.user_id p =? user_id) (Posts s).

Definition likes_received (s : db) (user_id : Z) : list Like.t :=
  filter (fun l => existsb (fun p => Post.post_id p =? Like.post_id l)
                           (owned_posts s user_id))
         (Likes s).

Definition comments_received (s : db) (user_id : Z) : list Comment.t :=
  filter (fun c => existsb (fun p => Post.post_id p =? Comment.post_id c)
                           (owned_posts s user_id))
         (Comments s).

(** The grouping key of [get_user_profile]: [Post.post_id] of a joined row. *)
Definition profile_key (r : profile_row) : Z := Post.post_id (fst (fst r)).

(** [Post.user_id == user_id] on a joined row of [get_user_profile]. *)
Definition profile_owned_by (user_id : Z) (r : profile_row) : bool :=
  Post.user_id (fst (fst r)) =? user_id.

(** The example store after Alice has followed Bob. *)
Definition demo_follow_store : db :=
  set_Followers Demo.store [Follower.mk 1 1 2 (Demo.noon 2024 2 1)].

(** The example store after Alice has written four more posts, on four
    later days: she has six. *)
Definition demo_busy_store : db :=
  set_Posts Demo.store
    (Posts Demo.store
       ++ [Post.mk 4 1 "fourth" (Demo.noon 2024 1 13);
           Post.mk 5 1 "fifth" (Demo.noon 2024 1 14);
           Post.mk 6 1 "sixth" (Demo.noon 2024 1 15);
           Post.mk 7 1 "seventh" (Demo.noon 2024 1 16)]).

(** * Properties *)

(** ** Keys *)

Lemma next_id_above (ids : list Z) (x : Z) : In x ids -> x < next_id ids.
Proof.
  unfold next_id. induction ids as [|y ids IH]; cbn [fold_right In]; [tauto|].
  intros [->|Hin]; [lia|]. specialize (IH Hin). lia.
Qed.

Lemma filter_other_key {A : Type} (key : A -> Z) (rows : list A) (k : Z) :
  (forall r, In r rows -> key r < k) ->
  filter (fun r => negb (key r =? k)) rows = rows.
Proof.
  induction rows as [|r rows IH]; simpl; intros Hlt; [reflexivity|].
  assert (key r < k) as Hr by (apply Hlt; now left).
  destruct (Z.eqb_spec (key r) k); [lia|]. simpl.
  f_equal. apply IH. intros; apply Hlt; now right.
Qed.

Lemma filter_swap {A : Type} (f g : A -> bool) (l : list A) :
  filter f (filter g l) = filter g (filter f l).
Proof.
  induction l as [|x l IH]; simpl; [reflexivity|].
  destruct (f x) eqn:Hf, (g x) eqn:Hg; simpl; rewrite ?Hf, ?Hg, IH; reflexivity.
Qed.

Lemma filter_length_le {A : Type} (f : A -> bool) (l : list A) :
  (length (filter f l) <= length l)%nat.
Proof.
  induction l as [|x l IH]; simpl; [lia|]. destruct (f x); simpl; lia.
Qed.

Lemma find_key_some {A : Type} (key : A -> Z) (rows : list A) (k : Z) :
  (exists r, In r rows /\ key r = k) ->
  is_some (find (fun r => key r =? k) rows) = true.
Proof.
  intros [r [Hin Hk]].
  destruct (find (fun r => key r =? k) rows) eqn:Hf; [reflexivity|].
  apply (find_none _ _ Hf) in Hin. rewrite Hk, Z.eqb_refl in Hin. discriminate.
Qed.

Lemma find_key_none {A : Type} (key : A -> Z) (rows : list A) (k : Z) :
  (forall r, In r rows -> key r <> k) ->
  find (fun r => key r =? k) rows = None.
Proof.
  intros Hno. destruct (find (fun r => key r =? k) rows) as [r|] eqn:Hf;
    [|reflexivity].
  apply find_some in Hf. destruct Hf as [Hin Hk].
  apply Z.eqb_eq in Hk. now apply Hno in Hin.
Qed.

(** ** The like toggle *)

Lemma toggle_like_tables (s : db) (post_id user_id : Z) (now : datetime) :
  Posts (fst (toggle_like s post_id user_id now)) = Posts s
  /\ Users (fst (toggle_like s post_id user_id now)) = Users s.
Proof.
  unfold toggle_like, add_Like, delete_Like.
  destruct (Post_get s post_id); [|now split].
  destruct (first (Like_filter_by s post_id user_id)); [now split|].
  destruct (is_some _ && is_some _); now split.
Qed.

Lemma toggle_like_insert (s : db) (post_id user_id : Z) (now : datetime) :
  post_stored s post_id -> user_stored s user_id ->
  like_rows s post_id user_id = 0%nat ->
  toggle_like s post_id user_id now
  = (set_Likes s (Likes s ++ [Like.mk (next_id (map Like.like_id (Likes s)))
                                      post_id user_id now]),
     Ok (mkLikeBody "Post liked successfully" true) 201).
Proof.
  intros Hp Hu Hrows. unfold toggle_like, add_Like.
  pose proof (find_key_some Post.post_id (Posts s) post_id Hp) as HP.
  pose proof (find_key_some User.user_id (Users s) user_id Hu) as HU.
  unfold Post_get, User_get in *.
  destruct (find (fun p => Post.post_id p =? post_id) (Posts s)); [|discriminate].
  unfold like_rows in Hrows. apply length_zero_iff_nil in Hrows.
  rewrite Hrows. simpl. simpl in HP. rewrite HU. reflexivity.
Qed.

Lemma like_rows_insert (s : db) (post_id user_id p u : Z) (now : datetime) (k : Z) :
  like_rows (set_Likes s (Likes s ++ [Like.mk k post_id user_id now])) p u
  = (like_rows s p u
     + (if Z.eqb post_id p && Z.eqb user_id u then 1 else 0))%nat.
Proof.
  unfold like_rows, Like_filter_by. simpl.
  rewrite filter_app, length_app. simpl.
  destruct (Z.eqb post_id p && Z.eqb user_id u); reflexivity.
Qed.

Lemma toggle_like_delete (s : db) (post_id user_id : Z) (now : datetime)
    (l : Like.t) (rest : list Like.t) :
  post_stored s post_id ->
  Like_filter_by s post_id user_id = l :: rest ->
  toggle_like s post_id user_id now
  = (delete_Like s l, Ok (mkLikeBody "Post unliked successfully" false) 200).
Proof.
  intros Hp Hrows. unfold toggle_like.
  pose proof (find_key_some Post.post_id (Posts s) post_id Hp) as HP.
  unfold Post_get in *.
  destruct (find (fun p => Post.post_id p =? post_id) (Posts s)); [|discriminate].
  rewrite Hrows. reflexivity.
Qed.

Lemma like_rows_delete_le (s : db) (l : Like.t) (p u : Z) :
  (like_rows (delete_Like s l) p u <= like_rows s p u)%nat.
Proof.
  unfold like_rows, Like_filter_by, delete_Like. simpl.
  rewrite filter_swap. apply filter_length_le.
Qed.

Lemma like_rows_delete_only (s : db) (l : Like.t) (p u : Z) :
  Like_filter_by s p u = [l] -> like_rows (delete_Like s l) p u = 0%nat.
Proof.
  unfold like_rows, Like_filter_by, delete_Like. simpl. intros Hl.
  rewrite filter_swap, Hl. simpl. rewrite Z.eqb_refl. reflexivity.
Qed.

(** One toggle flips the number of rows of the pair between 0 and 1. *)
Lemma toggle_like_flip (s : db) (post_id user_id : Z) (now : datetime) :
  post_stored s post_id -> user_stored s user_id ->
  (like_rows s post_id user_id <= 1)%nat ->
  like_rows (fst (toggle_like s post_id user_id now)) post_id user_id
  = (1 - like_rows s post_id user_id)%nat.
Proof.
  intros Hp Hu Hle.
  destruct (Like_filter_by s post_id user_id) as [|l rest] eqn:Hrows.
  - assert (like_rows s post_id user_id = 0%nat) as H0
      by (unfold like_rows; now rewrite Hrows).
    rewrite (toggle_like_insert s post_id user_id now Hp Hu H0). simpl fst.
    rewrite like_rows_insert, H0, !Z.eqb_refl. reflexivity.
  - rewrite (toggle_like_delete s post_id user_id now l rest Hp Hrows). simpl fst.
    assert (rest = []) as ->.
    { unfold like_rows in Hle. rewrite Hrows in Hle. simpl in Hle.
      destruct rest; [reflexivity | simpl in Hle; lia]. }
    rewrite (like_rows_delete_only s l post_id user_id Hrows).
    unfold like_rows. rewrite Hrows. reflexivity.
Qed.

Lemma toggle_like_times_rows (nows : list datetime) :
  forall (s : db) (post_id user_id : Z),
    post_stored s post_id -> user_stored s user_id ->
    (like_rows s post_id user_id <= 1)%nat ->
    like_rows (toggle_like_times s post_id user_id nows) post_id user_id
    = if Nat.odd (length nows)
      then (1 - like_rows s post_id user_id)%nat
      else like_rows s post_id user_id.
Proof.
  induction nows as [|now nows IH]; intros s post_id user_id Hp Hu Hle;
    [reflexivity|].
  cbn [toggle_like_times length].
  destruct (toggle_like_tables s post_id user_id now) as [HP HU].
  pose proof (toggle_like_flip s post_id user_id now Hp Hu Hle) as Hflip.
  rewrite IH.
  - rewrite Hflip, Nat.odd_succ, <- Nat.negb_odd.
    destruct (Nat.odd (length nows)); cbn [negb]; lia.
  - unfold post_stored. now rewrite HP.
  - unfold user_stored. now rewrite HU.
  - lia.
Qed.

(** C1.  On a stored post, for a stored user without a Like row on it: the
    first toggle appends exactly one Like row of the pair and answers 201
    with [liked = true]; the next toggle deletes that row, which gives back
    the state before the first one, and answers 200 with [liked = false];
    and after any number of consecutive toggles the pair has one row when the
    number is odd and none when it is even. *)
Theorem toggle_like_parity (s : db) (post_id user_id : Z) :
  post_stored s post_id ->
  user_stored s user_id ->
  like_rows s post_id user_id = 0%nat ->
  (forall now1 now2 : datetime,
     let new_like :=
       Like.mk (next_id (map Like.like_id (Likes s))) post_id user_id now1 in
     let s1 := set_Likes s (Likes s ++ [new_like]) in
     toggle_like s post_id user_id now1
     = (s1, Ok (mkLikeBody "Post liked successfully" true) 201)
     /\ like_rows s1 post_id user_id = 1%nat
     /\ toggle_like s1 post_id user_id now2
        = (s, Ok (mkLikeBody "Post unliked successfully" false) 200))
  /\ (forall nows : list datetime,
        like_rows (toggle_like_times s post_id user_id nows) post_id user_id
        = if Nat.odd (length nows) then 1%nat else 0%nat).
Proof.
  intros Hp Hu H0. split.
  - intros now1 now2 new_like s1.
    split; [now apply toggle_like_insert|].
    assert (like_rows s1 post_id user_id = 1%nat) as H1.
    { unfold s1, new_like. rewrite like_rows_insert, H0, !Z.eqb_refl.
      reflexivity. }
    split; [exact H1|].
    assert (Like_filter_by s1 post_id user_id = [new_like]) as Hrows.
    { unfold like_rows in H0. apply length_zero_iff_nil in H0.
      unfold Like_filter_by in *. unfold s1. simpl.
      rewrite filter_app, H0. simpl. rewrite !Z.eqb_refl. reflexivity. }
    rewrite (toggle_like_delete s1 post_id user_id now2 new_like [] Hp Hrows).
    f_equal. unfold delete_Like, s1, set_Likes. simpl.
    rewrite filter_app. simpl. rewrite Z.eqb_refl. simpl. rewrite app_nil_r.
    rewrite (filter_other_key Like.like_id).
    + destruct s; reflexivity.
    + intros r Hr. apply next_id_above. now apply in_map.
  - intros nows.
    rewrite (toggle_like_times_rows nows s post_id user_id Hp Hu) by lia.
    rewrite H0. reflexivity.
Qed.

(** One toggle keeps the invariant, whatever the request. *)
Lemma toggle_like_keeps_one (s : db) (post_id user_id : Z) (now : datetime) :
  one_like_per_pair s ->
  one_like_per_pair (fst (toggle_like s post_id user_id now)).
Proof.
  intros Hinv p u. unfold toggle_like.
  destruct (Post_get s post_id); [|apply Hinv].
  destruct (first (Like_filter_by s post_id user_id)) as [l|] eqn:Hfirst.
  - simpl fst. etransitivity; [apply like_rows_delete_le | apply Hinv].
  - unfold add_Like.
    destruct (is_some _ && is_some _); [|apply Hinv]. simpl fst.
    rewrite like_rows_insert.
    destruct (Z.eqb_spec post_id p) as [->|]; simpl;
      [|specialize (Hinv p u); lia].
    destruct (Z.eqb_spec user_id u) as [->|]; [|specialize (Hinv p u); lia].
    unfold like_rows.
    destruct (Like_filter_by s p u); [simpl; lia | discriminate].
Qed.

(** C2.  A state with at most one Like row per (post, user) pair still has
    at most one after any sequence of like-toggle requests, each applied to
    the state the one before it left. *)
Theorem toggle_like_all_one_per_pair (reqs : list like_request) (s : db) :
  one_like_per_pair s -> one_like_per_pair (toggle_like_all s reqs).
Proof.
  revert s. induction reqs as [|[[post_id user_id] now] reqs IH]; intros s Hinv.
  - exact Hinv.
  - cbn [toggle_like_all]. apply IH. now apply toggle_like_keeps_one.
Qed.

(** C9.  A like toggle on a post id that no stored Post has is answered 404
    with [{"error": "Post not found"}], and the stored state, the Like table
    with it, is the one before the request. *)
Theorem toggle_like_post_not_found (s : db) (post_id user_id : Z) (now : datetime) :
  (forall p, In p (Posts s) -> Post.post_id p <> post_id) ->
  toggle_like s post_id user_id now = (s, Error "Post not found" 404).
Proof.
  intros Hno. unfold toggle_like, Post_get.
  rewrite (find_key_none Post.post_id (Posts s) post_id Hno). reflexivity.
Qed.

(** ** The follow toggle *)

(** C7.  A follow toggle whose target is the requesting user is answered 400
    and leaves the stored state, the Follower table with it, as it was. *)
Theorem toggle_follow_self (s : db) (user_id : Z) (now : datetime) :
  toggle_follow s user_id user_id now
  = (s, Error "You cannot follow yourself" 400).
Proof.
  unfold toggle_follow. rewrite Z.eqb_refl. reflexivity.
Qed.

(** ** Relational operators *)

Lemma in_outer_some {B : Type} (b : B) (l : list B) :
  In (Some b) (outer l) <-> In b l.
Proof.
  destruct l as [|x l]; simpl.
  - split; [intros [Hx|[]]; discriminate | tauto].
  - split.
    + intros [Hx|Hin]; [left; congruence|right].
      apply in_map_iff in Hin. destruct Hin as [y [Hy Hin]]. congruence.
    + intros [->|Hin]; [now left|right]. now apply in_map.
Qed.

Lemma outer_inhabited {B : Type} (l : list B) : exists ob, In ob (outer l).
Proof.
  destruct l as [|x l]; [exists None | exists (Some x)]; simpl; now left.
Qed.

Lemma in_join {A B : Type} (on : A -> B -> bool) (rows : list A) (tbl : list B)
    (a : A) (b : B) :
  In (a, b) (join on rows tbl) <-> In a rows /\ In b tbl /\ on a b = true.
Proof.
  unfold join. rewrite in_flat_map. split.
  - intros [a' [Ha Hin]]. apply in_map_iff in Hin.
    destruct Hin as [b' [Heq Hb]]. inversion Heq; subst.
    apply filter_In in Hb. tauto.
  - intros [Ha [Hb Hon]]. exists a. split; [exact Ha|].
    apply in_map. apply filter_In. tauto.
Qed.

Lemma in_outerjoin {A B : Type} (on : A -> B -> bool) (rows : list A)
    (tbl : list B) (a : A) (ob : option B) :
  In (a, ob) (outerjoin on rows tbl)
  <-> In a rows /\ In ob (outer (filter (on a) tbl)).
Proof.
  unfold outerjoin. rewrite in_flat_map. split.
  - intros [a' [Ha Hin]]. apply in_map_iff in Hin.
    destruct Hin as [b' [Heq Hb]]. inversion Heq; subst. tauto.
  - intros [Ha Hb]. exists a. split; [exact Ha|]. now apply in_map.
Qed.

Lemma filter_none {A : Type} (f : A -> bool) (l : list A) :
  (forall x, In x l -> f x = false) -> filter f l = [].
Proof.
  induction l as [|x l IH]; simpl; intros Hf; [reflexivity|].
  rewrite (Hf x) by now left. apply IH. intros; apply Hf; now right.
Qed.

Lemma filter_all {A : Type} (l : list A) : filter (fun _ => true) l = l.
Proof. induction l as [|x l IH]; simpl; congruence. Qed.

Lemma in_non_null {A : Type} (col : list (option A)) (v : A) :
  In v (non_null col) <-> In (Some v) col.
Proof.
  unfold non_null. rewrite in_flat_map. split.
  - intros [[w|] [Hin Hv]]; simpl in Hv; [|tauto].
    destruct Hv as [->|[]]. exact Hin.
  - intros Hin. exists (Some v). split; [exact Hin | now left].
Qed.

Lemma nodup_length_ext (l1 l2 : list Z) :
  (forall x, In x l1 <-> In x l2) ->
  length (nodup Z.eq_dec l1) = length (nodup Z.eq_dec l2).
Proof.
  intros Hext. apply Permutation_length. apply NoDup_Permutation.
  - apply NoDup_nodup.
  - apply NoDup_nodup.
  - intros x. rewrite !nodup_In. apply Hext.
Qed.

(** What [COUNT(DISTINCT column)] counts, given the values of the column. *)
Lemma count_distinct_values (col : list (option Z)) (values : list Z) :
  (forall v, In (Some v) col <-> In v values) ->
  count_distinct col = Z.of_nat (length (nodup Z.eq_dec values)).
Proof.
  intros Hext. unfold count_distinct. f_equal. apply nodup_length_ext.
  intros v. rewrite in_non_null. apply Hext.
Qed.

Lemma NoDup_map_filter {A : Type} (key : A -> Z) (f : A -> bool) (l : list A) :
  NoDup (map key l) -> NoDup (map key (filter f l)).
Proof.
  induction l as [|x l IH]; simpl; intros Hnd; [constructor|].
  inversion Hnd as [|? ? Hnotin Hnd']; subst.
  destruct (f x); simpl; [|now apply IH].
  constructor; [|now apply IH].
  intros Hin. apply Hnotin. apply in_map_iff in Hin.
  destruct Hin as [y [Hy Hin]]. apply filter_In in Hin.
  rewrite <- Hy. apply in_map. tauto.
Qed.

(** With unique keys, the distinct keys of selected rows are as many as the
    rows. *)
Lemma count_rows_of_keys {A : Type} (key : A -> Z) (f : A -> bool) (l : list A) :
  NoDup (map key l) ->
  length (nodup Z.eq_dec (map key (filter f l))) = length (filter f l).
Proof.
  intros Hnd. rewrite nodup_fixed_point by now apply NoDup_map_filter.
  apply length_map.
Qed.

(** *** GROUP BY *)

Section GroupBy.
Context {R K : Type} (K_eq_dec : forall a b : K, {a = b} + {a <> b}).
Variable key : R -> K.

Lemma in_group_by (rows g : list R) :
  In g (group_by K_eq_dec key rows) ->
  exists r0, In r0 g
    /\ forall r, In r g <-> In r rows /\ key r = key r0.
Proof.
  unfold group_by. intros Hin. apply in_map_iff in Hin.
  destruct Hin as [k [Hg Hk]]. apply nodup_In in Hk.
  apply in_map_iff in Hk. destruct Hk as [r0 [Hr0 Hin0]].
  assert (forall r, In r g <-> In r rows /\ key r = k) as Hmem.
  { intros r. rewrite <- Hg, filter_In.
    destruct (K_eq_dec (key r) k); intuition congruence. }
  exists r0. split; [apply Hmem; tauto|].
  intros r. rewrite Hmem, Hr0. tauto.
Qed.

Lemma group_by_keys (rows : list R) :
  NoDup (map (fun g => match g with r :: _ => Some (key r) | [] => None end)
             (group_by K_eq_dec key rows)).
Proof.
  unfold group_by. rewrite map_map.
  assert (forall ks : list K,
             (forall k, In k ks -> In k (map key rows)) ->
             map (fun k =>
                    match filter (fun r => if K_eq_dec (key r) k then true else false)
                                 rows with
                    | r :: _ => Some (key r)
                    | [] => None
                    end) ks
             = map Some ks) as Hmap.
  { induction ks as [|k ks IH]; intros Hks; [reflexivity|]. simpl.
    rewrite IH by (intros; apply Hks; now right). f_equal.
    assert (In k (map key rows)) as Hk by (apply Hks; now left).
    apply in_map_iff in Hk. destruct Hk as [r [Hr Hin]].
    destruct (filter _ rows) as [|r' rest] eqn:Hf.
    - assert (In r (filter (fun r => if K_eq_dec (key r) k then true else false)
                           rows)) as Hrin.
      { apply filter_In. split; [exact Hin|].
        destruct (K_eq_dec (key r) k); congruence. }
      rewrite Hf in Hrin. destruct Hrin.
    - assert (In r' (r' :: rest)) as Hr' by now left.
      rewrite <- Hf in Hr'. apply filter_In in Hr'. destruct Hr' as [_ Hr'].
      destruct (K_eq_dec (key r') k); congruence. }
  rewrite Hmap by (intros k Hk; now apply nodup_In in Hk).
  apply Finite.Injective_map_NoDup; [intros x y; congruence | apply NoDup_nodup].
Qed.
End GroupBy.

(** *** ORDER BY and LIMIT *)

Section OrderBy.
Context {A : Type} (leb : A -> A -> bool).

Lemma insert_by_perm (x : A) (l : list A) :
  Permutation (insert_by leb x l) (x :: l).
Proof.
  induction l as [|y l IH]; simpl; [reflexivity|].
  destruct (leb x y); [reflexivity|].
  rewrite IH. apply perm_swap.
Qed.

Lemma order_by_perm (l : list A) : Permutation (order_by leb l) l.
Proof.
  induction l as [|x l IH]; simpl; [reflexivity|].
  rewrite insert_by_perm. now constructor.
Qed.

Lemma in_order_by (l : list A) (x : A) : In x (order_by leb l) <-> In x l.
Proof.
  split; apply Permutation_in; [|symmetry]; apply order_by_perm.
Qed.

Hypothesis leb_total : forall x y, leb x y = true \/ leb y x = true.
Hypothesis leb_trans :
  forall x y z, leb x y = true -> leb y z = true -> leb x z = true.

Lemma insert_by_sorted (x : A) (l : list A) :
  StronglySorted (fun a b => leb a b = true) l ->
  StronglySorted (fun a b => leb a b = true) (insert_by leb x l).
Proof.
  induction l as [|y l IH]; simpl; intros Hs.
  - repeat constructor.
  - inversion Hs as [|? ? Hs' Hall]; subst.
    destruct (leb x y) eqn:Hxy.
    + constructor; [exact Hs|]. constructor; [exact Hxy|].
      rewrite Forall_forall in *. intros z Hz. eapply leb_trans; eauto.
    + constructor; [now apply IH|].
      rewrite Forall_forall in *. intros z Hz.
      apply (Permutation_in _ (insert_by_perm x l)) in Hz.
      destruct Hz as [<-|Hz]; [|now apply Hall].
      destruct (leb_total x y); congruence.
Qed.

Lemma order_by_sorted (l : list A) :
  StronglySorted (fun a b => leb a b = true) (order_by leb l).
Proof.
  induction l as [|x l IH]; simpl; [constructor | now apply insert_by_sorted].
Qed.
End OrderBy.

Lemma in_firstn {A : Type} (n : nat) (l : list A) (x : A) :
  In x (firstn n l) -> In x l.
Proof.
  intros Hin. rewrite <- (firstn_skipn n l). apply in_or_app. now left.
Qed.

Lemma StronglySorted_firstn {A : Type} (R : A -> A -> Prop) (n : nat) (l : list A) :
  StronglySorted R l -> StronglySorted R (firstn n l).
Proof.
  revert l. induction n as [|n IH]; intros l Hs; [constructor|].
  destruct l as [|x l]; [constructor|]. simpl.
  inversion Hs as [|? ? Hs' Hall]; subst. constructor; [now apply IH|].
  rewrite Forall_forall in *. intros y Hy. apply Hall.
  eapply in_firstn; eauto.
Qed.

Lemma StronglySorted_map {A B : Type} (f : A -> B) (R : B -> B -> Prop)
    (l : list A) :
  StronglySorted (fun a b => R (f a) (f b)) l -> StronglySorted R (map f l).
Proof.
  induction 1 as [|x l Hs IH Hall]; simpl; constructor; [exact IH|].
  rewrite Forall_forall in *. intros y Hy. apply in_map_iff in Hy.
  destruct Hy as [z [<- Hz]]. now apply Hall.
Qed.

Lemma StronglySorted_distinct {A K : Type} (key : A -> K) (R : A -> A -> Prop)
    (l : list A) :
  NoDup (map key l) -> StronglySorted R l ->
  StronglySorted (fun a b => R a b /\ key a <> key b) l.
Proof.
  induction l as [|x l IH]; simpl; intros Hnd Hs; [constructor|].
  inversion Hnd as [|? ? Hnotin Hnd']; subst.
  inversion Hs as [|? ? Hs' Hall]; subst.
  constructor; [now apply IH|].
  rewrite Forall_forall in *. intros y Hy. split; [now apply Hall|].
  intros Heq. apply Hnotin. rewrite Heq. now apply in_map.
Qed.

Lemma NoDup_firstn {A : Type} (n : nat) (l : list A) :
  NoDup l -> NoDup (firstn n l).
Proof.
  revert l. induction n as [|n IH]; intros l Hnd; [constructor|].
  destruct l as [|x l]; [constructor|]. simpl.
  inversion Hnd as [|? ? Hnotin Hnd']; subst. constructor; [|now apply IH].
  intros Hin. apply Hnotin. eapply in_firstn; eauto.
Qed.

Lemma limit_length {A : Type} (n : nat) (l : list A) :
  (length (limit n l) <= n)%nat.
Proof. unfold limit. apply firstn_le_length. Qed.

Lemma in_limit {A : Type} (n : nat) (l : list A) (x : A) :
  In x (limit n l) -> In x l.
Proof. unfold limit. apply in_firstn. Qed.

(** *** The order of dates *)

Lemma lex_leb_total (a b : list Z) : lex_leb a b = true \/ lex_leb b a = true.
Proof.
  revert b. induction a as [|x a IH]; intros [|y b]; simpl; auto.
  destruct (Z.ltb_spec x y), (Z.ltb_spec y x); auto; lia.
Qed.

Lemma lex_leb_trans (a b c : list Z) :
  lex_leb a b = true -> lex_leb b c = true -> lex_leb a c = true.
Proof.
  revert b c. induction a as [|x a IH]; intros [|y b] [|z c]; simpl; auto;
    try discriminate.
  destruct (Z.ltb_spec x y), (Z.ltb_spec y x), (Z.ltb_spec y z),
    (Z.ltb_spec z y), (Z.ltb_spec x z), (Z.ltb_spec z x);
    auto; try discriminate; try lia.
  apply IH.
Qed.

Lemma StronglySorted_impl {A : Type} (R1 R2 : A -> A -> Prop) (l : list A) :
  (forall a b, R1 a b -> R2 a b) -> StronglySorted R1 l -> StronglySorted R2 l.
Proof.
  intros Himpl. induction 1 as [|x l Hs IH Hall]; constructor; [exact IH|].
  rewrite Forall_forall in *. auto.
Qed.

(** ** The joined rows *)

Lemma in_feed_rows (s : db) (p : Post.t) (u : User.t)
    (ol : option Like.t) (oc : option Comment.t) :
  In (p, u, ol, oc) (feed_rows s)
  <-> In p (Posts s) /\ In u (Users s) /\ User.user_id u = Post.user_id p
      /\ In ol (outer (likes_of s (Post.post_id p)))
      /\ In oc (outer (comments_of s (Post.post_id p))).
Proof.
  unfold feed_rows, likes_of, comments_of.
  rewrite !in_outerjoin, in_join. simpl. rewrite Z.eqb_eq. tauto.
Qed.

Lemma in_post_rows (s : db) (p : Post.t)
    (ol : option Like.t) (oc : option Comment.t) :
  In (p, ol, oc) (post_rows s)
  <-> In p (Posts s)
      /\ In ol (outer (likes_of s (Post.post_id p)))
      /\ In oc (outer (comments_of s (Post.post_id p))).
Proof.
  unfold post_rows, likes_of, comments_of.
  rewrite !in_outerjoin. simpl. tauto.
Qed.

Lemma in_likes_of (s : db) (post_id : Z) (l : Like.t) :
  In l (likes_of s post_id) <-> In l (Likes s) /\ Like.post_id l = post_id.
Proof. unfold likes_of. now rewrite filter_In, Z.eqb_eq. Qed.

Lemma in_comments_of (s : db) (post_id : Z) (c : Comment.t) :
  In c (comments_of s post_id)
  <-> In c (Comments s) /\ Comment.post_id c = post_id.
Proof. unfold comments_of. now rewrite filter_In, Z.eqb_eq. Qed.

(** The two counts of a group of the feed query are the numbers of distinct
    Like keys and of distinct Comment keys of the group's post; the product
    of the two outer joins repeats rows but adds no key. *)
Lemma feed_group_counts (s : db) (W : Post.t -> User.t -> bool)
    (g : list feed_row) :
  In g (group_by pair_eq_dec feed_key
          (filter (fun r => W (feed_post r) (feed_user r)) (feed_rows s))) ->
  exists r0 rest,
    g = r0 :: rest
    /\ In (feed_post r0) (Posts s)
    /\ W (feed_post r0) (feed_user r0) = true
    /\ likes_count_of g
       = Z.of_nat (length (nodup Z.eq_dec
           (map Like.like_id (likes_of s (Post.post_id (feed_post r0))))))
    /\ comments_count_of g
       = Z.of_nat (length (nodup Z.eq_dec
           (map Comment.comment_id
                (comments_of s (Post.post_id (feed_post r0)))))).
Proof.
  intros Hg. apply in_group_by in Hg. destruct Hg as [r1 [Hr1 Hmem]].
  destruct g as [|r0 rest]; [destruct Hr1|].
  assert (feed_key r0 = feed_key r1) as Hk0 by (apply Hmem; now left).
  assert (forall r, In r (r0 :: rest)
                    <-> (In r (feed_rows s)
                         /\ W (feed_post r) (feed_user r) = true)
                        /\ feed_key r = feed_key r0) as Hmem'.
  { intros r. rewrite Hmem, filter_In, Hk0. tauto. }
  clear Hmem Hr1 Hk0 r1.
  assert (In r0 (r0 :: rest)) as Hr0 by now left.
  apply Hmem' in Hr0. destruct Hr0 as [[Hrow0 HW0] _].
  destruct r0 as [[[p0 u0] ol0] oc0]. unfold feed_post, feed_user in *.
  simpl in *. pose proof Hrow0 as Hrow0'.
  apply in_feed_rows in Hrow0'.
  destruct Hrow0' as [Hp0 [Hu0 [Hpu0 [Hol0 Hoc0]]]].
  exists (p0, u0, ol0, oc0), rest. split; [reflexivity|].
  split; [exact Hp0|]. split; [exact HW0|]. split.
  - apply count_distinct_values. intros v. rewrite !in_map_iff. split.
    + intros [[[[p u] ol] oc] [Hv Hin]]. apply Hmem' in Hin.
      destruct Hin as [[Hrow _] Hkey]. apply in_feed_rows in Hrow.
      unfold feed_key, feed_post, feed_user, feed_like in *. simpl in *.
      destruct ol as [l|]; [|discriminate]. simpl in Hv.
      exists l. split; [congruence|].
      destruct Hrow as [_ [_ [_ [Hl _]]]].
      apply (proj1 (in_outer_some _ _)) in Hl. congruence.
    + intros [l [Hv Hl]]. exists (p0, u0, Some l, oc0).
      split; [simpl; congruence|]. apply Hmem'. simpl.
      split; [|reflexivity]. split; [|exact HW0].
      apply in_feed_rows. repeat split; auto. now apply in_outer_some.
  - apply count_distinct_values. intros v. rewrite !in_map_iff. split.
    + intros [[[[p u] ol] oc] [Hv Hin]]. apply Hmem' in Hin.
      destruct Hin as [[Hrow _] Hkey]. apply in_feed_rows in Hrow.
      unfold feed_key, feed_post, feed_user, feed_comment in *. simpl in *.
      destruct oc as [c|]; [|discriminate]. simpl in Hv.
      exists c. split; [congruence|].
      destruct Hrow as [_ [_ [_ [_ Hc]]]].
      apply (proj1 (in_outer_some _ _)) in Hc. congruence.
    + intros [c [Hv Hc]]. exists (p0, u0, ol0, Some c).
      split; [simpl; congruence|]. apply Hmem'. simpl.
      split; [|reflexivity]. split; [|exact HW0].
      apply in_feed_rows. repeat split; auto. now apply in_outer_some.
Qed.

Lemma likes_count_rows (s : db) (post_id : Z) :
  NoDup (map Like.like_id (Likes s)) ->
  length (nodup Z.eq_dec (map Like.like_id (likes_of s post_id)))
  = length (likes_of s post_id).
Proof. apply count_rows_of_keys. Qed.

Lemma comments_count_rows (s : db) (post_id : Z) :
  NoDup (map Comment.comment_id (Comments s)) ->
  length (nodup Z.eq_dec (map Comment.comment_id (comments_of s post_id)))
  = length (comments_of s post_id).
Proof. apply count_rows_of_keys. Qed.

(** ** Top posts *)

(** C4.  The top-posts handler answers 200 with at most 10 rows; in each row
    the likes count is the number of distinct Like keys of the post, the
    comments count the number of its distinct Comment keys, and the
    engagement score their sum; and the score never increases from a row to
    any later row.  Primary keys being unique, the two counts are the numbers
    of Like rows and of Comment rows of the post. *)
Theorem get_top_posts_ranked (s : db) :
  exists rows : list TopPost.t,
    get_top_posts s = Ok rows 200
    /\ (forall e, In e rows ->
          TopPost.likes_count e
          = distinct (map Like.like_id (likes_of s (TopPost.post_id e)))
          /\ TopPost.comments_count e
             = distinct (map Comment.comment_id
                             (comments_of s (TopPost.post_id e)))
          /\ TopPost.engagement_score e
             = TopPost.likes_count e + TopPost.comments_count e
          /\ (keys_unique s ->
              TopPost.likes_count e
              = Z.of_nat (length (likes_of s (TopPost.post_id e)))
              /\ TopPost.comments_count e
                 = Z.of_nat (length (comments_of s (TopPost.post_id e)))))
    /\ StronglySorted
         (fun a b => TopPost.engagement_score b <= TopPost.engagement_score a)
         rows
    /\ (length rows <= 10)%nat.
Proof.
  unfold get_top_posts.
  eexists. split; [reflexivity|]. split; [|split].
  - intros e He. apply in_map_iff in He. destruct He as [row [<- Hrow]].
    apply in_limit in Hrow. apply in_order_by in Hrow.
    apply in_flat_map in Hrow. destruct Hrow as [g [Hg Hsel]].
    rewrite <- (filter_all (feed_rows s)) in Hg.
    apply (feed_group_counts s (fun _ _ => true)) in Hg.
    destruct Hg as [r0 [rest [-> [_ [_ [Hl Hc]]]]]].
    cbn [top_select In] in Hsel. destruct Hsel as [<-|[]].
    cbn [top_post TopPost.post_id TopPost.likes_count TopPost.comments_count
         TopPost.engagement_score].
    unfold distinct. rewrite Hl, Hc.
    split; [reflexivity|]. split; [reflexivity|]. split; [reflexivity|].
    intros [_ [Hlikes Hcomments]].
    now rewrite likes_count_rows, comments_count_rows.
  - apply StronglySorted_map. unfold limit. apply StronglySorted_firstn.
    eapply StronglySorted_impl;
      [|apply order_by_sorted with (leb := fun a b : Post.t * User.t * Z * Z * Z =>
                                            snd b <=? snd a)].
    + intros [[[[? ?] ?] ?] sa] [[[[? ?] ?] ?] sb]. simpl. apply Z.leb_le.
    + intros x y. rewrite !Z.leb_le. lia.
    + intros x y z. rewrite !Z.leb_le. lia.
  - rewrite length_map. apply limit_length.
Qed.

(** ** Aggregate stats *)

Lemma post_rows_of_nobody (s : db) (user_id : Z) :
  (forall p, In p (Posts s) -> Post.user_id p <> user_id) ->
  filter (owned_by user_id) (post_rows s) = [].
Proof.
  intros Hnone. apply filter_none. intros [[p ol] oc] Hin.
  apply in_post_rows in Hin. destruct Hin as [Hp _]. unfold owned_by. simpl.
  apply Z.eqb_neq. now apply Hnone.
Qed.

(** C5.  For a user who owns no post the stats handler answers 200, with all
    three totals 0 and both averages 0. *)
Theorem get_post_stats_no_posts `{Env} (s : db) (user_id : Z) :
  (forall p, In p (Posts s) -> Post.user_id p <> user_id) ->
  get_post_stats s user_id = Ok (Stats.mk 0 0 0 0%Q 0%Q) 200.
Proof.
  intros Hnone. unfold get_post_stats. cbv zeta.
  rewrite (post_rows_of_nobody s user_id Hnone). reflexivity.
Qed.

(** ** Engagement by date *)

Lemma in_posts_on (s : db) (user_id : Z) (d : calendar_date) (p : Post.t) :
  In p (posts_on s user_id d)
  <-> In p (Posts s) /\ Post.user_id p = user_id
      /\ date_of (Post.created_at p) = d.
Proof.
  unfold posts_on. rewrite filter_In, andb_true_iff, Z.eqb_eq.
  destruct (date_eq_dec (date_of (Post.created_at p)) d); intuition congruence.
Qed.

Lemma in_likes_on (s : db) (user_id : Z) (d : calendar_date) (l : Like.t) :
  In l (likes_on s user_id d)
  <-> In l (Likes s)
      /\ exists p, In p (posts_on s user_id d) /\ Post.post_id p = Like.post_id l.
Proof.
  unfold likes_on. rewrite filter_In, existsb_exists.
  split; intros [Hl [p [Hp Heq]]]; (split; [exact Hl|]); exists p;
    (split; [exact Hp|]); now apply Z.eqb_eq.
Qed.

Lemma in_comments_on (s : db) (user_id : Z) (d : calendar_date) (c : Comment.t) :
  In c (comments_on s user_id d)
  <-> In c (Comments s)
      /\ exists p, In p (posts_on s user_id d)
                   /\ Post.post_id p = Comment.post_id c.
Proof.
  unfold comments_on. rewrite filter_In, existsb_exists.
  split; intros [Hl [p [Hp Heq]]]; (split; [exact Hl|]); exists p;
    (split; [exact Hp|]); now apply Z.eqb_eq.
Qed.

(** The three counts of a date group. *)
Lemma date_group_counts (s : db) (user_id : Z) (g : list post_row) :
  In g (group_by date_eq_dec row_date
          (filter (owned_by user_id) (post_rows s))) ->
  exists r0 rest,
    g = r0 :: rest
    /\ In (fst (fst r0)) (posts_on s user_id (row_date r0))
    /\ count_distinct (posts_col g)
       = Z.of_nat (length (nodup Z.eq_dec
           (map Post.post_id (posts_on s user_id (row_date r0)))))
    /\ count_distinct (likes_col g)
       = Z.of_nat (length (nodup Z.eq_dec
           (map Like.like_id (likes_on s user_id (row_date r0)))))
    /\ count_distinct (comments_col g)
       = Z.of_nat (length (nodup Z.eq_dec
           (map Comment.comment_id (comments_on s user_id (row_date r0))))).
Proof.
  intros Hg. apply in_group_by in Hg. destruct Hg as [r1 [Hr1 Hmem]].
  destruct g as [|r0 rest]; [destruct Hr1|].
  assert (row_date r0 = row_date r1) as Hk0 by (apply Hmem; now left).
  assert (forall p ol oc,
             In (p, ol, oc) (r0 :: rest)
             <-> In p (posts_on s user_id (row_date r0))
                 /\ In ol (outer (likes_of s (Post.post_id p)))
                 /\ In oc (outer (comments_of s (Post.post_id p)))) as Hmem'.
  { intros p ol oc. rewrite Hmem, filter_In, in_post_rows, in_posts_on, Hk0.
    unfold row_date, owned_by. simpl. rewrite Z.eqb_eq. tauto. }
  clear Hmem Hr1 Hk0 r1.
  exists r0, rest. split; [reflexivity|].
  set (d := row_date r0) in *. clearbody d.
  split; [|split; [|split]].
  - destruct r0 as [[p0 ol0] oc0]. simpl.
    apply (Hmem' p0 ol0 oc0). now left.
  - apply count_distinct_values. intros v. unfold posts_col.
    rewrite !in_map_iff. split.
    + intros [[[p ol] oc] [Hv Hin]]. apply Hmem' in Hin. simpl in Hv.
      exists p. split; [congruence | tauto].
    + intros [p [Hv Hp]].
      destruct (outer_inhabited (likes_of s (Post.post_id p))) as [ol Hol].
      destruct (outer_inhabited (comments_of s (Post.post_id p))) as [oc Hoc].
      exists (p, ol, oc). split; [simpl; congruence|]. apply Hmem'. tauto.
  - apply count_distinct_values. intros v. unfold likes_col.
    rewrite !in_map_iff. split.
    + intros [[[p ol] oc] [Hv Hin]]. apply Hmem' in Hin. simpl in Hv.
      destruct ol as [l|]; [|discriminate]. simpl in Hv.
      exists l. split; [congruence|].
      destruct Hin as [Hp [Hl _]]. apply (proj1 (in_outer_some _ _)) in Hl.
      apply in_likes_of in Hl. apply in_likes_on.
      split; [tauto|]. exists p. split; [exact Hp | symmetry; tauto].
    + intros [l [Hv Hl]]. apply in_likes_on in Hl.
      destruct Hl as [Hl [p [Hp Heq]]].
      destruct (outer_inhabited (comments_of s (Post.post_id p))) as [oc Hoc].
      exists (p, Some l, oc). split; [simpl; congruence|]. apply Hmem'.
      split; [exact Hp|]. split; [|exact Hoc].
      apply in_outer_some. apply in_likes_of. split; [exact Hl | congruence].
  - apply count_distinct_values. intros v. unfold comments_col.
    rewrite !in_map_iff. split.
    + intros [[[p ol] oc] [Hv Hin]]. apply Hmem' in Hin. simpl in Hv.
      destruct oc as [c|]; [|discriminate]. simpl in Hv.
      exists c. split; [congruence|].
      destruct Hin as [Hp [_ Hc]]. apply (proj1 (in_outer_some _ _)) in Hc.
      apply in_comments_of in Hc. apply in_comments_on.
      split; [tauto|]. exists p. split; [exact Hp | symmetry; tauto].
    + intros [c [Hv Hc]]. apply in_comments_on in Hc.
      destruct Hc as [Hc [p [Hp Heq]]].
      destruct (outer_inhabited (likes_of s (Post.post_id p))) as [ol Hol].
      exists (p, ol, Some c). split; [simpl; congruence|]. apply Hmem'.
      split; [exact Hp|]. split; [exact Hol|].
      apply in_outer_some. apply in_comments_of. split; [exact Hc | congruence].
Qed.

(** No two rows of the date query have the same date. *)
Lemma engagement_dates_distinct (gs : list (list post_row)) :
  NoDup (map (fun g => match g with r :: _ => Some (row_date r) | [] => None end)
             gs) ->
  NoDup (map Engagement.date (flat_map engagement_select gs)).
Proof.
  induction gs as [|g gs IH]; simpl; intros Hnd; [constructor|].
  inversion Hnd as [|? ? Hnotin Hnd']; subst.
  destruct g as [|r rest]; simpl; [now apply IH|].
  constructor; [|now apply IH].
  intros Hin. apply Hnotin. apply in_map_iff in Hin.
  destruct Hin as [e [He Hin]]. apply in_flat_map in Hin.
  destruct Hin as [g' [Hg' Hsel]].
  destruct g' as [|r' rest']; simpl in Hsel; [destruct Hsel|].
  destruct Hsel as [<-|[]]. simpl in He.
  apply in_map_iff. exists (r' :: rest'). split; [|exact Hg'].
  now rewrite He.
Qed.

(** C8.  The engagement-by-date handler answers 200 with at most 30 rows.
    Each row is for a calendar date on which the requesting user created a
    post, and counts the distinct keys of the user's posts of that date, of
    the Like rows of those posts and of the Comment rows of those posts;
    from each row to any later one the date gets strictly earlier.  Primary
    keys being unique, the three counts are the numbers of those rows. *)
Theorem get_engagement_by_date_grouped (s : db) (user_id : Z) :
  exists rows : list Engagement.t,
    get_engagement_by_date s user_id = Ok rows 200
    /\ (forall e, In e rows ->
          let d := Engagement.date e in
          posts_on s user_id d <> []
          /\ Engagement.posts_count e
             = distinct (map Post.post_id (posts_on s user_id d))
          /\ Engagement.likes_count e
             = distinct (map Like.like_id (likes_on s user_id d))
          /\ Engagement.comments_count e
             = distinct (map Comment.comment_id (comments_on s user_id d))
          /\ (keys_unique s ->
              Engagement.posts_count e
              = Z.of_nat (length (posts_on s user_id d))
              /\ Engagement.likes_count e
                 = Z.of_nat (length (likes_on s user_id d))
              /\ Engagement.comments_count e
                 = Z.of_nat (length (comments_on s user_id d))))
    /\ StronglySorted
         (fun a b => date_leb (Engagement.date b) (Engagement.date a) = true
                     /\ Engagement.date a <> Engagement.date b)
         rows
    /\ (length rows <= 30)%nat.
Proof.
  unfold get_engagement_by_date.
  eexists. split; [reflexivity|]. split; [|split].
  - intros e He. apply in_limit in He. apply in_order_by in He.
    apply in_flat_map in He. destruct He as [g [Hg Hsel]].
    apply (date_group_counts s user_id) in Hg.
    destruct Hg as [r0 [rest [-> [Hp0 [Hp [Hl Hc]]]]]].
    cbn [engagement_select In] in Hsel. destruct Hsel as [<-|[]].
    cbn [Engagement.date Engagement.posts_count Engagement.likes_count
         Engagement.comments_count].
    unfold distinct. rewrite Hp, Hl, Hc.
    split; [intros Hnil; rewrite Hnil in Hp0; destruct Hp0|].
    split; [reflexivity|]. split; [reflexivity|]. split; [reflexivity|].
    intros [Hposts [Hlikes Hcomments]].
    unfold posts_on, likes_on, comments_on in *.
    now rewrite !count_rows_of_keys.
  - unfold limit. apply StronglySorted_distinct.
    + rewrite <- firstn_map. apply NoDup_firstn.
      eapply Permutation_NoDup.
      * apply Permutation_map. symmetry. apply order_by_perm.
      * apply engagement_dates_distinct. apply group_by_keys.
    + apply StronglySorted_firstn.
      apply order_by_sorted
        with (leb := fun a b => date_leb (Engagement.date b) (Engagement.date a)).
      * intros x y. apply lex_leb_total.
      * intros x y z Hxy Hyz. unfold date_leb in *.
        eapply lex_leb_trans; eauto.
  - apply limit_length.
Qed.

(** ** Discover feed *)

Lemma traverse_in {A B : Type} (f : A -> option B) (l : list A) :
  forall bs, traverse f l = Some bs ->
  forall b, In b bs -> exists a, In a l /\ f a = Some b.
Proof.
  induction l as [|a l IH]; simpl; intros bs Hbs b Hb.
  - injection Hbs as <-. destruct Hb.
  - destruct (f a) as [b0|] eqn:Hfa; [|discriminate].
    destruct (traverse f l) as [bs0|]; [|discriminate].
    injection Hbs as <-. destruct Hb as [<-|Hb].
    + exists a. split; [now left | exact Hfa].
    + destruct (IH bs0 eq_refl b Hb) as [a' [Hin Ha']].
      exists a'. split; [now right | exact Ha'].
Qed.

Lemma traverse_total {A B : Type} (f : A -> option B) (l : list A) :
  (forall a, In a l -> f a <> None) -> exists bs, traverse f l = Some bs.
Proof.
  induction l as [|a l IH]; simpl; intros Hf; [now exists []|].
  destruct (f a) as [b|] eqn:Hfa; [|now destruct (Hf a (or_introl eq_refl))].
  destruct IH as [bs ->]; [intros; apply Hf; now right|].
  now exists (b :: bs).
Qed.

Lemma filter_and {A : Type} (f g : A -> bool) (l : list A) :
  filter f (filter g l) = filter (fun x => g x && f x) l.
Proof.
  induction l as [|x l IH]; simpl; [reflexivity|].
  destruct (g x); simpl; [destruct (f x)|]; now rewrite IH.
Qed.

Section DiscoverProperties.
Context `{Env}.

(** Each WHERE clause keeps the rows on which a condition on the post and
    its author holds. *)
Lemma where_date_from_filter (date_from : option string) :
  exists W : Post.t -> User.t -> bool,
    (forall rows, where_date_from date_from rows
                  = filter (fun r => W (feed_post r) (feed_user r)) rows)
    /\ forall df from_date,
         date_from = Some df -> truthy df = true ->
         fromisoformat df = Some from_date ->
         forall p u, W p u = true ->
           datetime_leb (replace from_date 0 0 0 0) (Post.created_at p) = true.
Proof.
  unfold where_date_from. destruct date_from as [df|].
  - destruct (truthy df) eqn:Ht; [destruct (fromisoformat df) as [d|] eqn:Hd|].
    + exists (fun p _ => datetime_leb (replace d 0 0 0 0) (Post.created_at p)).
      split; [reflexivity|]. intros df' d' Hdf _ Hd' p u Hw.
      injection Hdf as <-. congruence.
    + exists (fun _ _ => true). split; [intros; now rewrite filter_all|].
      intros df' d' Hdf _ Hd'. injection Hdf as <-. congruence.
    + exists (fun _ _ => true). split; [intros; now rewrite filter_all|].
      intros df' d' Hdf Ht'. injection Hdf as <-. congruence.
  - exists (fun _ _ => true). split; [intros; now rewrite filter_all|].
    discriminate.
Qed.

Lemma where_date_to_filter (date_to : option string) :
  exists W : Post.t -> User.t -> bool,
    (forall rows, where_date_to date_to rows
                  = filter (fun r => W (feed_post r) (feed_user r)) rows)
    /\ forall dt to_date,
         date_to = Some dt -> truthy dt = true ->
         fromisoformat dt = Some to_date ->
         forall p u, W p u = true ->
           datetime_leb (Post.created_at p) (replace to_date 23 59 59 999999)
           = true.
Proof.
  unfold where_date_to. destruct date_to as [dt|].
  - destruct (truthy dt) eqn:Ht; [destruct (fromisoformat dt) as [d|] eqn:Hd|].
    + exists (fun p _ => datetime_leb (Post.created_at p)
                                      (replace d 23 59 59 999999)).
      split; [reflexivity|]. intros dt' d' Hdt _ Hd' p u Hw.
      injection Hdt as <-. congruence.
    + exists (fun _ _ => true). split; [intros; now rewrite filter_all|].
      intros dt' d' Hdt _ Hd'. injection Hdt as <-. congruence.
    + exists (fun _ _ => true). split; [intros; now rewrite filter_all|].
      intros dt' d' Hdt Ht'. injection Hdt as <-. congruence.
  - exists (fun _ _ => true). split; [intros; now rewrite filter_all|].
    discriminate.
Qed.

Lemma where_author_filter (author : option string) :
  exists W : Post.t -> User.t -> bool,
    forall rows, where_author author rows
                 = filter (fun r => W (feed_post r) (feed_user r)) rows.
Proof.
  unfold where_author. destruct author as [a|].
  - destruct (truthy a).
    + exists (fun _ u => ilike (User.username u) ("%" ++ a ++ "%")%string).
      reflexivity.
    + exists (fun _ _ => true). intros; now rewrite filter_all.
  - exists (fun _ _ => true). intros; now rewrite filter_all.
Qed.

(** Every row of the result of the discover query comes from a stored post
    that passes the date clauses, and carries the numbers of distinct Like
    and Comment keys of that post. *)
Lemma discover_row (s : db) (args : discover_args)
    (row : Post.t * User.t * Z * Z) :
  In row (flat_map feed_select
            (group_by pair_eq_dec feed_key
               (where_author (author args)
                  (where_date_to (date_to args)
                     (where_date_from (date_from args) (feed_rows s)))))) ->
  let '(post, _, likes_count, _) := row in
  In post (Posts s)
  /\ likes_count
     = Z.of_nat (length (nodup Z.eq_dec
         (map Like.like_id (likes_of s (Post.post_id post)))))
  /\ (forall df from_date,
        date_from args = Some df -> truthy df = true ->
        fromisoformat df = Some from_date ->
        datetime_leb (replace from_date 0 0 0 0) (Post.created_at post) = true)
  /\ (forall dt to_date,
        date_to args = Some dt -> truthy dt = true ->
        fromisoformat dt = Some to_date ->
        datetime_leb (Post.created_at post) (replace to_date 23 59 59 999999)
        = true).
Proof.
  destruct (where_date_from_filter (date_from args)) as [Wf [Hf Hfrom]].
  destruct (where_date_to_filter (date_to args)) as [Wt [Ht Hto]].
  destruct (where_author_filter (author args)) as [Wa Ha].
  rewrite Ha, Ht, Hf, !filter_and.
  intros Hrow. apply in_flat_map in Hrow. destruct Hrow as [g [Hg Hsel]].
  apply (feed_group_counts s (fun p u => Wf p u && (Wt p u && Wa p u))) in Hg.
  destruct Hg as [r0 [rest [-> [Hp [HW [Hl _]]]]]].
  cbn [feed_select In] in Hsel. destruct Hsel as [<-|[]].
  apply andb_true_iff in HW. destruct HW as [HWf HW].
  apply andb_true_iff in HW. destruct HW as [HWt _].
  split; [exact Hp|]. split; [exact Hl|]. split.
  - intros df d Hdf Htr Hd. eapply Hfrom; eauto.
  - intros dt d Hdt Htr Hd. eapply Hto; eauto.
Qed.

Lemma post_data_fields (s : db) (user_id : Z)
    (post : Post.t) (author : User.t) (likes_count comments_count : Z)
    (e : PostData.t) :
  post_data s user_id (post, author, likes_count, comments_count) = Some e ->
  PostData.post_id e = Post.post_id post
  /\ PostData.created_at e = Post.created_at post
  /\ PostData.likes_count e = likes_count.
Proof.
  unfold post_data. destruct (comments_data s (Post.post_id post));
    [|discriminate].
  intros He. injection He as <-. now repeat split.
Qed.

(** C3, as the code has it.  In a 200 answer of the discover feed: when
    [date_from] and [date_to] are both supplied, non-empty and parseable,
    every post of the answer was created between the start of the day of
    [date_from] and the end of the day of [date_to], both included; and when
    [min_likes] is supplied as a non-empty string of digits with value [n],
    the likes count of every post of the answer is at least [n].  That count
    is the number of distinct Like keys of the post, and, primary keys being
    unique, the number of its Like rows.  A [min_likes] that is not a string
    of digits adds no filter: the answer is the answer to the request
    without it. *)
Theorem get_discover_posts_filtered (s : db) (user_id : Z)
    (args : discover_args) (posts : list PostData.t) :
  get_discover_posts s user_id args = Ok posts 200 ->
  (forall df dt from_date to_date,
      date_from args = Some df -> truthy df = true ->
      fromisoformat df = Some from_date ->
      date_to args = Some dt -> truthy dt = true ->
      fromisoformat dt = Some to_date ->
      forall e, In e posts ->
        datetime_leb (replace from_date 0 0 0 0) (PostData.created_at e) = true
        /\ datetime_leb (PostData.created_at e)
                        (replace to_date 23 59 59 999999) = true)
  /\ (forall ml n,
        min_likes args = Some ml -> truthy ml = true ->
        isdigit ml = true -> int ml = Some n ->
        forall e, In e posts -> n <= PostData.likes_count e)
  /\ (forall e, In e posts ->
        PostData.likes_count e
        = distinct (map Like.like_id (likes_of s (PostData.post_id e)))
        /\ (keys_unique s ->
            PostData.likes_count e
            = Z.of_nat (length (likes_of s (PostData.post_id e)))))
  /\ (forall ml,
        min_likes args = Some ml -> isdigit ml = false ->
        get_discover_posts s user_id args
        = get_discover_posts s user_id
            (mkArgs (date_from args) (date_to args) None (author args))).
Proof.
  assert (forall ml,
             min_likes args = Some ml -> isdigit ml = false ->
             get_discover_posts s user_id args
             = get_discover_posts s user_id
                 (mkArgs (date_from args) (date_to args) None (author args)))
    as Hignored.
  { intros ml Hml Hdig. unfold get_discover_posts, having_min_likes.
    cbn [date_from date_to min_likes author].
    rewrite Hml, Hdig, andb_false_r. reflexivity. }
  intros Hok. unfold get_discover_posts in Hok.
  destruct (having_min_likes (min_likes args)) as [having|] eqn:Hhaving;
    [|discriminate].
  match type of Hok with
  | context [traverse ?f ?l] =>
      destruct (traverse f l) as [posts_data|] eqn:Htr; [|discriminate]
  end.
  injection Hok as <-.
  assert (forall e, In e posts_data ->
            exists post au lc cc,
              post_data s user_id (post, au, lc, cc) = Some e
              /\ having (post, au, lc, cc) = true
              /\ In (post, au, lc, cc)
                    (flat_map feed_select
                       (group_by pair_eq_dec feed_key
                          (where_author (author args)
                             (where_date_to (date_to args)
                                (where_date_from (date_from args)
                                                 (feed_rows s))))))) as Hrows.
  { intros e He. destruct (traverse_in _ _ _ Htr e He) as [row [Hrow Hdata]].
    apply in_limit in Hrow. apply in_order_by in Hrow.
    apply filter_In in Hrow. destruct Hrow as [Hrow Hhav].
    destruct row as [[[post au] lc] cc]. exists post, au, lc, cc. tauto. }
  split; [|split; [|split; [|exact Hignored]]].
  - intros df dt from_date to_date Hdf Htf Hpf Hdt Htt Hpt e He.
    destruct (Hrows e He) as [post [au [lc [cc [Hdata [_ Hrow]]]]]].
    apply post_data_fields in Hdata. destruct Hdata as [_ [-> _]].
    apply discover_row in Hrow. destruct Hrow as [_ [_ [Hfrom Hto]]].
    split; [eapply Hfrom | eapply Hto]; eauto.
  - intros ml n Hml Html Hdig Hint e He.
    destruct (Hrows e He) as [post [au [lc [cc [Hdata [Hhav _]]]]]].
    apply post_data_fields in Hdata. destruct Hdata as [_ [_ ->]].
    unfold having_min_likes in Hhaving.
    rewrite Hml, Html, Hdig, Hint in Hhaving. simpl in Hhaving.
    injection Hhaving as <-. now apply Z.leb_le.
  - intros e He.
    destruct (Hrows e He) as [post [au [lc [cc [Hdata [_ Hrow]]]]]].
    apply post_data_fields in Hdata. destruct Hdata as [-> [_ ->]].
    apply discover_row in Hrow. destruct Hrow as [_ [Hlc _]].
    split; [exact Hlc|]. intros [_ [Hlikes _]].
    now rewrite Hlc, likes_count_rows.
Qed.

Lemma comments_data_total (s : db) (post_id : Z) :
  comment_authors_stored s -> comments_data s post_id <> None.
Proof.
  intros Hfk. unfold comments_data.
  match goal with
  | |- traverse ?f ?l <> None =>
      destruct (traverse_total f l) as [bs ->]; [|discriminate]
  end.
  intros c Hc. apply in_order_by in Hc. apply filter_In in Hc.
  destruct Hc as [Hc _]. unfold comment_data.
  pose proof (find_key_some User.user_id (Users s) (Comment.user_id c)
                (Hfk c Hc)) as Hu.
  unfold User_get.
  destruct (find (fun u => User.user_id u =? Comment.user_id c) (Users s));
    [discriminate | discriminate Hu].
Qed.

Lemma post_data_total (s : db) (user_id : Z) (row : Post.t * User.t * Z * Z) :
  comment_authors_stored s -> post_data s user_id row <> None.
Proof.
  intros Hfk. destruct row as [[[post au] lc] cc]. unfold post_data.
  pose proof (comments_data_total s (Post.post_id post) Hfk) as Hc.
  destruct (comments_data s (Post.post_id post)); [discriminate | easy].
Qed.

(** Parameters that the discover handler ignores: an unparseable
    [date_from] or [date_to] changes nothing, the answer is the answer to the
    request without it; and the answer is a 200 whenever [min_likes], if
    supplied, is not both accepted by [str.isdigit] and rejected by [int]. *)
Lemma get_discover_posts_ignores_unparsed (s : db) (user_id : Z)
    (df dt ml au : option string) :
  (forall x, fromisoformat x = None ->
     get_discover_posts s user_id (mkArgs (Some x) dt ml au)
     = get_discover_posts s user_id (mkArgs None dt ml au))
  /\ (forall x, fromisoformat x = None ->
        get_discover_posts s user_id (mkArgs df (Some x) ml au)
        = get_discover_posts s user_id (mkArgs df None ml au))
  /\ (comment_authors_stored s ->
      (forall x, ml = Some x -> isdigit x = false \/ exists n, int x = Some n) ->
      status_of (get_discover_posts s user_id (mkArgs df dt ml au)) = 200).
Proof.
  split; [|split].
  - intros x Hx. unfold get_discover_posts, where_date_from.
    cbn [date_from date_to min_likes author]. rewrite Hx.
    destruct (truthy x); reflexivity.
  - intros x Hx. unfold get_discover_posts, where_date_to.
    cbn [date_from date_to min_likes author]. rewrite Hx.
    destruct (truthy x); reflexivity.
  - intros Hfk Hml. unfold get_discover_posts.
    cbn [date_from date_to min_likes author].
    assert (exists having, having_min_likes ml = Some having) as [having ->].
    { unfold having_min_likes. destruct ml as [x|]; [|eauto].
      destruct (Hml x eq_refl) as [Hx|[n Hn]].
      - rewrite Hx, andb_false_r. eauto.
      - rewrite Hn. destruct (truthy x && isdigit x); eauto. }
    match goal with
    | |- context [traverse ?f ?l] =>
        destruct (traverse_total f l) as [posts_data ->]; [|reflexivity]
    end.
    intros row _. now apply post_data_total.
Qed.

(** C10, where the code departs from it.  A non-empty [min_likes] that
    [str.isdigit] accepts and [int] rejects is not ignored: [int] is called
    on it, raises, and the handler's [except Exception] answers 500, whatever
    the stored state, the requesting user and the other three parameters,
    valid or not. *)
Theorem get_discover_posts_digit_rejected_by_int (s : db) (user_id : Z)
    (df dt au : option string) (x : string) :
  truthy x = true ->
  isdigit x = true ->
  int x = None ->
  get_discover_posts s user_id (mkArgs df dt (Some x) au)
  = Error "Failed to fetch posts" 500.
Proof.
  intros Htruthy Hdigit Hint. unfold get_discover_posts, having_min_likes.
  cbn [date_from date_to min_likes author].
  rewrite Htruthy, Hdigit, Hint. reflexivity.
Qed.
End DiscoverProperties.

(** ** Writes of a User row *)

Section UserWriteProperties.
Context `{Env}.

Lemma add_User_rejected (s : db) (username name email password_hash : string)
    (now : datetime) :
  username_in_use s None username \/ email_in_use s None email ->
  add_User s username name email password_hash now = None.
Proof.
  intros Hdup. unfold add_User.
  assert (existsb (fun u => collate_eqb (User.username u) username
                            || collate_eqb (User.email u) email) (Users s)
          = true) as ->; [|reflexivity].
  apply existsb_exists.
  destruct Hdup as [[u [Hin [_ Hu]]]|[u [Hin [_ Hu]]]];
    exists u; (split; [exact Hin|]); rewrite Hu;
    [reflexivity | apply orb_true_r].
Qed.

Lemma User_by_username_found (s : db) (but : option Z) (username : string) :
  username_in_use s but username ->
  is_some (User_by_username s username) = true.
Proof.
  intros [u [Hin [_ Hu]]]. unfold User_by_username, first.
  destruct (filter (fun u => collate_eqb (User.username u) username) (Users s))
    as [|u' rest] eqn:Hf; [|reflexivity].
  assert (In u (filter (fun u => collate_eqb (User.username u) username)
                       (Users s))) as Hu'
    by (apply filter_In; now split).
  rewrite Hf in Hu'. destruct Hu'.
Qed.

Lemma User_by_email_found (s : db) (but : option Z) (email : string) :
  email_in_use s but email -> is_some (User_by_email s email) = true.
Proof.
  intros [u [Hin [_ Hu]]]. unfold User_by_email, first.
  destruct (filter (fun u => collate_eqb (User.email u) email) (Users s))
    as [|u' rest] eqn:Hf; [|reflexivity].
  assert (In u (filter (fun u => collate_eqb (User.email u) email) (Users s)))
    as Hu' by (apply filter_In; now split).
  rewrite Hf in Hu'. destruct Hu'.
Qed.

(** No path of the profile update answers 409. *)
Lemma update_user_profile_never_409 (s : db) (user_id : Z)
    (data : ProfileData.t) :
  status_of (snd (update_user_profile s user_id data)) <> 409.
Proof.
  unfold update_user_profile.
  destruct (User_get s user_id) as [user|]; [|simpl; lia].
  repeat match goal with
         | |- context [if ?b then _ else _] => destruct b; try (simpl; lia)
         | |- context [match update_User ?a ?b ?c with _ => _ end] =>
             destruct (update_User a b c); try (simpl; lia)
         end.
Qed.

(** C6, as the code has it.  A registration that passes the checks of the
    handler and whose username or email is already stored is answered 409,
    and the stored state is the one before the request.  A profile update
    that sets a username, or an email, that another stored user has is
    answered 400 by the handler's own lookup, and the stored state is the
    one before the request. *)
Theorem duplicate_user_rejected (s : db) :
  (forall username name email password now,
      validate_email email = true ->
      validate_password password = true ->
      username_in_use s None username \/ email_in_use s None email ->
      handle_register s "application/json"
        (RegisterData.mk (Some username) (Some name) (Some email)
                         (Some password)) now
      = (s, Error "Username or email already exists" 409))
  /\ (forall user_id user data,
        User_get s user_id = Some user ->
        (exists n, ProfileData.username data = Some n
                   /\ truthy n = true
                   /\ n <> User.username user
                   /\ username_in_use s (Some user_id) n)
        \/ (exists e, ProfileData.email data = Some e
                      /\ truthy e = true
                      /\ e <> User.email user
                      /\ email_in_use s (Some user_id) e) ->
        exists msg, update_user_profile s user_id data = (s, Error msg 400)).
Proof.
  split.
  - intros username name email password now Hemail Hpassword Hdup.
    unfold handle_register. simpl. rewrite Hemail, Hpassword. simpl.
    now rewrite add_User_rejected.
  - intros user_id user data Huser Hdup. unfold update_user_profile.
    rewrite Huser.
    match goal with
    | |- context [if ?b then (s, Error "Username already taken" 400) else _] =>
        destruct b eqn:Htaken; [eauto|]
    end.
    destruct Hdup as [[n [Hn [Ht [Hne Huse]]]]|[e [He [Ht [Hne Huse]]]]].
    + rewrite Hn, Ht in Htaken.
      apply String.eqb_neq in Hne. rewrite Hne in Htaken.
      rewrite (User_by_username_found s _ n Huse) in Htaken. discriminate.
    + assert (User.email
                match ProfileData.username data with
                | Some n =>
                    if truthy n && negb (String.eqb n (User.username user))
                    then with_username user n else user
                | None => user
                end = User.email user) as Hsame.
      { destruct (ProfileData.username data) as [n|]; [|reflexivity].
        destruct (truthy n && negb (String.eqb n (User.username user)));
          reflexivity. }
      rewrite He, Hsame, Ht. apply String.eqb_neq in Hne. rewrite Hne.
      rewrite (User_by_email_found s _ e Huse). simpl. eauto.
Qed.
End UserWriteProperties.

(** * Further properties *)

(** ** The follow toggle and the follow status *)

Lemma toggle_follow_frame (s : db) (current_user_id user_id : Z) (now : datetime) :
  let s' := fst (toggle_follow s current_user_id user_id now) in
  Users s' = Users s /\ Posts s' = Posts s
  /\ Comments s' = Comments s /\ Likes s' = Likes s.
Proof.
  unfold toggle_follow, add_Follower, delete_Follower.
  destruct (current_user_id =? user_id); [now repeat split|].
  destruct (User_get s user_id); [|now repeat split].
  destruct (first (Follower_filter_by s current_user_id user_id));
    [now repeat split|].
  destruct (is_some _ && is_some _); now repeat split.
Qed.

Lemma follow_rows_insert (s : db) (a b follower followed : Z) (now : datetime)
    (k : Z) :
  follow_rows (set_Followers s (Followers s ++ [Follower.mk k a b now]))
              follower followed
  = (follow_rows s follower followed
     + (if Z.eqb a follower && Z.eqb b followed then 1 else 0))%nat.
Proof.
  unfold follow_rows, Follower_filter_by. simpl.
  rewrite filter_app, length_app. simpl.
  destruct (Z.eqb a follower && Z.eqb b followed); reflexivity.
Qed.

Lemma follow_rows_delete_le (s : db) (f : Follower.t) (a b : Z) :
  (follow_rows (delete_Follower s f) a b <= follow_rows s a b)%nat.
Proof.
  unfold follow_rows, Follower_filter_by, delete_Follower. simpl.
  rewrite filter_swap. apply filter_length_le.
Qed.

Lemma follow_rows_delete_only (s : db) (f : Follower.t) (a b : Z) :
  Follower_filter_by s a b = [f] -> follow_rows (delete_Follower s f) a b = 0%nat.
Proof.
  unfold follow_rows, Follower_filter_by, delete_Follower. simpl. intros Hf.
  rewrite filter_swap, Hf. simpl. rewrite Z.eqb_refl. reflexivity.
Qed.

Lemma toggle_follow_insert (s : db) (a b : Z) (now : datetime) :
  a <> b -> user_stored s a -> user_stored s b ->
  follow_rows s a b = 0%nat ->
  toggle_follow s a b now
  = (set_Followers s
       (Followers s
          ++ [Follower.mk (next_id (map Follower.follower_id (Followers s)))
                          a b now]),
     Ok "User followed successfully"%string 201).
Proof.
  intros Hab Ha Hb Hrows. unfold toggle_follow, add_Follower.
  apply Z.eqb_neq in Hab. rewrite Hab.
  pose proof (find_key_some User.user_id (Users s) a Ha) as HA.
  pose proof (find_key_some User.user_id (Users s) b Hb) as HB.
  unfold User_get in *.
  destruct (find (fun u => User.user_id u =? b) (Users s)); [|discriminate].
  unfold follow_rows in Hrows. apply length_zero_iff_nil in Hrows.
  rewrite Hrows, HA. reflexivity.
Qed.

Lemma toggle_follow_delete (s : db) (a b : Z) (now : datetime)
    (f : Follower.t) (rest : list Follower.t) :
  a <> b -> user_stored s b ->
  Follower_filter_by s a b = f :: rest ->
  toggle_follow s a b now
  = (delete_Follower s f, Ok "User unfollowed successfully"%string 200).
Proof.
  intros Hab Hb Hrows. unfold toggle_follow.
  apply Z.eqb_neq in Hab. rewrite Hab.
  pose proof (find_key_some User.user_id (Users s) b Hb) as HB.
  unfold User_get in *.
  destruct (find (fun u => User.user_id u =? b) (Users s)); [|discriminate].
  rewrite Hrows. reflexivity.
Qed.

Lemma toggle_follow_flip (s : db) (a b : Z) (now : datetime) :
  a <> b -> user_stored s a -> user_stored s b ->
  (follow_rows s a b <= 1)%nat ->
  follow_rows (fst (toggle_follow s a b now)) a b = (1 - follow_rows s a b)%nat.
Proof.
  intros Hab Ha Hb Hle.
  destruct (Follower_filter_by s a b) as [|f rest] eqn:Hrows.
  - assert (follow_rows s a b = 0%nat) as H0
      by (unfold follow_rows; now rewrite Hrows).
    rewrite (toggle_follow_insert s a b now Hab Ha Hb H0). simpl fst.
    rewrite follow_rows_insert, H0, !Z.eqb_refl. reflexivity.
  - rewrite (toggle_follow_delete s a b now f rest Hab Hb Hrows). simpl fst.
    assert (rest = []) as ->.
    { unfold follow_rows in Hle. rewrite Hrows in Hle. simpl in Hle.
      destruct rest; [reflexivity | simpl in Hle; lia]. }
    rewrite (follow_rows_delete_only s f a b Hrows).
    unfold follow_rows. rewrite Hrows. reflexivity.
Qed.

Lemma toggle_follow_times_rows (nows : list datetime) :
  forall (s : db) (a b : Z),
    a <> b -> user_stored s a -> user_stored s b ->
    (follow_rows s a b <= 1)%nat ->
    follow_rows (toggle_follow_times s a b nows) a b
    = if Nat.odd (length nows)
      then (1 - follow_rows s a b)%nat
      else follow_rows s a b.
Proof.
  induction nows as [|now nows IH]; intros s a b Hab Ha Hb Hle; [reflexivity|].
  cbn [toggle_follow_times length].
  destruct (toggle_follow_frame s a b now) as [HU _].
  pose proof (toggle_follow_flip s a b now Hab Ha Hb Hle) as Hflip.
  rewrite IH; try assumption.
  - rewrite Hflip, Nat.odd_succ, <- Nat.negb_odd.
    destruct (Nat.odd (length nows)); cbn [negb]; lia.
  - unfold user_stored. now rewrite HU.
  - unfold user_stored. now rewrite HU.
  - lia.
Qed.

(** X1.  Between two different stored users without a Follower row from the
    first to the second: the first follow toggle appends exactly one Follower
    row and answers 201, the next one deletes it, which gives back the state
    before the first, and answers 200; after any number of consecutive
    toggles the row is there exactly when the number is odd. *)
Theorem toggle_follow_parity (s : db) (current_user_id user_id : Z) :
  current_user_id <> user_id ->
  user_stored s current_user_id ->
  user_stored s user_id ->
  follow_rows s current_user_id user_id = 0%nat ->
  (forall now1 now2 : datetime,
      let new_follow :=
        Follower.mk (next_id (map Follower.follower_id (Followers s)))
                    current_user_id user_id now1 in
      let s1 := set_Followers s (Followers s ++ [new_follow]) in
      toggle_follow s current_user_id user_id now1
      = (s1, Ok "User followed successfully"%string 201)
      /\ toggle_follow s1 current_user_id user_id now2
         = (s, Ok "User unfollowed successfully"%string 200))
  /\ (forall nows : list datetime,
        follow_rows (toggle_follow_times s current_user_id user_id nows)
                    current_user_id user_id
        = if Nat.odd (length nows) then 1%nat else 0%nat).
Proof.
  intros Hab Ha Hb H0. split.
  - intros now1 now2 new_follow s1.
    split; [now apply toggle_follow_insert|].
    assert (Follower_filter_by s1 current_user_id user_id = [new_follow])
      as Hrows.
    { unfold follow_rows in H0. apply length_zero_iff_nil in H0.
      unfold Follower_filter_by in *. unfold s1. simpl.
      rewrite filter_app, H0. simpl. rewrite !Z.eqb_refl. reflexivity. }
    rewrite (toggle_follow_delete s1 current_user_id user_id now2 new_follow []
               Hab Hb Hrows).
    f_equal. unfold delete_Follower, s1, set_Followers. simpl.
    rewrite filter_app. simpl. rewrite Z.eqb_refl. simpl. rewrite app_nil_r.
    rewrite (filter_other_key Follower.follower_id).
    + destruct s; reflexivity.
    + intros r Hr. apply next_id_above. now apply in_map.
  - intros nows.
    rewrite (toggle_follow_times_rows nows s current_user_id user_id Hab Ha Hb)
      by lia.
    rewrite H0. reflexivity.
Qed.

Lemma toggle_follow_keeps_well_formed (s : db) (a b : Z) (now : datetime) :
  follows_well_formed s ->
  follows_well_formed (fst (toggle_follow s a b now)).
Proof.
  intros [Hone Hself]. unfold toggle_follow.
  destruct (Z.eqb_spec a b) as [Heq|Hne]; [now split|].
  destruct (User_get s b); [|now split].
  destruct (first (Follower_filter_by s a b)) as [f|] eqn:Hfirst.
  - simpl fst. split.
    + intros x y. etransitivity; [apply follow_rows_delete_le | apply Hone].
    + intros g Hg. apply Hself. unfold delete_Follower in Hg. simpl in Hg.
      apply filter_In in Hg. tauto.
  - unfold add_Follower.
    destruct (is_some _ && is_some _); [|now split]. simpl fst. split.
    + intros x y. rewrite follow_rows_insert.
      destruct (Z.eqb_spec a x) as [->|]; simpl;
        [|specialize (Hone x y); lia].
      destruct (Z.eqb_spec b y) as [->|]; [|specialize (Hone x y); lia].
      unfold follow_rows.
      destruct (Follower_filter_by s x y); [simpl; lia | discriminate].
    + intros g Hg. simpl in Hg. apply in_app_or in Hg.
      destruct Hg as [Hg|[<-|[]]]; [now apply Hself | exact Hne].
Qed.

(** X2.  A Follower table with at most one row per directed pair and no row
    from a user to itself keeps both properties through any sequence of
    follow-toggle requests. *)
Theorem toggle_follow_all_well_formed (reqs : list (Z * Z * datetime)) (s : db) :
  follows_well_formed s -> follows_well_formed (toggle_follow_all s reqs).
Proof.
  revert s. induction reqs as [|[[a b] now] reqs IH]; intros s Hwf.
  - exact Hwf.
  - cbn [toggle_follow_all]. apply IH. now apply toggle_follow_keeps_well_formed.
Qed.

Lemma check_follow_status_rows (s : db) (a b : Z) :
  a <> b ->
  check_follow_status s a b = Ok (negb (Nat.eqb (follow_rows s a b) 0)) 200.
Proof.
  intros Hab. unfold check_follow_status, follow_rows.
  apply Z.eqb_neq in Hab. rewrite Hab.
  destruct (Follower_filter_by s a b); reflexivity.
Qed.

(** X3.  With at most one Follower row per pair, a follow toggle between two
    different stored users flips what the follow-status handler reports for
    the pair: it reports following after the toggle exactly when it did not
    before. *)
Theorem check_follow_status_after_toggle (s : db) (current_user_id user_id : Z)
    (now : datetime) :
  current_user_id <> user_id ->
  user_stored s current_user_id ->
  user_stored s user_id ->
  (follow_rows s current_user_id user_id <= 1)%nat ->
  exists is_following : bool,
    check_follow_status s current_user_id user_id = Ok is_following 200
    /\ check_follow_status
         (fst (toggle_follow s current_user_id user_id now))
         current_user_id user_id
       = Ok (negb is_following) 200.
Proof.
  intros Hab Ha Hb Hle.
  rewrite !check_follow_status_rows by assumption.
  rewrite (toggle_follow_flip s current_user_id user_id now Hab Ha Hb Hle).
  eexists. split; [reflexivity|].
  destruct (follow_rows s current_user_id user_id) as [|[|n]];
    [reflexivity | reflexivity | lia].
Qed.

(** ** Followers and following *)

Lemma unique_by_keys {A : Type} (key : A -> Z) (rows : list A) (k : Z) :
  In k (map key (unique_by key rows)) <-> In k (map key rows).
Proof.
  induction rows as [|r rows IH]; simpl; [tauto|].
  rewrite <- IH. clear IH. split.
  - intros [Hk|Hk]; [now left|right].
    apply in_map_iff in Hk. destruct Hk as [x [Hx Hin]].
    apply filter_In in Hin. apply in_map_iff. exists x. tauto.
  - intros [Hk|Hk]; [now left|].
    destruct (Z.eq_dec (key r) k) as [Heq|Hne]; [now left|right].
    apply in_map_iff in Hk. destruct Hk as [x [Hx Hin]].
    apply in_map_iff. exists x. split; [exact Hx|].
    apply filter_In. split; [exact Hin|].
    apply negb_true_iff, Z.eqb_neq. congruence.
Qed.

Lemma unique_by_NoDup {A : Type} (key : A -> Z) (rows : list A) :
  NoDup (map key (unique_by key rows)).
Proof.
  induction rows as [|r rows IH]; simpl; constructor.
  - intros Hin. apply in_map_iff in Hin. destruct Hin as [x [Hx Hin]].
    apply filter_In in Hin. destruct Hin as [_ Hne].
    apply negb_true_iff, Z.eqb_neq in Hne. congruence.
  - now apply NoDup_map_filter.
Qed.

Lemma follow_rows_positive (s : db) (a b : Z) :
  (0 < follow_rows s a b)%nat
  <-> exists f, In f (Followers s)
                /\ Follower.follower_user_id f = a
                /\ Follower.followed_user_id f = b.
Proof.
  unfold follow_rows, Follower_filter_by. split.
  - destruct (filter _ (Followers s)) as [|f rest] eqn:Hf; simpl; [lia|].
    intros _. exists f.
    assert (In f (f :: rest)) as Hin by now left.
    rewrite <- Hf in Hin. apply filter_In in Hin.
    rewrite andb_true_iff, !Z.eqb_eq in Hin. tauto.
  - intros [f [Hin [Ha Hb]]].
    assert (In f (filter (fun f => (Follower.follower_user_id f =? a)
                                   && (Follower.followed_user_id f =? b))
                         (Followers s))) as Hf.
    { apply filter_In. split; [exact Hin|].
      rewrite andb_true_iff, !Z.eqb_eq. tauto. }
    destruct (filter _ (Followers s)); [destruct Hf | simpl; lia].
Qed.

Lemma get_followers_ids (s : db) (a b : Z) :
  user_stored s a ->
  In a (ids_of (get_followers s b)) <-> (0 < follow_rows s a b)%nat.
Proof.
  intros [ua [Hua Hida]]. unfold get_followers, ids_of.
  rewrite map_map. cbn [author_of Author.user_id].
  rewrite (unique_by_keys User.user_id), follow_rows_positive, in_map_iff.
  split.
  - intros [u [Hu Hin]]. apply in_map_iff in Hin.
    destruct Hin as [[u' f] [Hfst Hin]]. simpl in Hfst. subst u'.
    apply filter_In in Hin. destruct Hin as [Hin Hb]. simpl in Hb.
    apply in_join in Hin. destruct Hin as [_ [Hf Hon]].
    apply Z.eqb_eq in Hon, Hb. exists f. repeat split; congruence.
  - intros [f [Hf [Ha Hb]]]. exists ua. split; [exact Hida|].
    apply in_map_iff. exists (ua, f). split; [reflexivity|].
    apply filter_In. split; [|simpl; now apply Z.eqb_eq].
    apply in_join. repeat split; try assumption. apply Z.eqb_eq. congruence.
Qed.

Lemma get_following_ids (s : db) (a b : Z) :
  user_stored s b ->
  In b (ids_of (get_following s a)) <-> (0 < follow_rows s a b)%nat.
Proof.
  intros [ub [Hub Hidb]]. unfold get_following, ids_of.
  rewrite map_map. cbn [author_of Author.user_id].
  rewrite (unique_by_keys User.user_id), follow_rows_positive, in_map_iff.
  split.
  - intros [u [Hu Hin]]. apply in_map_iff in Hin.
    destruct Hin as [[u' f] [Hfst Hin]]. simpl in Hfst. subst u'.
    apply filter_In in Hin. destruct Hin as [Hin Ha]. simpl in Ha.
    apply in_join in Hin. destruct Hin as [_ [Hf Hon]].
    apply Z.eqb_eq in Hon, Ha. exists f. repeat split; congruence.
  - intros [f [Hf [Ha Hb]]]. exists ub. split; [exact Hidb|].
    apply in_map_iff. exists (ub, f). split; [reflexivity|].
    apply filter_In. split; [|simpl; now apply Z.eqb_eq].
    apply in_join. repeat split; try assumption. apply Z.eqb_eq. congruence.
Qed.

(** X4.  For two stored users, the first is listed among the followers of
    the second exactly when a Follower row from the first to the second is
    stored, which is exactly when the second is listed among the users the
    first follows; and neither list names a user twice. *)
Theorem followers_and_following (s : db) (a b : Z) :
  user_stored s a ->
  user_stored s b ->
  (In a (ids_of (get_followers s b)) <-> (0 < follow_rows s a b)%nat)
  /\ (In b (ids_of (get_following s a)) <-> In a (ids_of (get_followers s b)))
  /\ NoDup (ids_of (get_followers s b))
  /\ NoDup (ids_of (get_following s a)).
Proof.
  intros Ha Hb. split; [now apply get_followers_ids|]. split.
  - rewrite get_following_ids, get_followers_ids by assumption. tauto.
  - unfold get_followers, get_following, ids_of.
    rewrite !map_map. cbn [author_of Author.user_id].
    split; apply unique_by_NoDup.
Qed.

(** X5.  When a follow toggle is answered 201, the requesting user is from
    then on listed among the followers of the target, and the target among
    the users the requesting user follows. *)
Theorem followed_is_listed (s s' : db) (current_user_id user_id : Z)
    (now : datetime) (body : string) :
  toggle_follow s current_user_id user_id now = (s', Ok body 201) ->
  In current_user_id (ids_of (get_followers s' user_id))
  /\ In user_id (ids_of (get_following s' current_user_id)).
Proof.
  unfold toggle_follow.
  destruct (current_user_id =? user_id); [discriminate|].
  destruct (User_get s user_id) as [target|] eqn:Htarget; [|discriminate].
  destruct (first (Follower_filter_by s current_user_id user_id));
    [discriminate|].
  unfold add_Follower. rewrite Htarget.
  destruct (User_get s current_user_id) as [me|] eqn:Hme; [|discriminate].
  intros Heq. cbn [is_some andb] in Heq. injection Heq as <- _.
  match goal with
  | |- context [get_followers ?s1 _] =>
      assert (user_stored s1 current_user_id) as Ha;
      [|assert (user_stored s1 user_id) as Hb]
  end.
  { unfold User_get in Hme. apply find_some in Hme.
    exists me. rewrite Z.eqb_eq in Hme. exact Hme. }
  { unfold User_get in Htarget. apply find_some in Htarget.
    exists target. rewrite Z.eqb_eq in Htarget. exact Htarget. }
  rewrite get_followers_ids, get_following_ids by assumption.
  rewrite follow_rows_insert, !Z.eqb_refl. simpl. lia.
Qed.

(** ** Creating posts and comments *)

Lemma find_app_last {A : Type} (f : A -> bool) (l : list A) (x : A) :
  find f (l ++ [x])
  = match find f l with
    | Some y => Some y
    | None => if f x then Some x else None
    end.
Proof.
  induction l as [|y l IH]; simpl; [reflexivity|].
  destruct (f y); [reflexivity | exact IH].
Qed.

Lemma find_key_after_insert {A : Type} (key : A -> Z) (rows : list A) (x : A)
    (k : Z) :
  key x = next_id (map key rows) ->
  find (fun r => key r =? k) (rows ++ [x])
  = if k =? key x then Some x else find (fun r => key r =? k) rows.
Proof.
  intros Hx. rewrite find_app_last.
  destruct (Z.eqb_spec k (key x)) as [->|Hne].
  - rewrite find_key_none; [now rewrite Z.eqb_refl|].
    intros r Hr. rewrite Hx.
    pose proof (next_id_above (map key rows) (key r) (in_map key _ _ Hr)). lia.
  - destruct (find (fun r => key r =? k) rows); [reflexivity|].
    destruct (Z.eqb_spec (key x) k); [congruence | reflexivity].
Qed.

(** X6.  A post created by a stored user with a non-empty content is answered
    201 with a key that no post had; looking that key up afterwards gives
    the post with the content, the owner and the creation time of the
    request, every other key gives what it gave before, and no other table
    changes. *)
Theorem create_post_then_get (s : db) (user_id : Z) (text : string)
    (now : datetime) :
  user_stored s user_id ->
  text <> ""%string ->
  let post_id := next_id (map Post.post_id (Posts s)) in
  let post := Post.mk post_id user_id text now in
  let s' := set_Posts s (Posts s ++ [post]) in
  create_post s user_id (Some text) now
  = (s', Ok (mkPostCreated "Post created successfully" post_id) 201)
  /\ Post_get s post_id = None
  /\ Post_get s' post_id = Some post
  /\ (forall k, k <> post_id -> Post_get s' k = Post_get s k).
Proof.
  intros Hu Htext post_id post s'.
  assert (forall k, Post_get s' k
                    = if k =? post_id then Some post else Post_get s k) as Hget.
  { intros k. unfold Post_get, s'. simpl.
    now rewrite (find_key_after_insert Post.post_id). }
  split; [|split; [|split]].
  - pose proof (find_key_some User.user_id (Users s) user_id Hu) as HU.
    unfold create_post, add_Post, truthy, User_get in *.
    apply String.eqb_neq in Htext. rewrite Htext, HU. reflexivity.
  - unfold Post_get. apply find_key_none. intros p Hp.
    pose proof (next_id_above (map Post.post_id (Posts s)) (Post.post_id p)
                  (in_map Post.post_id _ _ Hp)).
    unfold post_id. lia.
  - now rewrite Hget, Z.eqb_refl.
  - intros k Hk. rewrite Hget. apply Z.eqb_neq in Hk. now rewrite Hk.
Qed.

(** X7.  A comment on a stored post by a stored user is accepted whatever its
    text, the empty string included: the answer is 201, its comment names the
    requesting user as author, exactly one Comment row is appended to the
    rows of that post, and the rows of every other post stay as they
    were. *)
Theorem add_comment_appends (s : db) (post_id user_id : Z) (text : string)
    (now : datetime) :
  post_stored s post_id ->
  user_stored s user_id ->
  let new_comment :=
    Comment.mk (next_id (map Comment.comment_id (Comments s)))
               post_id user_id text now in
  let s' := set_Comments s (Comments s ++ [new_comment]) in
  (exists author : User.t,
      User_get s user_id = Some author
      /\ add_comment s post_id user_id (Some text) now
         = (s', Ok (mkCommentAdded "Comment added successfully"
                      (CommentData.mk (Comment.comment_id new_comment) text now
                                      (author_of author)))
                   201))
  /\ comments_of s' post_id = comments_of s post_id ++ [new_comment]
  /\ (forall p, p <> post_id -> comments_of s' p = comments_of s p).
Proof.
  intros Hp Hu new_comment s'. split; [|split].
  - pose proof (find_key_some Post.post_id (Posts s) post_id Hp) as HP.
    pose proof (find_key_some User.user_id (Users s) user_id Hu) as HU.
    unfold add_comment, add_Comment. unfold Post_get, User_get in *.
    destruct (find (fun p => Post.post_id p =? post_id) (Posts s));
      [|discriminate].
    destruct (find (fun u => User.user_id u =? user_id) (Users s))
      as [author|] eqn:Hauthor; [|discriminate].
    exists author. split; [reflexivity|].
    cbn [is_some andb set_Comments Users]. rewrite Hauthor. reflexivity.
  - unfold comments_of, s'. simpl. rewrite filter_app. simpl.
    now rewrite Z.eqb_refl.
  - intros p Hne. unfold comments_of, s'. simpl. rewrite filter_app. simpl.
    destruct (Z.eqb_spec post_id p); [congruence | apply app_nil_r].
Qed.

(** ** What every handler that writes keeps *)

Lemma NoDup_insert_key {A : Type} (key : A -> Z) (rows : list A) (x : A) :
  NoDup (map key rows) ->
  key x = next_id (map key rows) ->
  NoDup (map key (rows ++ [x])).
Proof.
  intros Hnd Hx. rewrite map_app. simpl.
  apply NoDup_rev in Hnd. rewrite <- (rev_involutive (map key rows ++ [key x])).
  apply NoDup_rev. rewrite rev_app_distr. simpl. constructor; [|exact Hnd].
  intros Hin. apply in_rev in Hin.
  pose proof (next_id_above (map key rows) (key x) Hin). lia.
Qed.

Section Serve.
Context `{Env}.

Lemma handle_register_failure (s : db) (content_type : string)
    (data : RegisterData.t) (now : datetime) :
  status_of (snd (handle_register s content_type data now)) <> 201 ->
  fst (handle_register s content_type data now) = s.
Proof.
  unfold handle_register.
  destruct (negb (String.eqb content_type "application/json")); [reflexivity|].
  destruct (RegisterData.username data), (RegisterData.name data),
    (RegisterData.email data), (RegisterData.password data); try reflexivity.
  destruct (negb (validate_email _)); [reflexivity|].
  destruct (negb (validate_password _)); [reflexivity|].
  destruct (add_User _ _ _ _ _ _) as [[s' k]|]; [|reflexivity].
  simpl. congruence.
Qed.

Lemma update_user_profile_failure (s : db) (user_id : Z) (data : ProfileData.t) :
  status_of (snd (update_user_profile s user_id data)) <> 200 ->
  fst (update_user_profile s user_id data) = s.
Proof.
  unfold update_user_profile.
  destruct (User_get s user_id) as [user|]; [|reflexivity].
  match goal with
  | |- context [if ?b then (s, Error "Username already taken" 400) else _] =>
      destruct b; [reflexivity|]
  end.
  match goal with
  | |- context [if ?b then (s, Error "Email already registered" 400) else _] =>
      destruct b; [reflexivity|]
  end.
  match goal with
  | |- context [match update_User ?a ?b ?c with _ => _ end] =>
      destruct (update_User a b c); [|reflexivity]
  end.
  simpl. congruence.
Qed.

Lemma create_post_failure (s : db) (user_id : Z) (content : option string)
    (now : datetime) :
  status_of (snd (create_post s user_id content now)) <> 201 ->
  fst (create_post s user_id content now) = s.
Proof.
  unfold create_post. destruct content as [text|]; [|reflexivity].
  destruct (negb (truthy text)); [reflexivity|].
  destruct (add_Post s user_id text now) as [[s' k]|]; [|reflexivity].
  simpl. congruence.
Qed.

Lemma add_comment_failure (s : db) (post_id user_id : Z)
    (content : option string) (now : datetime) :
  status_of (snd (add_comment s post_id user_id content now)) <> 201 ->
  fst (add_comment s post_id user_id content now) = s.
Proof.
  unfold add_comment, add_Comment, User_get.
  destruct content as [text|]; [|reflexivity].
  destruct (Post_get s post_id); [|reflexivity].
  destruct (find (fun u => User.user_id u =? user_id) (Users s))
    as [author|] eqn:Hauthor; simpl; [|reflexivity].
  rewrite Hauthor. simpl. congruence.
Qed.

Lemma toggle_like_failure (s : db) (post_id user_id : Z) (now : datetime) :
  status_of (snd (toggle_like s post_id user_id now)) <> 200 ->
  status_of (snd (toggle_like s post_id user_id now)) <> 201 ->
  fst (toggle_like s post_id user_id now) = s.
Proof.
  unfold toggle_like. destruct (Post_get s post_id); [|reflexivity].
  destruct (first (Like_filter_by s post_id user_id)); [simpl; congruence|].
  destruct (add_Like s post_id user_id now); [simpl; congruence | reflexivity].
Qed.

Lemma toggle_follow_failure (s : db) (a b : Z) (now : datetime) :
  status_of (snd (toggle_follow s a b now)) <> 200 ->
  status_of (snd (toggle_follow s a b now)) <> 201 ->
  fst (toggle_follow s a b now) = s.
Proof.
  unfold toggle_follow. destruct (a =? b); [reflexivity|].
  destruct (User_get s b); [|reflexivity].
  destruct (first (Follower_filter_by s a b)); [simpl; congruence|].
  destruct (add_Follower s a b now); [simpl; congruence | reflexivity].
Qed.

Lemma serve_parts (s : db) (r : request) (now : datetime) :
  serve s r now
  = match r with
    | Register content_type data =>
        (fst (handle_register s content_type data now),
         status_of (snd (handle_register s content_type data now)))
    | UpdateProfile user_id data =>
        (fst (update_user_profile s user_id data),
         status_of (snd (update_user_profile s user_id data)))
    | CreatePost user_id content =>
        (fst (create_post s user_id content now),
         status_of (snd (create_post s user_id content now)))
    | AddComment post_id user_id content =>
        (fst (add_comment s post_id user_id content now),
         status_of (snd (add_comment s post_id user_id content now)))
    | ToggleLike post_id user_id =>
        (fst (toggle_like s post_id user_id now),
         status_of (snd (toggle_like s post_id user_id now)))
    | ToggleFollow a b =>
        (fst (toggle_follow s a b now),
         status_of (snd (toggle_follow s a b now)))
    end.
Proof.
  destruct r; unfold serve;
    match goal with
    | |- (let '(_, _) := ?x in _) = _ => destruct x; reflexivity
    end.
Qed.

(** X8.  Whatever the request to a handler that writes (registration,
    profile update, post creation, comment, like toggle, follow toggle), an
    answer whose status is neither 200 nor 201 leaves the stored state as it
    was. *)
Theorem refused_request_changes_nothing (s : db) (r : request) (now : datetime) :
  snd (serve s r now) <> 200 ->
  snd (serve s r now) <> 201 ->
  fst (serve s r now) = s.
Proof.
  rewrite serve_parts. destruct r; cbn [fst snd]; intros H200 H201.
  - now apply handle_register_failure.
  - now apply update_user_profile_failure.
  - now apply create_post_failure.
  - now apply add_comment_failure.
  - now apply toggle_like_failure.
  - now apply toggle_follow_failure.
Qed.

Lemma handle_register_keys (s : db) (content_type : string)
    (data : RegisterData.t) (now : datetime) :
  primary_keys_unique s ->
  primary_keys_unique (fst (handle_register s content_type data now)).
Proof.
  intros Hk. unfold handle_register.
  destruct (negb (String.eqb content_type "application/json")); [exact Hk|].
  destruct (RegisterData.username data), (RegisterData.name data),
    (RegisterData.email data), (RegisterData.password data); try exact Hk.
  destruct (negb (validate_email _)); [exact Hk|].
  destruct (negb (validate_password _)); [exact Hk|].
  unfold add_User. destruct (existsb _ (Users s)); [exact Hk|].
  destruct Hk as [Hu Hrest]. split; [|exact Hrest].
  cbn [fst set_Users Users]. now apply NoDup_insert_key.
Qed.

Lemma User_get_key (s : db) (user_id : Z) (user : User.t) :
  User_get s user_id = Some user -> User.user_id user = user_id.
Proof.
  unfold User_get. intros Hf. apply find_some in Hf. now apply Z.eqb_eq.
Qed.

Lemma update_User_keys (s s' : db) (old new : User.t) :
  User.user_id new = User.user_id old ->
  update_User s old new = Some s' ->
  map User.user_id (Users s') = map User.user_id (Users s)
  /\ Posts s' = Posts s /\ Comments s' = Comments s
  /\ Likes s' = Likes s /\ Followers s' = Followers s.
Proof.
  intros Hid. unfold update_User.
  match goal with |- context [if ?b then None else _] => destruct b end;
    [discriminate|].
  intros Hs. injection Hs as <-. cbn [set_Users Users Posts Comments Likes Followers].
  repeat split. rewrite map_map. apply map_ext. intros u.
  destruct (Z.eqb_spec (User.user_id u) (User.user_id old)); congruence.
Qed.

Lemma update_user_profile_keys (s : db) (user_id : Z) (data : ProfileData.t) :
  primary_keys_unique s ->
  primary_keys_unique (fst (update_user_profile s user_id data)).
Proof.
  intros Hk. unfold update_user_profile.
  destruct (User_get s user_id) as [user|]; [|exact Hk].
  match goal with
  | |- context [if ?b then (s, Error "Username already taken" 400) else _] =>
      destruct b; [exact Hk|]
  end.
  match goal with
  | |- context [if ?b then (s, Error "Email already registered" 400) else _] =>
      destruct b; [exact Hk|]
  end.
  match goal with
  | |- context [match update_User ?a ?b ?c with _ => _ end] =>
      destruct (update_User a b c) as [s'|] eqn:Hup; [|exact Hk]
  end.
  apply update_User_keys in Hup.
  - destruct Hup as [Hu [Hp [Hc [Hl Hf]]]]. cbn [fst].
    unfold primary_keys_unique. rewrite Hu, Hp, Hc, Hl, Hf. exact Hk.
  - repeat match goal with
           | |- context [match ?x with Some _ => _ | None => _ end] =>
               destruct x
           | |- context [if ?b then _ else _] => destruct b
           end; reflexivity.
Qed.

Lemma create_post_keys (s : db) (user_id : Z) (content : option string)
    (now : datetime) :
  primary_keys_unique s ->
  primary_keys_unique (fst (create_post s user_id content now)).
Proof.
  intros Hk. unfold create_post. destruct content as [text|]; [|exact Hk].
  destruct (negb (truthy text)); [exact Hk|].
  unfold add_Post. destruct (is_some (User_get s user_id)); [|exact Hk].
  destruct Hk as [Hu [Hp Hrest]]. split; [exact Hu|]. split; [|exact Hrest].
  cbn [fst set_Posts Posts]. now apply NoDup_insert_key.
Qed.

Lemma add_comment_keys (s : db) (post_id user_id : Z) (content : option string)
    (now : datetime) :
  primary_keys_unique s ->
  primary_keys_unique (fst (add_comment s post_id user_id content now)).
Proof.
  intros Hk. unfold add_comment, add_Comment.
  destruct content as [text|]; [|exact Hk].
  destruct (Post_get s post_id) as [post|]; [|exact Hk].
  destruct (is_some (Some post) && is_some (User_get s user_id)); [|exact Hk].
  assert (primary_keys_unique
            (set_Comments s
               (Comments s
                  ++ [Comment.mk (next_id (map Comment.comment_id (Comments s)))
                                 post_id user_id text now]))) as Hk'.
  { destruct Hk as [Hu [Hp [Hc Hrest]]].
    split; [exact Hu|]. split; [exact Hp|]. split; [|exact Hrest].
    cbn [set_Comments Comments]. now apply NoDup_insert_key. }
  destruct (User_get _ user_id); exact Hk'.
Qed.

Lemma toggle_like_keys (s : db) (post_id user_id : Z) (now : datetime) :
  primary_keys_unique s ->
  primary_keys_unique (fst (toggle_like s post_id user_id now)).
Proof.
  intros Hk. unfold toggle_like. destruct (Post_get s post_id); [|exact Hk].
  destruct Hk as [Hu [Hp [Hc [Hl Hf]]]].
  destruct (first (Like_filter_by s post_id user_id)).
  - repeat split; try assumption.
    cbn [fst delete_Like set_Likes Likes]. now apply NoDup_map_filter.
  - unfold add_Like. destruct (is_some _ && is_some _);
      [|now repeat split].
    repeat split; try assumption.
    cbn [fst set_Likes Likes]. now apply NoDup_insert_key.
Qed.

Lemma toggle_follow_keys (s : db) (a b : Z) (now : datetime) :
  primary_keys_unique s ->
  primary_keys_unique (fst (toggle_follow s a b now)).
Proof.
  intros Hk. unfold toggle_follow. destruct (a =? b); [exact Hk|].
  destruct (User_get s b); [|exact Hk].
  destruct Hk as [Hu [Hp [Hc [Hl Hf]]]].
  destruct (first (Follower_filter_by s a b)).
  - repeat split; try assumption.
    cbn [fst delete_Follower set_Followers Followers]. now apply NoDup_map_filter.
  - unfold add_Follower. destruct (is_some _ && is_some _);
      [|now repeat split].
    repeat split; try assumption.
    cbn [fst set_Followers Followers]. now apply NoDup_insert_key.
Qed.

(** X9.  Primary keys that are unique in each of the five tables are still
    unique after any sequence of requests to the handlers that write: an
    insert takes a key that no row has, a delete removes rows, and a profile
    update rewrites a row under its own key. *)
Theorem serve_all_keeps_keys (rs : list (request * datetime)) (s : db) :
  primary_keys_unique s -> primary_keys_unique (serve_all s rs).
Proof.
  revert s. induction rs as [|[r now] rs IH]; intros s Hk; [exact Hk|].
  cbn [serve_all]. apply IH. rewrite serve_parts.
  destruct r; cbn [fst].
  - now apply handle_register_keys.
  - now apply update_user_profile_keys.
  - now apply create_post_keys.
  - now apply add_comment_keys.
  - now apply toggle_like_keys.
  - now apply toggle_follow_keys.
Qed.
End Serve.

(** ** Accounts: registration, login, profile *)

Section Accounts.
Context `{Env} `{Auth}.

Lemma existsb_false_filter {A : Type} (f g : A -> bool) (l : list A) :
  existsb (fun x => f x || g x) l = false -> filter f l = [].
Proof.
  intros Hex. apply filter_none. intros x Hx.
  destruct (f x) eqn:Hf; [|reflexivity].
  assert (existsb (fun x => f x || g x) l = true) as Htrue
    by (apply existsb_exists; exists x; split; [exact Hx | now rewrite Hf]).
  congruence.
Qed.

(** X10.  After a registration answered 201, a login with the same username
    and password is answered 200 with the key that the registration
    returned, the username, and a token made for the decimal writing of that
    key; a login with a password that the stored hash rejects is answered
    401.  The password check is the library's: it is assumed to accept the
    password for its own hash, and the column collation to equate the
    username with itself. *)
Theorem register_then_login (s s' : db) (username name email password : string)
    (now : datetime) (message : string) (user_id : Z) :
  handle_register s "application/json"
    (RegisterData.mk (Some username) (Some name) (Some email) (Some password))
    now
  = (s', Ok (mkRegistered message user_id) 201) ->
  collate_eqb username username = true ->
  check_password_hash (generate_password_hash password) password = true ->
  handle_login s' "application/json" (Some username) (Some password)
  = Ok (Login.mk (create_access_token (str user_id)) user_id username) 200
  /\ (forall wrong,
        check_password_hash (generate_password_hash password) wrong = false ->
        handle_login s' "application/json" (Some username) (Some wrong)
        = Error "Invalid credentials" 401).
Proof.
  intros Hreg Hrefl Hcheck. unfold handle_register in Hreg.
  cbn [RegisterData.username RegisterData.name RegisterData.email
       RegisterData.password] in Hreg.
  change (negb (String.eqb "application/json" "application/json")) with false
    in Hreg.
  cbv iota in Hreg.
  destruct (negb (validate_email email)); [discriminate Hreg|].
  destruct (negb (validate_password password)); [discriminate Hreg|].
  unfold add_User in Hreg.
  destruct (existsb _ (Users s)) eqn:Hfree; [discriminate Hreg|].
  injection Hreg as <- _ <-.
  assert (User_by_username
            (set_Users s
               (Users s
                  ++ [User.mk (next_id (map User.user_id (Users s))) username
                              name email (generate_password_hash password) now]))
            username
          = Some (User.mk (next_id (map User.user_id (Users s))) username
                          name email (generate_password_hash password) now))
    as Hfound.
  { unfold User_by_username. cbn [set_Users Users].
    rewrite filter_app, (existsb_false_filter _ _ _ Hfree).
    cbn [filter app User.username]. rewrite Hrefl. reflexivity. }
  unfold handle_login.
  change (negb (String.eqb "application/json" "application/json")) with false.
  cbv iota. rewrite Hfound. cbn [User.password_hash User.user_id User.username].
  split.
  - now rewrite Hcheck.
  - intros wrong Hwrong. now rewrite Hwrong.
Qed.

Lemma find_after_update (users : list User.t) (old new : User.t) :
  User.user_id new = User.user_id old ->
  find (fun u => User.user_id u =? User.user_id old)
       (map (fun u => if User.user_id u =? User.user_id old then new else u)
            users)
  = match find (fun u => User.user_id u =? User.user_id old) users with
    | Some _ => Some new
    | None => None
    end.
Proof.
  intros Hid. induction users as [|u users IH]; simpl; [reflexivity|].
  destruct (Z.eqb_spec (User.user_id u) (User.user_id old)) as [Heq|Hne].
  - rewrite Hid, Z.eqb_refl. reflexivity.
  - destruct (Z.eqb_spec (User.user_id u) (User.user_id old)); [congruence|].
    exact IH.
Qed.

(** X11.  After a profile update answered 200, the profile read of the same
    user returns the username, the name and the email that the update
    answered, under the same key, and the three counts that the profile read
    returned before the update. *)
Theorem update_then_show_profile (s s' : db) (user_id : Z)
    (data : ProfileData.t) (body : Profile.t) :
  update_user_profile s user_id data = (s', Ok body 200) ->
  Profile.user_id body = user_id
  /\ exists before : OwnProfile.t,
       show_user_profile s user_id = Ok before 200
       /\ show_user_profile s' user_id
          = Ok (OwnProfile.mk user_id (Profile.username body)
                  (Profile.name body) (Profile.email body)
                  (OwnProfile.posts_count before)
                  (OwnProfile.followers_count before)
                  (OwnProfile.following_count before))
               200.
Proof.
  unfold update_user_profile, show_user_profile.
  destruct (User_get s user_id) as [user|] eqn:Huser; [|discriminate].
  match goal with
  | |- context [if ?b then (s, Error "Username already taken" 400) else _] =>
      destruct b; [discriminate|]
  end.
  match goal with
  | |- context [if ?b then (s, Error "Email already registered" 400) else _] =>
      destruct b; [discriminate|]
  end.
  match goal with
  | |- context [match update_User ?a ?b ?c with _ => _ end] =>
      remember c as stored eqn:Hstored;
      destruct (update_User a b stored) as [s1|] eqn:Hup; [|discriminate]
  end.
  assert (User.user_id stored = User.user_id user) as Hid.
  { subst stored.
    repeat match goal with
           | |- context [match ?x with Some _ => _ | None => _ end] =>
               destruct x
           | |- context [if ?b then _ else _] => destruct b
           end; reflexivity. }
  pose proof (User_get_key s user_id user Huser) as Hkey.
  intros Heq. injection Heq as <- <-. cbn [Profile.user_id Profile.username
    Profile.name Profile.email].
  split; [congruence|].
  eexists. split; [reflexivity|].
  cbn [OwnProfile.posts_count OwnProfile.followers_count
       OwnProfile.following_count].
  unfold update_User in Hup.
  match type of Hup with
  | (if ?b then None else _) = _ => destruct b; [discriminate|]
  end.
  injection Hup as <-. unfold User_get in *.
  cbn [set_Users Users Posts Followers].
  subst user_id. rewrite find_after_update by exact Hid.
  rewrite Huser, Hid. reflexivity.
Qed.
Lemma no_user_by_username (s : db) (n : string) (g : User.t -> bool) :
  User_by_username s n = None ->
  existsb (fun u => collate_eqb (User.username u) n) (filter g (Users s)) = false.
Proof.
  unfold User_by_username, first. intros Hnone.
  destruct (existsb _ (filter g (Users s))) eqn:Hex; [|reflexivity].
  apply existsb_exists in Hex. destruct Hex as [u [Hu Hc]].
  apply filter_In in Hu. destruct Hu as [Hu _].
  assert (In u (filter (fun u => collate_eqb (User.username u) n) (Users s)))
    as Hin by (apply filter_In; now split).
  destruct (filter _ (Users s)); [destruct Hin | discriminate].
Qed.

Lemma no_user_by_email (s : db) (e : string) (g : User.t -> bool) :
  User_by_email s e = None ->
  existsb (fun u => collate_eqb (User.email u) e) (filter g (Users s)) = false.
Proof.
  unfold User_by_email, first. intros Hnone.
  destruct (existsb _ (filter g (Users s))) eqn:Hex; [|reflexivity].
  apply existsb_exists in Hex. destruct Hex as [u [Hu Hc]].
  apply filter_In in Hu. destruct Hu as [Hu _].
  assert (In u (filter (fun u => collate_eqb (User.email u) e) (Users s)))
    as Hin by (apply filter_In; now split).
  destruct (filter _ (Users s)); [destruct Hin | discriminate].
Qed.

(** X12.  A profile update by a stored user is answered 200 when the
    username it asks for, if it differs from the stored one, is the username
    of no stored user, and likewise the email; the answer carries, for each
    of username, name and email, the requested value when one is supplied
    and non-empty, and the stored value otherwise. *)
Theorem update_user_profile_applies (s : db) (user_id : Z) (user : User.t)
    (data : ProfileData.t) :
  User_get s user_id = Some user ->
  (forall n, ProfileData.username data = Some n -> truthy n = true ->
             n <> User.username user -> User_by_username s n = None) ->
  (forall e, ProfileData.email data = Some e -> truthy e = true ->
             e <> User.email user -> User_by_email s e = None) ->
  exists s',
    update_user_profile s user_id data
    = (s', Ok (Profile.mk "Profile updated successfully" user_id
                 (requested (ProfileData.username data) (User.username user))
                 (requested (ProfileData.name data) (User.name user))
                 (requested (ProfileData.email data) (User.email user)))
              200).
Proof.
  intros Huser Hname Hmail. pose proof (User_get_key s user_id user Huser) as Hkey.
  unfold update_user_profile. rewrite Huser.
  destruct data as [un em nm].
  cbn [ProfileData.username ProfileData.email ProfileData.name] in *.
  set (user1 := match un with
                | Some n => if truthy n && negb (String.eqb n (User.username user))
                            then with_username user n else user
                | None => user
                end).
  assert (User.username user1 = requested un (User.username user)
          /\ User.email user1 = User.email user
          /\ User.name user1 = User.name user
          /\ User.user_id user1 = user_id
          /\ (match un with
              | Some n => truthy n && negb (String.eqb n (User.username user))
                          && is_some (User_by_username s n)
              | None => false
              end = false)
          /\ (String.eqb (User.username user1) (User.username user) = false ->
              User_by_username s (User.username user1) = None)) as H1.
  { unfold user1, requested. destruct un as [n|]; cbn [andb].
    - destruct (truthy n) eqn:Ht; cbn [andb].
      + destruct (String.eqb_spec n (User.username user)) as [->|Hne];
          cbn [negb andb with_username User.username User.email User.name
               User.user_id].
        * rewrite String.eqb_refl. repeat split; try assumption; discriminate.
        * rewrite (Hname n eq_refl Ht Hne). repeat split; assumption.
      + rewrite String.eqb_refl. repeat split; try assumption; discriminate.
    - rewrite String.eqb_refl. repeat split; try assumption; discriminate. }
  destruct H1 as [Hun1 [Hem1 [Hnm1 [Hid1 [Htaken1 Hfree1]]]]].
  rewrite Htaken1.
  set (user2 := match em with
                | Some e => if truthy e && negb (String.eqb e (User.email user1))
                            then with_email user1 e else user1
                | None => user1
                end).
  assert (User.username user2 = User.username user1
          /\ User.email user2 = requested em (User.email user)
          /\ User.name user2 = User.name user
          /\ User.user_id user2 = user_id
          /\ (match em with
              | Some e => truthy e && negb (String.eqb e (User.email user1))
                          && is_some (User_by_email s e)
              | None => false
              end = false)
          /\ (String.eqb (User.email user2) (User.email user) = false ->
              User_by_email s (User.email user2) = None)) as H2.
  { unfold user2, requested. rewrite Hem1. destruct em as [e|]; cbn [andb].
    - destruct (truthy e) eqn:Ht; cbn [andb].
      + destruct (String.eqb_spec e (User.email user)) as [->|Hne];
          cbn [negb andb with_email User.username User.email User.name
               User.user_id].
        * rewrite Hem1, String.eqb_refl.
          repeat split; try assumption; discriminate.
        * rewrite (Hmail e eq_refl Ht Hne). repeat split; assumption.
      + rewrite Hem1, String.eqb_refl.
        repeat split; try assumption; discriminate.
    - rewrite Hem1, String.eqb_refl.
      repeat split; try assumption; discriminate. }
  destruct H2 as [Hun2 [Hem2 [Hnm2 [Hid2 [Htaken2 Hfree2]]]]].
  rewrite Htaken2.
  set (user3 := match nm with
                | Some n => if truthy n then with_name user2 n else user2
                | None => user2
                end).
  assert (User.username user3 = User.username user2
          /\ User.email user3 = User.email user2
          /\ User.name user3 = requested nm (User.name user)
          /\ User.user_id user3 = user_id) as H3.
  { unfold user3, requested. destruct nm as [n|]; [destruct (truthy n)|];
      cbn [with_name User.username User.email User.name User.user_id];
      repeat split; assumption. }
  destruct H3 as [Hun3 [Hem3 [Hnm3 Hid3]]].
  unfold update_User. rewrite Hun3, Hem3.
  assert (forall g,
             negb (String.eqb (User.username user2) (User.username user))
             && existsb (fun u => collate_eqb (User.username u)
                                              (User.username user2))
                        (filter g (Users s)) = false) as Hu.
  { intros g. rewrite Hun2.
    destruct (String.eqb (User.username user1) (User.username user)) eqn:He;
      [reflexivity|].
    now rewrite no_user_by_username by now apply Hfree1. }
  assert (forall g,
             negb (String.eqb (User.email user2) (User.email user))
             && existsb (fun u => collate_eqb (User.email u) (User.email user2))
                        (filter g (Users s)) = false) as He.
  { intros g.
    destruct (String.eqb (User.email user2) (User.email user)) eqn:Heq;
      [reflexivity|].
    now rewrite no_user_by_email by now apply Hfree2. }
  rewrite Hu, He. cbn [orb]. eexists.
  rewrite Hid3, Hnm3, Hem2, Hun2, Hun1. reflexivity.
Qed.
(** X17.  A login is answered 200 only for a stored user whose username the
    column collation equates with the one sent and whose stored hash the
    password check accepts for the password sent; the answer carries that
    user's key and username and a token made for the decimal writing of the
    key.  Every other login of a JSON request with both fields is answered
    401 with one and the same message, whether no such username is stored
    or the password is rejected. *)
Theorem handle_login_sound (s : db) (username password : string) :
  (forall body : Login.t,
      handle_login s "application/json" (Some username) (Some password)
      = Ok body 200 ->
      exists user : User.t,
        In user (Users s)
        /\ collate_eqb (User.username user) username = true
        /\ check_password_hash (User.password_hash user) password = true
        /\ body = Login.mk (create_access_token (str (User.user_id user)))
                           (User.user_id user) (User.username user))
  /\ ((exists body : Login.t,
         handle_login s "application/json" (Some username) (Some password)
         = Ok body 200)
      \/ handle_login s "application/json" (Some username) (Some password)
         = Error "Invalid credentials" 401).
Proof.
  unfold handle_login.
  change (negb (String.eqb "application/json" "application/json")) with false.
  cbv iota. unfold User_by_username, first.
  destruct (filter (fun u => collate_eqb (User.username u) username) (Users s))
    as [|user rest] eqn:Hfound; cbn [hd_error].
  - split; [discriminate | now right].
  - assert (In user (user :: rest)) as Hin by now left.
    rewrite <- Hfound in Hin. apply filter_In in Hin. destruct Hin as [Hin Hu].
    destruct (check_password_hash (User.password_hash user) password) eqn:Hc.
    + split.
      * intros body Hbody. injection Hbody as <-. exists user. tauto.
      * left. eexists. reflexivity.
    + split; [discriminate | now right].
Qed.

End Accounts.

(** ** Listings of a user's posts *)

Lemma traverse_Forall2 {A B : Type} (f : A -> option B) (l : list A) :
  forall bs, traverse f l = Some bs -> Forall2 (fun a b => f a = Some b) l bs.
Proof.
  induction l as [|a l IH]; simpl; intros bs Hbs.
  - injection Hbs as <-. constructor.
  - destruct (f a) as [b|] eqn:Hfa; [|discriminate].
    destruct (traverse f l) as [bs0|]; [|discriminate].
    injection Hbs as <-. constructor; [exact Hfa | now apply IH].
Qed.

Lemma Forall2_map_eq {A B C : Type} (R : A -> B -> Prop) (g : A -> C)
    (h : B -> C) (l : list A) (bs : list B) :
  (forall a b, R a b -> g a = h b) ->
  Forall2 R l bs -> map g l = map h bs.
Proof.
  intros Hgh. induction 1 as [|a b l bs Hab _ IH]; simpl; [reflexivity|].
  now rewrite (Hgh a b Hab), IH.
Qed.

Lemma user_post_shown (s : db) (post : Post.t) (e : UserPost.t) :
  user_post s post = Some e ->
  (Post.post_id post, Post.content post, Post.created_at post,
   Like_count s (Post.post_id post))
  = shown_of_user_post e.
Proof.
  unfold user_post. destruct (comments_data s (Post.post_id post));
    [|discriminate].
  intros He. injection He as <-. reflexivity.
Qed.

Lemma posts_by_sorted (s : db) (user_id : Z) :
  StronglySorted
    (fun a b => datetime_leb (Post.created_at b) (Post.created_at a) = true)
    (posts_by s user_id).
Proof.
  unfold posts_by.
  apply order_by_sorted
    with (leb := fun a b => datetime_leb (Post.created_at b) (Post.created_at a)).
  - intros x y. apply lex_leb_total.
  - intros x y z Hxy Hyz. unfold datetime_leb in *.
    eapply lex_leb_trans; eauto.
Qed.

Lemma get_current_user_posts_shown (s : db) (user_id : Z)
    (posts : list UserPost.t) :
  get_current_user_posts s user_id = Ok posts 200 ->
  map shown_of_user_post posts
  = map (fun p => (Post.post_id p, Post.content p, Post.created_at p,
                   Like_count s (Post.post_id p)))
        (posts_by s user_id).
Proof.
  unfold get_current_user_posts.
  destruct (traverse (user_post s) (posts_by s user_id)) as [bs|] eqn:Htr;
    [|discriminate].
  intros Hok. injection Hok as <-. symmetry.
  eapply Forall2_map_eq; [|apply traverse_Forall2; exact Htr].
  intros p e. apply user_post_shown.
Qed.

(** X13.  When the authors of all comments are stored, the listing of the
    requesting user's own posts is answered 200 with exactly the posts that
    the user owns, each once and none left out, from the newest to the
    oldest, each with the number of Like rows of the post as its likes
    count. *)
Theorem get_current_user_posts_lists (s : db) (user_id : Z) :
  comment_authors_stored s ->
  exists posts : list UserPost.t,
    get_current_user_posts s user_id = Ok posts 200
    /\ Permutation (map UserPost.post_id posts)
         (map Post.post_id
              (filter (fun p => Post.user_id p =? user_id) (Posts s)))
    /\ StronglySorted (fun a b => datetime_leb b a = true)
         (map UserPost.created_at posts)
    /\ (forall e, In e posts ->
          UserPost.likes_count e
          = Z.of_nat (length (likes_of s (UserPost.post_id e)))).
Proof.
  intros Hfk.
  destruct (traverse_total (user_post s) (posts_by s user_id)) as [posts Htr].
  { intros post _. unfold user_post.
    pose proof (comments_data_total s (Post.post_id post) Hfk) as Hc.
    destruct (comments_data s (Post.post_id post)); [discriminate | easy]. }
  assert (get_current_user_posts s user_id = Ok posts 200) as Hok
    by (unfold get_current_user_posts; now rewrite Htr).
  pose proof (get_current_user_posts_shown s user_id posts Hok) as Hshown.
  exists posts. split; [exact Hok|]. split; [|split].
  - replace (map UserPost.post_id posts)
      with (map Post.post_id (posts_by s user_id)).
    + apply Permutation_map. unfold posts_by. apply order_by_perm.
    + apply (f_equal (map (fun x => fst (fst (fst x))))) in Hshown.
      rewrite !map_map in Hshown. symmetry. exact Hshown.
  - replace (map UserPost.created_at posts)
      with (map Post.created_at (posts_by s user_id)).
    + apply StronglySorted_map. apply posts_by_sorted.
    + apply (f_equal (map (fun x => snd (fst x)))) in Hshown.
      rewrite !map_map in Hshown. symmetry. exact Hshown.
  - intros e He.
    apply (in_map shown_of_user_post) in He. rewrite Hshown in He.
    apply in_map_iff in He. destruct He as [p [Hp _]].
    unfold shown_of_user_post in Hp. injection Hp as Hid _ _ Hlikes.
    rewrite <- Hlikes, <- Hid. reflexivity.
Qed.

Lemma lex_leb_antisym (a b : list Z) :
  lex_leb a b = true -> lex_leb b a = true -> a = b.
Proof.
  revert b. induction a as [|x a IH]; intros [|y b]; simpl;
    try reflexivity; try discriminate.
  destruct (Z.ltb_spec x y), (Z.ltb_spec y x); try discriminate; try lia.
  intros Hab Hba. f_equal; [lia | now apply IH].
Qed.

Lemma datetime_leb_antisym (a b : datetime) :
  datetime_leb a b = true -> datetime_leb b a = true -> a = b.
Proof.
  unfold datetime_leb. intros Hab Hba.
  pose proof (lex_leb_antisym _ _ Hab Hba) as Heq.
  destruct a, b. unfold datetime_fields in Heq. simpl in Heq.
  now injection Heq as -> -> -> -> -> -> ->.
Qed.

Lemma NoDup_map_injective {A B : Type} (f : A -> B) (l : list A) (a b : A) :
  NoDup (map f l) -> In a l -> In b l -> f a = f b -> a = b.
Proof.
  induction l as [|x l IH]; intros Hnd Ha Hb Hab; [destruct Ha|].
  simpl in Hnd. apply NoDup_cons_iff in Hnd. destruct Hnd as [Hx Hnd].
  destruct Ha as [->|Ha], Hb as [->|Hb].
  - reflexivity.
  - destruct Hx. rewrite Hab. now apply in_map.
  - destruct Hx. rewrite <- Hab. now apply in_map.
  - now apply IH.
Qed.

Lemma StronglySorted_app_cross {A : Type} (R : A -> A -> Prop)
    (l1 l2 : list A) (a b : A) :
  StronglySorted R (l1 ++ l2) -> In a l1 -> In b l2 -> R a b.
Proof.
  induction l1 as [|x l1 IH]; intros Hs Ha Hb; [destruct Ha|].
  simpl in Hs. inversion Hs as [|? ? Hs' Hall]; subst.
  destruct Ha as [->|Ha]; [|now apply IH].
  rewrite Forall_forall in Hall. apply Hall. apply in_or_app. now right.
Qed.

(** Two arrangements of the same rows in an order in which no two of the
    rows tie are the same list. *)
Lemma sorted_perm_unique {A : Type} (R : A -> A -> Prop) (l1 : list A) :
  forall l2,
    (forall a b, In a l1 -> In b l1 -> R a b -> R b a -> a = b) ->
    StronglySorted R l1 -> StronglySorted R l2 -> Permutation l1 l2 ->
    l1 = l2.
Proof.
  induction l1 as [|x l1 IH]; intros l2 Hanti Hs1 Hs2 Hperm.
  - symmetry. now apply Permutation_nil.
  - destruct l2 as [|y l2].
    { symmetry in Hperm. now apply Permutation_nil in Hperm. }
    inversion Hs1 as [|? ? Hs1' Hall1]; subst.
    inversion Hs2 as [|? ? Hs2' Hall2]; subst.
    rewrite Forall_forall in Hall1, Hall2.
    assert (In y (x :: l1)) as Hy
      by (apply (Permutation_in y (Permutation_sym Hperm)); now left).
    assert (In x (y :: l2)) as Hx
      by (apply (Permutation_in x Hperm); now left).
    assert (x = y) as <-.
    { destruct Hy as [Hy|Hy]; [exact Hy|].
      destruct Hx as [Hx|Hx]; [now symmetry|].
      apply Hanti; [now left | now right | now apply Hall1 | now apply Hall2]. }
    f_equal. apply IH; try assumption.
    + intros a b Ha Hb. apply Hanti; now right.
    + now apply Permutation_cons_inv in Hperm.
Qed.

Lemma newest_first_posts_by (s : db) (user_id : Z) :
  newest_first (owned_posts s user_id) (posts_by s user_id).
Proof.
  split; [|apply posts_by_sorted].
  unfold posts_by, owned_posts. symmetry. apply order_by_perm.
Qed.

(** When no two of the user's posts have the same creation time, the engine
    has one arrangement to give. *)
Lemma newest_first_unique (s : db) (user_id : Z) (ordered : list Post.t) :
  NoDup (map Post.created_at (owned_posts s user_id)) ->
  newest_first (owned_posts s user_id) ordered ->
  ordered = posts_by s user_id.
Proof.
  intros Hnd [Hperm Hsorted].
  destruct (newest_first_posts_by s user_id) as [Hperm' Hsorted'].
  symmetry.
  apply (sorted_perm_unique
           (fun a b => datetime_leb (Post.created_at b) (Post.created_at a)
                       = true)); try assumption.
  - intros a b Ha Hb Hab Hba.
    apply (NoDup_map_injective Post.created_at (owned_posts s user_id));
      [exact Hnd | | |].
    + apply (Permutation_in a (Permutation_sym Hperm')). exact Ha.
    + apply (Permutation_in b (Permutation_sym Hperm')). exact Hb.
    + now apply datetime_leb_antisym.
  - transitivity (owned_posts s user_id); [now symmetry | exact Hperm].
Qed.

(** X14.  For a stored user, and whatever order the engine gives to posts of
    equal creation time in each of the two queries: the listing of another
    user's posts shows five posts, or all of them when the user has fewer;
    each is a post of the listing that this user gets of their own posts,
    with the same content, creation time and likes count; they come newest
    first; and a post of the own listing that is not shown is no newer than
    any post shown.  When no two of the user's posts have the same creation
    time, the posts shown are exactly the first five of the own listing.  A
    post is marked as liked exactly when the viewer has a Like row on it. *)
Theorem get_other_user_posts_first_five (s : db) (user_id viewer : Z)
    (ordered : list Post.t) (mine : list UserPost.t) :
  user_stored s user_id ->
  newest_first (owned_posts s user_id) ordered ->
  get_current_user_posts s user_id = Ok mine 200 ->
  exists posts : list OtherPost.t,
    get_other_user_posts s user_id viewer ordered = Ok posts 200
    /\ length posts = Nat.min 5 (length mine)
    /\ (forall e, In e posts ->
          In (shown_of_other_post e) (map shown_of_user_post mine))
    /\ StronglySorted (fun a b => datetime_leb b a = true)
         (map OtherPost.created_at posts)
    /\ (forall m, In m mine ->
          ~ In (shown_of_user_post m) (map shown_of_other_post posts) ->
          forall e, In e posts ->
            datetime_leb (UserPost.created_at m) (OtherPost.created_at e)
            = true)
    /\ (NoDup (map Post.created_at (owned_posts s user_id)) ->
        map shown_of_other_post posts
        = firstn 5 (map shown_of_user_post mine))
    /\ (forall e, In e posts ->
          OtherPost.user_liked e = true
          <-> (0 < like_rows s (OtherPost.post_id e) viewer)%nat).
Proof.
  intros Hu Hordered Hmine.
  assert (map shown_of_user_post mine
          = map (shown_of_post s) (posts_by s user_id)) as Hshown
    by exact (get_current_user_posts_shown s user_id mine Hmine).
  pose proof Hordered as [Hperm Hsorted].
  assert (Permutation (posts_by s user_id) ordered) as Hpo.
  { transitivity (owned_posts s user_id); [|exact Hperm].
    symmetry. apply newest_first_posts_by. }
  assert (forall p, shown_of_other_post (other_post s viewer p)
                    = shown_of_post s p) as Hother by reflexivity.
  pose proof (find_key_some User.user_id (Users s) user_id Hu) as HU.
  unfold get_other_user_posts, User_get in *.
  destruct (find (fun u => User.user_id u =? user_id) (Users s)); [|discriminate].
  eexists. split; [reflexivity|]. unfold limit.
  split; [|split; [|split; [|split; [|split]]]].
  - rewrite length_map, length_firstn. f_equal.
    rewrite <- (Permutation_length Hpo).
    apply (f_equal (@length _)) in Hshown. rewrite !length_map in Hshown.
    now symmetry.
  - intros e He. apply in_map_iff in He. destruct He as [p [<- Hp]].
    rewrite Hother, Hshown. apply in_map. apply in_firstn in Hp.
    apply (Permutation_in p (Permutation_sym Hpo)). exact Hp.
  - rewrite map_map.
    apply (StronglySorted_map Post.created_at
             (fun a b => datetime_leb b a = true)).
    now apply StronglySorted_firstn.
  - intros m Hm Hnot e He.
    apply (in_map shown_of_user_post) in Hm. rewrite Hshown in Hm.
    apply in_map_iff in Hm. destruct Hm as [p [Hpm Hp]].
    apply (Permutation_in p Hpo) in Hp.
    rewrite <- (firstn_skipn 5 ordered) in Hp, Hsorted.
    apply in_app_or in Hp. destruct Hp as [Hp|Hp].
    + destruct Hnot. rewrite map_map, <- Hpm. apply in_map_iff.
      exists p. split; [apply Hother | exact Hp].
    + apply in_map_iff in He. destruct He as [a [<- Ha]].
      pose proof (StronglySorted_app_cross _ _ _ a p Hsorted Ha Hp) as Hap.
      unfold shown_of_post, shown_of_user_post in Hpm.
      injection Hpm as _ _ Hcreated _. rewrite <- Hcreated. exact Hap.
  - intros Hnd.
    rewrite (newest_first_unique s user_id ordered Hnd Hordered).
    rewrite Hshown, map_map, <- firstn_map. reflexivity.
  - intros e He. apply in_map_iff in He. destruct He as [p [<- _]].
    unfold other_post, like_rows. cbn [OtherPost.user_liked OtherPost.post_id].
    destruct (Like_filter_by s (Post.post_id p) viewer); simpl;
      [split; [discriminate | lia] | split; [lia | reflexivity]].
Qed.

(** ** The two profile reads and the stats *)

Lemma in_profile_rows (s : db) (p : Post.t)
    (oc : option Comment.t) (ol : option Like.t) :
  In (p, oc, ol) (profile_rows s)
  <-> In p (Posts s)
      /\ In oc (outer (comments_of s (Post.post_id p)))
      /\ In ol (outer (likes_of s (Post.post_id p))).
Proof.
  unfold profile_rows, likes_of, comments_of.
  rewrite !in_outerjoin. simpl. tauto.
Qed.

Lemma in_owned_posts (s : db) (user_id : Z) (p : Post.t) :
  In p (owned_posts s user_id) <-> In p (Posts s) /\ Post.user_id p = user_id.
Proof. unfold owned_posts. now rewrite filter_In, Z.eqb_eq. Qed.

Lemma in_likes_received (s : db) (user_id : Z) (l : Like.t) :
  In l (likes_received s user_id)
  <-> In l (Likes s)
      /\ exists p, In p (owned_posts s user_id)
                   /\ Post.post_id p = Like.post_id l.
Proof.
  unfold likes_received. rewrite filter_In, existsb_exists.
  split; intros [Hl [p [Hp Heq]]]; (split; [exact Hl|]); exists p;
    (split; [exact Hp|]); now apply Z.eqb_eq.
Qed.

Lemma in_comments_received (s : db) (user_id : Z) (c : Comment.t) :
  In c (comments_received s user_id)
  <-> In c (Comments s)
      /\ exists p, In p (owned_posts s user_id)
                   /\ Post.post_id p = Comment.post_id c.
Proof.
  unfold comments_received. rewrite filter_In, existsb_exists.
  split; intros [Hc [p [Hp Heq]]]; (split; [exact Hc|]); exists p;
    (split; [exact Hp|]); now apply Z.eqb_eq.
Qed.

(** The counts of one group of the profile query. *)
Lemma profile_group_counts (s : db) (user_id k : Z) (g : list profile_row) :
  g <> [] ->
  (forall p oc ol,
      In (p, oc, ol) g
      <-> In (p, oc, ol) (profile_rows s)
          /\ Post.user_id p = user_id /\ Post.post_id p = k) ->
  count_distinct (map (fun r : profile_row =>
                         option_map Comment.comment_id (snd (fst r))) g)
  = distinct (map Comment.comment_id (comments_of s k))
  /\ count_distinct (map (fun r : profile_row =>
                            option_map Like.like_id (snd r)) g)
     = distinct (map Like.like_id (likes_of s k)).
Proof.
  intros Hne Hmem.
  destruct g as [|[[p0 oc0] ol0] rest]; [congruence|]. clear Hne.
  assert (In (p0, oc0, ol0) ((p0, oc0, ol0) :: rest)) as H0 by now left.
  apply Hmem in H0. destruct H0 as [Hrow0 [Howner0 Hkey0]].
  apply in_profile_rows in Hrow0. destruct Hrow0 as [Hp0 [Hoc0 Hol0]].
  rewrite Hkey0 in Hoc0, Hol0.
  set (g := (p0, oc0, ol0) :: rest) in *. clearbody g.
  split; apply count_distinct_values; intros v; rewrite !in_map_iff; split.
  - intros [[[p oc] ol] [Hv Hin]]. apply Hmem in Hin. simpl in Hv.
    destruct oc as [c|]; [|discriminate]. simpl in Hv.
    exists c. split; [congruence|].
    destruct Hin as [Hrow [_ Hkey]]. apply in_profile_rows in Hrow.
    destruct Hrow as [_ [Hc _]]. apply (proj1 (in_outer_some _ _)) in Hc.
    congruence.
  - intros [c [Hv Hc]]. exists (p0, Some c, ol0).
    split; [simpl; congruence|]. apply Hmem.
    split; [|tauto]. apply in_profile_rows. rewrite Hkey0.
    split; [exact Hp0|]. split; [now apply in_outer_some | exact Hol0].
  - intros [[[p oc] ol] [Hv Hin]]. apply Hmem in Hin. simpl in Hv.
    destruct ol as [l|]; [|discriminate]. simpl in Hv.
    exists l. split; [congruence|].
    destruct Hin as [Hrow [_ Hkey]]. apply in_profile_rows in Hrow.
    destruct Hrow as [_ [_ Hl]]. apply (proj1 (in_outer_some _ _)) in Hl.
    congruence.
  - intros [l [Hv Hl]]. exists (p0, oc0, Some l).
    split; [simpl; congruence|]. apply Hmem.
    split; [|tauto]. apply in_profile_rows. rewrite Hkey0.
    split; [exact Hp0|]. split; [exact Hoc0 | now apply in_outer_some].
Qed.

(** The rows that the profile query selects, one per post key of the joined
    rows of the user. *)
Lemma profile_stats (s : db) (user_id : Z) :
  map (fun t : Post.t * Z * Z => (snd (fst t), snd t))
      (flat_map profile_select
         (group_by Z.eq_dec profile_key
            (filter (profile_owned_by user_id) (profile_rows s))))
  = map (fun k => (distinct (map Comment.comment_id (comments_of s k)),
                   distinct (map Like.like_id (likes_of s k))))
        (nodup Z.eq_dec
           (map profile_key
                (filter (profile_owned_by user_id) (profile_rows s)))).
Proof.
  unfold group_by.
  set (R := filter (profile_owned_by user_id) (profile_rows s)).
  assert (forall k, In k (nodup Z.eq_dec (map profile_key R))
                    -> In k (map profile_key R)) as Hks
    by (intros k; apply nodup_In).
  induction (nodup Z.eq_dec (map profile_key R)) as [|k ks IH];
    [reflexivity|].
  cbn [map flat_map]. rewrite map_app, IH by (intros; apply Hks; now right).
  clear IH.
  assert (In k (map profile_key R)) as Hk by (apply Hks; now left).
  apply in_map_iff in Hk. destruct Hk as [r [Hkey Hr]].
  set (g := filter (fun r => if Z.eq_dec (profile_key r) k then true else false)
                   R).
  assert (forall p oc ol,
             In (p, oc, ol) g
             <-> In (p, oc, ol) (profile_rows s)
                 /\ Post.user_id p = user_id /\ Post.post_id p = k) as Hmem.
  { intros p oc ol. unfold g, R. rewrite !filter_In.
    unfold profile_owned_by, profile_key. simpl. rewrite Z.eqb_eq.
    destruct (Z.eq_dec (Post.post_id p) k); intuition congruence. }
  assert (g <> []) as Hne.
  { intros Hnil. assert (In r g) as Hin.
    { unfold g. apply filter_In. split; [exact Hr|].
      destruct (Z.eq_dec (profile_key r) k); congruence. }
    rewrite Hnil in Hin. destruct Hin. }
  destruct (profile_group_counts s user_id k g Hne Hmem) as [Hc Hl].
  destruct g as [|r0 rest]; [congruence|].
  rewrite <- Hc, <- Hl. reflexivity.
Qed.

Lemma profile_keys (s : db) (user_id k : Z) :
  In k (map profile_key (filter (profile_owned_by user_id) (profile_rows s)))
  <-> In k (map Post.post_id (owned_posts s user_id)).
Proof.
  rewrite !in_map_iff. split.
  - intros [[[p oc] ol] [Hk Hin]]. apply filter_In in Hin.
    destruct Hin as [Hrow Howner]. apply in_profile_rows in Hrow.
    exists p. split; [exact Hk|]. apply in_owned_posts.
    split; [tauto | now apply Z.eqb_eq].
  - intros [p [Hk Hp]]. apply in_owned_posts in Hp.
    destruct (outer_inhabited (comments_of s (Post.post_id p))) as [oc Hoc].
    destruct (outer_inhabited (likes_of s (Post.post_id p))) as [ol Hol].
    exists (p, oc, ol). split; [exact Hk|]. apply filter_In.
    split; [apply in_profile_rows; tauto|].
    unfold profile_owned_by. simpl. now apply Z.eqb_eq.
Qed.

Lemma filter_or_length {A : Type} (f g : A -> bool) (l : list A) :
  (forall x, In x l -> f x = true -> g x = false) ->
  length (filter (fun x => f x || g x) l)
  = (length (filter f l) + length (filter g l))%nat.
Proof.
  induction l as [|x l IH]; intros Hdis; [reflexivity|].
  assert (length (filter (fun x => f x || g x) l)
          = (length (filter f l) + length (filter g l))%nat) as IH'
    by (apply IH; intros y Hy; apply Hdis; now right).
  pose proof (Hdis x (or_introl eq_refl)) as Hx.
  cbn [filter]. destruct (f x); cbn [orb].
  - rewrite Hx by reflexivity. cbn [length]. lia.
  - destruct (g x); cbn [length]; lia.
Qed.

(** Summing, over keys without repetition, the numbers of rows that carry
    each key counts the rows that carry one of the keys. *)
Lemma sum_rows_of_keys {A : Type} (key : A -> Z) (rows : list A) (ks : list Z) :
  NoDup ks ->
  sum (map (fun k => Z.of_nat (length (filter (fun x => key x =? k) rows))) ks)
  = Z.of_nat (length (filter (fun x => existsb (fun k => key x =? k) ks) rows)).
Proof.
  induction 1 as [|k ks Hk Hnd IH]; cbn [map sum fold_right existsb].
  - induction rows as [|x rows IHr]; [reflexivity | exact IHr].
  - fold (sum (map (fun k => Z.of_nat (length (filter (fun x => key x =? k)
                                                      rows))) ks)).
    rewrite IH, filter_or_length; [lia|].
    intros x _ Hx. apply Z.eqb_eq in Hx.
    destruct (existsb (fun k0 => key x =? k0) ks) eqn:He; [|reflexivity].
    apply existsb_exists in He. destruct He as [k0 [Hin Heq]].
    apply Z.eqb_eq in Heq. congruence.
Qed.

Lemma or_0_id (x : Z) : or_0 x = x.
Proof. unfold or_0. destruct (Z.eqb_spec x 0); congruence. Qed.

(** The three counts of the stats query. *)
Lemma stats_counts (s : db) (user_id : Z) :
  let g := filter (owned_by user_id) (post_rows s) in
  count_distinct (posts_col g)
  = distinct (map Post.post_id (owned_posts s user_id))
  /\ count_distinct (likes_col g)
     = distinct (map Like.like_id (likes_received s user_id))
  /\ count_distinct (comments_col g)
     = distinct (map Comment.comment_id (comments_received s user_id)).
Proof.
  intros g.
  assert (forall p ol oc,
             In (p, ol, oc) g
             <-> In p (owned_posts s user_id)
                 /\ In ol (outer (likes_of s (Post.post_id p)))
                 /\ In oc (outer (comments_of s (Post.post_id p)))) as Hmem.
  { intros p ol oc. unfold g. rewrite filter_In, in_post_rows, in_owned_posts.
    unfold owned_by. simpl. rewrite Z.eqb_eq. tauto. }
  clearbody g.
  split; [|split]; apply count_distinct_values; intros v;
    unfold posts_col, likes_col, comments_col; rewrite !in_map_iff; split.
  - intros [[[p ol] oc] [Hv Hin]]. apply Hmem in Hin. simpl in Hv.
    exists p. split; [congruence | tauto].
  - intros [p [Hv Hp]].
    destruct (outer_inhabited (likes_of s (Post.post_id p))) as [ol Hol].
    destruct (outer_inhabited (comments_of s (Post.post_id p))) as [oc Hoc].
    exists (p, ol, oc). split; [simpl; congruence|]. apply Hmem. tauto.
  - intros [[[p ol] oc] [Hv Hin]]. apply Hmem in Hin. simpl in Hv.
    destruct ol as [l|]; [|discriminate]. simpl in Hv.
    exists l. split; [congruence|].
    destruct Hin as [Hp [Hl _]]. apply (proj1 (in_outer_some _ _)) in Hl.
    apply in_likes_of in Hl. apply in_likes_received.
    split; [tauto|]. exists p. split; [exact Hp | symmetry; tauto].
  - intros [l [Hv Hl]]. apply in_likes_received in Hl.
    destruct Hl as [Hl [p [Hp Heq]]].
    destruct (outer_inhabited (comments_of s (Post.post_id p))) as [oc Hoc].
    exists (p, Some l, oc). split; [simpl; congruence|]. apply Hmem.
    split; [exact Hp|]. split; [|exact Hoc].
    apply in_outer_some. apply in_likes_of. split; [exact Hl | congruence].
  - intros [[[p ol] oc] [Hv Hin]]. apply Hmem in Hin. simpl in Hv.
    destruct oc as [c|]; [|discriminate]. simpl in Hv.
    exists c. split; [congruence|].
    destruct Hin as [Hp [_ Hc]]. apply (proj1 (in_outer_some _ _)) in Hc.
    apply in_comments_of in Hc. apply in_comments_received.
    split; [tauto|]. exists p. split; [exact Hp | symmetry; tauto].
  - intros [c [Hv Hc]]. apply in_comments_received in Hc.
    destruct Hc as [Hc [p [Hp Heq]]].
    destruct (outer_inhabited (likes_of s (Post.post_id p))) as [ol Hol].
    exists (p, ol, Some c). split; [simpl; congruence|]. apply Hmem.
    split; [exact Hp|]. split; [exact Hol|].
    apply in_outer_some. apply in_comments_of. split; [exact Hc | congruence].
Qed.

Lemma rows_of_keys_received {A : Type} (key : A -> Z) (rows : list A)
    (ks : list Z) (posts : list Post.t) :
  (forall k, In k ks <-> In k (map Post.post_id posts)) ->
  filter (fun x => existsb (fun k => key x =? k) ks) rows
  = filter (fun x => existsb (fun p => Post.post_id p =? key x) posts) rows.
Proof.
  intros Hks. apply filter_ext. intros x. apply eq_true_iff_eq.
  rewrite !existsb_exists. split.
  - intros [k [Hin Heq]]. apply Hks, in_map_iff in Hin.
    destruct Hin as [p [Hp Hin]]. exists p. split; [exact Hin|].
    apply Z.eqb_eq in Heq. apply Z.eqb_eq. congruence.
  - intros [p [Hin Heq]]. exists (key x). split; [|apply Z.eqb_refl].
    apply Hks, in_map_iff. exists p. apply Z.eqb_eq in Heq. tauto.
Qed.

(** With unique primary keys, the rows that the profile query selects are as
    many as the user's posts, and their like counts and comment counts add up
    to the numbers of Like rows and of Comment rows on those posts. *)
Lemma profile_post_totals (s : db) (user_id : Z) :
  keys_unique s ->
  let posts_stats :=
    flat_map profile_select
      (group_by Z.eq_dec profile_key
         (filter (profile_owned_by user_id) (profile_rows s))) in
  length posts_stats = length (owned_posts s user_id)
  /\ sum (map snd posts_stats) = Z.of_nat (length (likes_received s user_id))
  /\ sum (map (fun t : Post.t * Z * Z => snd (fst t)) posts_stats)
     = Z.of_nat (length (comments_received s user_id)).
Proof.
  intros [Hposts [Hlikes Hcomments]] posts_stats.
  pose proof (profile_stats s user_id) as Hstats.
  fold posts_stats in Hstats.
  set (ks := nodup Z.eq_dec
               (map profile_key
                    (filter (profile_owned_by user_id) (profile_rows s))))
    in *.
  assert (NoDup ks) as Hnd by apply NoDup_nodup.
  assert (forall k, In k ks
                    <-> In k (map Post.post_id (owned_posts s user_id)))
    as Hks by (intros k; unfold ks; rewrite nodup_In; apply profile_keys).
  split; [|split].
  - apply (f_equal (@length _)) in Hstats. rewrite !length_map in Hstats.
    rewrite Hstats. unfold ks.
    rewrite (nodup_length_ext _ (map Post.post_id (owned_posts s user_id)))
      by apply profile_keys.
    unfold owned_posts. now apply count_rows_of_keys.
  - transitivity
      (sum (map snd (map (fun t : Post.t * Z * Z => (snd (fst t), snd t))
                         posts_stats))).
    { rewrite map_map. reflexivity. }
    rewrite Hstats, map_map. cbn [snd].
    rewrite (map_ext _ (fun k => Z.of_nat (length (filter
               (fun l => Like.post_id l =? k) (Likes s))))).
    + rewrite (sum_rows_of_keys Like.post_id _ _ Hnd).
      unfold likes_received.
      now rewrite (rows_of_keys_received Like.post_id (Likes s) ks
                     (owned_posts s user_id) Hks).
    + intros k. unfold distinct. f_equal. now apply likes_count_rows.
  - transitivity
      (sum (map fst (map (fun t : Post.t * Z * Z => (snd (fst t), snd t))
                         posts_stats))).
    { rewrite map_map. reflexivity. }
    rewrite Hstats, map_map. cbn [fst].
    rewrite (map_ext _ (fun k => Z.of_nat (length (filter
               (fun c => Comment.post_id c =? k) (Comments s))))).
    + rewrite (sum_rows_of_keys Comment.post_id _ _ Hnd).
      unfold comments_received.
      now rewrite (rows_of_keys_received Comment.post_id (Comments s) ks
                     (owned_posts s user_id) Hks).
    + intros k. unfold distinct. f_equal. now apply comments_count_rows.
Qed.

(** X15.  With unique primary keys, the profile that any user reads of a
    stored user gives as posts count the number of that user's posts, as
    total likes received the number of Like rows on those posts and as total
    comments received the number of Comment rows on them; and the stats
    handler, asked by that user, reports the same three numbers. *)
Theorem get_user_profile_totals `{Env} (s : db) (user_id : Z)
    (profile : PublicProfile.t) :
  keys_unique s ->
  get_user_profile s user_id = Ok profile 200 ->
  PublicProfile.posts_count profile
  = Z.of_nat (length (owned_posts s user_id))
  /\ PublicProfile.total_likes_received profile
     = Z.of_nat (length (likes_received s user_id))
  /\ PublicProfile.total_comments_received profile
     = Z.of_nat (length (comments_received s user_id))
  /\ exists stats : Stats.t,
       get_post_stats s user_id = Ok stats 200
       /\ Stats.total_posts stats = PublicProfile.posts_count profile
       /\ Stats.total_likes stats = PublicProfile.total_likes_received profile
       /\ Stats.total_comments stats
          = PublicProfile.total_comments_received profile.
Proof.
  intros Hkeys Hprofile.
  destruct (profile_post_totals s user_id Hkeys) as [Hn [Hl Hc]].
  unfold get_user_profile in Hprofile.
  destruct (User_get s user_id) as [user|]; [|discriminate].
  injection Hprofile as <-.
  cbn [PublicProfile.posts_count PublicProfile.total_likes_received
       PublicProfile.total_comments_received].
  change (fun r : profile_row => Post.post_id (fst (fst r))) with profile_key.
  change (fun r : profile_row => Post.user_id (fst (fst r)) =? user_id)
    with (profile_owned_by user_id).
  rewrite Hn, Hl, Hc.
  split; [reflexivity|]. split; [reflexivity|]. split; [reflexivity|].
  unfold get_post_stats. eexists. split; [reflexivity|].
  cbn [Stats.total_posts Stats.total_likes Stats.total_comments].
  rewrite !or_0_id.
  destruct (stats_counts s user_id) as [Hsp [Hsl Hsc]].
  rewrite Hsp, Hsl, Hsc.
  destruct Hkeys as [Hposts [Hlikes Hcomments]].
  unfold distinct, owned_posts, likes_received, comments_received.
  now rewrite !count_rows_of_keys.
Qed.

Lemma filter_fst_pair_length {A B : Type} (P : A -> bool) (a : A) (l : list B) :
  length (filter (fun r : A * B => P (fst r)) (map (pair a) l))
  = if P a then length l else 0%nat.
Proof.
  induction l as [|b l IH]; simpl; [now destruct (P a)|].
  destruct (P a); simpl; [now f_equal | exact IH].
Qed.

(** An inner join in which every row matches exactly one row of the joined
    table has as many rows as the rows it joins. *)
Lemma join_one_length {A B : Type} (on : A -> B -> bool) (P : A -> bool)
    (rows : list A) (tbl : list B) :
  (forall a, In a rows -> length (filter (on a) tbl) = 1%nat) ->
  length (filter (fun r : A * B => P (fst r)) (join on rows tbl))
  = length (filter P rows).
Proof.
  unfold join. induction rows as [|a rows IH]; intros Hone; [reflexivity|].
  cbn [flat_map filter].
  rewrite filter_app, length_app, filter_fst_pair_length.
  rewrite IH by (intros b Hb; apply Hone; now right).
  rewrite (Hone a (or_introl eq_refl)).
  destruct (P a); reflexivity.
Qed.

Lemma one_row_of_key {A : Type} (key : A -> Z) (rows : list A) (k : Z) :
  NoDup (map key rows) ->
  (exists r, In r rows /\ key r = k) ->
  length (filter (fun r => key r =? k) rows) = 1%nat.
Proof.
  induction rows as [|x rows IH]; intros Hnd [r [Hin Hk]]; [destruct Hin|].
  simpl in Hnd. apply NoDup_cons_iff in Hnd. destruct Hnd as [Hx Hnd].
  cbn [filter]. destruct (Z.eqb_spec (key x) k) as [Heq|Hne].
  - cbn [length]. f_equal. apply length_zero_iff_nil.
    apply filter_none. intros y Hy. apply Z.eqb_neq. intros Hyk.
    apply Hx. rewrite Heq, <- Hyk. now apply in_map.
  - apply IH; [exact Hnd|]. exists r. split; [|exact Hk].
    destruct Hin as [->|Hin]; [congruence | exact Hin].
Qed.

(** X16.  With unique primary keys and every Follower row naming two stored
    users, the profile that any user reads of a user and the profile that
    this user reads of itself agree on the user key, the username, the name,
    and the posts, followers and following counts. *)
Theorem profiles_agree (s : db) (user_id : Z) (profile : PublicProfile.t) :
  primary_keys_unique s ->
  follow_users_stored s ->
  get_user_profile s user_id = Ok profile 200 ->
  exists own : OwnProfile.t,
    show_user_profile s user_id = Ok own 200
    /\ OwnProfile.user_id own = PublicProfile.user_id profile
    /\ OwnProfile.username own = PublicProfile.username profile
    /\ OwnProfile.name own = PublicProfile.name profile
    /\ OwnProfile.posts_count own = PublicProfile.posts_count profile
    /\ OwnProfile.followers_count own = PublicProfile.followers_count profile
    /\ OwnProfile.following_count own = PublicProfile.following_count profile.
Proof.
  intros [Husers [Hposts [Hcomments [Hlikes _]]]] Hfk Hprofile.
  destruct (profile_post_totals s user_id
              (conj Hposts (conj Hlikes Hcomments))) as [Hn _].
  unfold get_user_profile in Hprofile. unfold show_user_profile.
  destruct (User_get s user_id) as [user|]; [|discriminate].
  injection Hprofile as <-. eexists. split; [reflexivity|].
  cbn [OwnProfile.user_id OwnProfile.username OwnProfile.name
       OwnProfile.posts_count OwnProfile.followers_count
       OwnProfile.following_count
       PublicProfile.user_id PublicProfile.username PublicProfile.name
       PublicProfile.posts_count PublicProfile.followers_count
       PublicProfile.following_count].
  change (fun r : profile_row => Post.post_id (fst (fst r))) with profile_key.
  change (fun r : profile_row => Post.user_id (fst (fst r)) =? user_id)
    with (profile_owned_by user_id).
  rewrite Hn.
  rewrite (join_one_length
             (fun f u => User.user_id u =? Follower.follower_user_id f)
             (fun f => Follower.followed_user_id f =? user_id)).
  2:{ intros f Hf. apply (one_row_of_key User.user_id); [exact Husers|].
      apply (Hfk f Hf). }
  rewrite (join_one_length
             (fun f u => User.user_id u =? Follower.followed_user_id f)
             (fun f => Follower.follower_user_id f =? user_id)).
  2:{ intros f Hf. apply (one_row_of_key User.user_id); [exact Husers|].
      apply (Hfk f Hf). }
  repeat split; reflexivity.
Qed.

(** ** The properties on the data of the examples *)

Lemma example_keys_unique : keys_unique Demo.store.
Proof.
  unfold keys_unique. simpl.
  repeat split; repeat (constructor; [simpl; intuition discriminate|]);
    constructor.
Defined.

Lemma example_comment_authors : comment_authors_stored Demo.store.
Proof.
  intros c [<-|[<-|[]]]; simpl.
  - exists Demo.bob. split; [simpl; auto | reflexivity].
  - exists Demo.alice. split; [simpl; auto | reflexivity].
Defined.

Lemma example_post_1 : post_stored Demo.store 1.
Proof.
  exists (Post.mk 1 1 "hello" (Demo.noon 2024 1 10)).
  split; [now left | reflexivity].
Defined.

Lemma example_user_1 : user_stored Demo.store 1.
Proof. exists Demo.alice. split; [now left | reflexivity]. Defined.

Lemma example_one_like : one_like_per_pair Demo.store.
Proof.
  intros p u. unfold like_rows, Like_filter_by.
  cbn [Likes Demo.store filter Like.post_id Like.user_id].
  destruct ((1 =? p) && (2 =? u)); simpl; lia.
Defined.

(** Alice likes her own first post three times in a row: the row is there. *)
Lemma toggle_like_parity_witness :
  post_stored Demo.store 1
  /\ user_stored Demo.store 1
  /\ like_rows Demo.store 1 1 = 0%nat
  /\ like_rows
       (toggle_like_times Demo.store 1 1
          [Demo.noon 2024 2 1; Demo.noon 2024 2 2; Demo.noon 2024 2 3])
       1 1
     = 1%nat.
Proof.
  split; [exact example_post_1|]. split; [exact example_user_1|].
  split; [reflexivity|].
  exact (proj2 (toggle_like_parity Demo.store 1 1
                  example_post_1 example_user_1 eq_refl)
               [Demo.noon 2024 2 1; Demo.noon 2024 2 2;
                Demo.noon 2024 2 3]).
Defined.

Lemma toggle_like_all_one_per_pair_witness :
  one_like_per_pair Demo.store
  /\ one_like_per_pair
       (toggle_like_all Demo.store
          [(1, 1, Demo.noon 2024 2 1); (1, 2, Demo.noon 2024 2 2);
           (1, 1, Demo.noon 2024 2 3); (9, 1, Demo.noon 2024 2 4);
           (2, 1, Demo.noon 2024 2 5)]).
Proof.
  split; [exact example_one_like|].
  apply toggle_like_all_one_per_pair. exact example_one_like.
Defined.

Lemma toggle_like_post_not_found_witness :
  (forall p, In p (Posts Demo.store) -> Post.post_id p <> 9)
  /\ toggle_like Demo.store 9 1 (Demo.noon 2024 2 1)
     = (Demo.store, Error "Post not found" 404).
Proof.
  assert (forall p, In p (Posts Demo.store) -> Post.post_id p <> 9) as Hno
    by (intros p [<-|[<-|[<-|[]]]]; discriminate).
  split; [exact Hno|].
  exact (toggle_like_post_not_found Demo.store 9 1 (Demo.noon 2024 2 1) Hno).
Defined.

(** The top posts of the example: the counts are counts of rows. *)
Lemma get_top_posts_ranked_witness :
  keys_unique Demo.store
  /\ exists rows : list TopPost.t,
       get_top_posts Demo.store = Ok rows 200
       /\ rows <> []
       /\ (forall e, In e rows ->
             TopPost.likes_count e
             = Z.of_nat (length (likes_of Demo.store (TopPost.post_id e)))
             /\ TopPost.comments_count e
                = Z.of_nat (length (comments_of Demo.store (TopPost.post_id e))))
       /\ StronglySorted
            (fun a b => TopPost.engagement_score b <= TopPost.engagement_score a)
            rows.
Proof.
  split; [exact example_keys_unique|].
  destruct (get_top_posts_ranked Demo.store)
    as [rows [Hanswer [Hrows [Hsorted _]]]].
  exists rows. split; [exact Hanswer|].
  split; [intros ->; discriminate Hanswer|].
  split; [|exact Hsorted].
  intros e He.
  exact (proj2 (proj2 (proj2 (Hrows e He))) example_keys_unique).
Defined.

Lemma get_post_stats_no_posts_witness :
  (forall p, In p (Posts Demo.store) -> Post.user_id p <> 7)
  /\ get_post_stats (H := Demo.env) Demo.store 7
     = Ok (Stats.mk 0 0 0 0%Q 0%Q) 200.
Proof.
  assert (forall p, In p (Posts Demo.store) -> Post.user_id p <> 7) as Hno
    by (intros p [<-|[<-|[<-|[]]]]; discriminate).
  split; [exact Hno|].
  exact (get_post_stats_no_posts (H := Demo.env) Demo.store 7 Hno).
Defined.

Lemma get_engagement_by_date_grouped_witness :
  keys_unique Demo.store
  /\ exists rows : list Engagement.t,
       get_engagement_by_date Demo.store 1 = Ok rows 200
       /\ rows <> []
       /\ (forall e, In e rows ->
             Engagement.posts_count e
             = Z.of_nat (length (posts_on Demo.store 1 (Engagement.date e)))
             /\ Engagement.likes_count e
                = Z.of_nat (length (likes_on Demo.store 1 (Engagement.date e)))
             /\ Engagement.comments_count e
                = Z.of_nat
                    (length (comments_on Demo.store 1 (Engagement.date e)))).
Proof.
  split; [exact example_keys_unique|].
  destruct (get_engagement_by_date_grouped Demo.store 1)
    as [rows [Hanswer [Hrows _]]].
  exists rows. split; [exact Hanswer|].
  split; [intros ->; discriminate Hanswer|].
  intros e He.
  exact (proj2 (proj2 (proj2 (proj2 (Hrows e He)))) example_keys_unique).
Defined.

(** A request with both dates and [min_likes=1]: the one post of the answer
    lies in the range and has a Like row. *)
Lemma get_discover_posts_filtered_witness :
  let args := mkArgs (Some "2024-01-10"%string) (Some "2024-01-12"%string)
                     (Some "1"%string) None in
  keys_unique Demo.store
  /\ exists posts,
       get_discover_posts (H := Demo.env) Demo.store 1 args = Ok posts 200
       /\ posts <> []
       /\ forall e, In e posts ->
            (datetime_leb (mkDatetime 2024 1 10 0 0 0 0) (PostData.created_at e)
             = true
             /\ datetime_leb (PostData.created_at e)
                             (mkDatetime 2024 1 12 23 59 59 999999) = true)
            /\ 1 <= PostData.likes_count e
            /\ PostData.likes_count e
               = Z.of_nat (length (likes_of Demo.store (PostData.post_id e))).
Proof.
  intros args. split; [exact example_keys_unique|].
  eexists. split; [vm_compute; reflexivity|]. split; [discriminate|].
  intros e He.
  match goal with
  | He : In e ?posts |- _ =>
      destruct (get_discover_posts_filtered (H := Demo.env)
                  Demo.store 1 args posts eq_refl)
        as [Hdates [Hlikes [Hcount _]]]
  end.
  split; [|split].
  - exact (Hdates "2024-01-10"%string "2024-01-12"%string
             (mkDatetime 2024 1 10 0 0 0 0) (mkDatetime 2024 1 12 0 0 0 0)
             eq_refl eq_refl eq_refl eq_refl eq_refl eq_refl e He).
  - exact (Hlikes "1"%string 1 eq_refl eq_refl eq_refl eq_refl e He).
  - exact (proj2 (Hcount e He) example_keys_unique).
Defined.

(** C3 as stated fails: [min_likes=+5] is a minimum of 5 for [int], but it
    is not a string of digits, the HAVING clause is not added, and the answer
    holds posts with no Like row at all. *)
Lemma get_discover_posts_plus_sign :
  ~ (forall posts n,
        get_discover_posts (H := Demo.env) Demo.store 1
          (Demo.only_min_likes "+5") = Ok posts 200 ->
        int (Env := Demo.env) "+5" = Some n ->
        forall e, In e posts -> n <= PostData.likes_count e).
Proof.
  intros Hclaim.
  pose proof (fun posts Hposts =>
                Hclaim posts 5 Hposts eq_refl) as Hclaim5.
  remember (get_discover_posts (H := Demo.env) Demo.store 1
              (Demo.only_min_likes "+5")) as answer eqn:Hanswer.
  vm_compute in Hanswer. subst answer.
  specialize (Hclaim5 _ eq_refl _ (or_introl eq_refl)).
  vm_compute in Hclaim5. now apply Hclaim5.
Qed.

(** [min_likes=] superscript two: [str.isdigit] accepts it, [int] raises,
    and the request is answered 500, with valid dates as with none. *)
Lemma get_discover_posts_digit_rejected_by_int_witness :
  truthy Superscript.two = true
  /\ isdigit (Env := Superscript.env) Superscript.two = true
  /\ int (Env := Superscript.env) Superscript.two = None
  /\ get_discover_posts (H := Superscript.env) Demo.store 1
       (mkArgs None None (Some Superscript.two) None)
     = Error "Failed to fetch posts" 500
  /\ get_discover_posts (H := Superscript.env) Demo.store 1
       (mkArgs (Some "2024-01-10"%string) (Some "2024-01-12"%string)
               (Some Superscript.two) None)
     = Error "Failed to fetch posts" 500.
Proof.
  assert (truthy Superscript.two = true) as Htruthy by reflexivity.
  assert (isdigit (Env := Superscript.env) Superscript.two = true) as Hdigit
    by reflexivity.
  assert (int (Env := Superscript.env) Superscript.two = None) as Hint
    by reflexivity.
  split; [exact Htruthy|]. split; [exact Hdigit|]. split; [exact Hint|].
  split.
  - exact (get_discover_posts_digit_rejected_by_int (H := Superscript.env)
             Demo.store 1 None None None Superscript.two Htruthy Hdigit Hint).
  - exact (get_discover_posts_digit_rejected_by_int (H := Superscript.env)
             Demo.store 1 (Some "2024-01-10"%string)
             (Some "2024-01-12"%string) None Superscript.two
             Htruthy Hdigit Hint).
Defined.

(** Carol registers, then registers again: 201, then 409 with the state the
    first registration left.  Bob asks for Alice's username: 400. *)
Lemma duplicate_user_rejected_witness :
  let carol := RegisterData.mk (Some "carol"%string) (Some "Carol"%string)
                 (Some "carol@example.org"%string)
                 (Some "correct horse"%string) in
  let first_time :=
    handle_register (H := Demo.env) Demo.store "application/json" carol
                    (Demo.noon 2024 2 1) in
  status_of (snd first_time) = 201
  /\ handle_register (H := Demo.env) (fst first_time) "application/json" carol
                     (Demo.noon 2024 2 2)
     = (fst first_time, Error "Username or email already exists" 409)
  /\ exists msg,
       update_user_profile (H := Demo.env) Demo.store 2
         (ProfileData.mk (Some "alice"%string) None None)
       = (Demo.store, Error msg 400).
Proof.
  intros carol first_time. split; [reflexivity|]. split.
  - apply (proj1 (duplicate_user_rejected (H := Demo.env) (fst first_time)));
      [reflexivity | reflexivity |].
    left. exists (User.mk 3 "carol" "Carol" "carol@example.org"
                          "$2b$12$correct horse" (Demo.noon 2024 2 1)).
    split; [simpl; auto|]. split; [discriminate | reflexivity].
  - apply (proj2 (duplicate_user_rejected (H := Demo.env) Demo.store)
             2 Demo.bob);
      [reflexivity|].
    left. exists "alice"%string.
    split; [reflexivity|]. split; [reflexivity|]. split; [discriminate|].
    exists Demo.alice. split; [now left|]. split; [discriminate | reflexivity].
Defined.

(** C6 as stated fails on the profile update: Bob asks for the username that
    Alice has, a write that the unique index on [username] would reject, and
    the answer is not a 409. *)
Lemma update_user_profile_duplicate_username :
  ~ (username_in_use (H := Demo.env) Demo.store (Some 2) "alice" ->
     status_of
       (snd (update_user_profile (H := Demo.env) Demo.store 2
               (ProfileData.mk (Some "alice"%string) None None)))
     = 409).
Proof.
  intros Hclaim.
  assert (username_in_use (H := Demo.env) Demo.store (Some 2) "alice")
    as Huse.
  { exists Demo.alice. split; [now left|].
    split; [discriminate | reflexivity]. }
  specialize (Hclaim Huse). vm_compute in Hclaim. discriminate.
Qed.

(** ** The further properties on the example *)

Lemma example_user_2 : user_stored Demo.store 2.
Proof. exists Demo.bob. split; [right; now left | reflexivity]. Defined.

Lemma example_primary_keys : primary_keys_unique Demo.store.
Proof.
  unfold primary_keys_unique. simpl.
  repeat split; repeat (constructor; [simpl; intuition discriminate|]);
    constructor.
Defined.

Lemma example_follows_well_formed : follows_well_formed Demo.store.
Proof.
  split.
  - intros a b. unfold follow_rows, Follower_filter_by. simpl. lia.
  - intros f [].
Defined.

Lemma toggle_follow_parity_witness :
  1 <> 2
  /\ user_stored Demo.store 1
  /\ user_stored Demo.store 2
  /\ follow_rows Demo.store 1 2 = 0%nat
  /\ follow_rows
       (toggle_follow_times Demo.store 1 2
          [Demo.noon 2024 2 1; Demo.noon 2024 2 2; Demo.noon 2024 2 3])
       1 2
     = 1%nat.
Proof.
  assert (1 <> 2) as Hne by lia.
  assert (follow_rows Demo.store 1 2 = 0%nat) as H0 by reflexivity.
  split; [exact Hne|]. split; [exact example_user_1|].
  split; [exact example_user_2|]. split; [exact H0|].
  exact (proj2 (toggle_follow_parity Demo.store 1 2 Hne example_user_1
                  example_user_2 H0)
               [Demo.noon 2024 2 1; Demo.noon 2024 2 2; Demo.noon 2024 2 3]).
Defined.

Lemma toggle_follow_all_well_formed_witness :
  follows_well_formed Demo.store
  /\ follows_well_formed
       (toggle_follow_all Demo.store
          [(1, 2, Demo.noon 2024 2 1); (2, 1, Demo.noon 2024 2 2);
           (1, 1, Demo.noon 2024 2 3); (1, 2, Demo.noon 2024 2 4);
           (1, 9, Demo.noon 2024 2 5)]).
Proof.
  split; [exact example_follows_well_formed|].
  apply toggle_follow_all_well_formed. exact example_follows_well_formed.
Defined.

Lemma check_follow_status_after_toggle_witness :
  1 <> 2
  /\ user_stored Demo.store 1
  /\ user_stored Demo.store 2
  /\ (follow_rows Demo.store 1 2 <= 1)%nat
  /\ exists is_following : bool,
       check_follow_status Demo.store 1 2 = Ok is_following 200
       /\ check_follow_status
            (fst (toggle_follow Demo.store 1 2 (Demo.noon 2024 2 1))) 1 2
          = Ok (negb is_following) 200.
Proof.
  assert (1 <> 2) as Hne by lia.
  assert (follow_rows Demo.store 1 2 <= 1)%nat as Hle
    by (unfold follow_rows, Follower_filter_by; simpl; lia).
  split; [exact Hne|]. split; [exact example_user_1|].
  split; [exact example_user_2|]. split; [exact Hle|].
  exact (check_follow_status_after_toggle Demo.store 1 2 (Demo.noon 2024 2 1)
           Hne example_user_1 example_user_2 Hle).
Defined.

Lemma followers_and_following_witness :
  user_stored demo_follow_store 1
  /\ user_stored demo_follow_store 2
  /\ (In 1 (ids_of (get_followers demo_follow_store 2))
      <-> (0 < follow_rows demo_follow_store 1 2)%nat)
  /\ (In 2 (ids_of (get_following demo_follow_store 1))
      <-> In 1 (ids_of (get_followers demo_follow_store 2)))
  /\ NoDup (ids_of (get_followers demo_follow_store 2))
  /\ NoDup (ids_of (get_following demo_follow_store 1)).
Proof.
  split; [exact example_user_1|]. split; [exact example_user_2|].
  exact (followers_and_following demo_follow_store 1 2 example_user_1
           example_user_2).
Defined.

Lemma followed_is_listed_witness :
  toggle_follow Demo.store 1 2 (Demo.noon 2024 2 1)
  = (demo_follow_store, Ok "User followed successfully"%string 201)
  /\ In 1 (ids_of (get_followers demo_follow_store 2))
  /\ In 2 (ids_of (get_following demo_follow_store 1)).
Proof.
  assert (toggle_follow Demo.store 1 2 (Demo.noon 2024 2 1)
          = (demo_follow_store, Ok "User followed successfully"%string 201))
    as Hfollow by reflexivity.
  split; [exact Hfollow|].
  exact (followed_is_listed Demo.store demo_follow_store 1 2
           (Demo.noon 2024 2 1) "User followed successfully" Hfollow).
Defined.

Lemma create_post_then_get_witness :
  user_stored Demo.store 1
  /\ "new"%string <> ""%string
  /\ Post_get Demo.store 4 = None
  /\ Post_get (fst (create_post Demo.store 1 (Some "new"%string)
                      (Demo.noon 2024 2 1))) 4
     = Some (Post.mk 4 1 "new" (Demo.noon 2024 2 1)).
Proof.
  assert ("new"%string <> ""%string) as Htext by discriminate.
  split; [exact example_user_1|]. split; [exact Htext|].
  destruct (create_post_then_get Demo.store 1 "new" (Demo.noon 2024 2 1)
              example_user_1 Htext) as [Hcreate [Hbefore [Hafter _]]].
  split; [exact Hbefore|]. rewrite Hcreate. exact Hafter.
Defined.

Lemma add_comment_appends_witness :
  post_stored Demo.store 1
  /\ user_stored Demo.store 2
  /\ comments_of
       (set_Comments Demo.store
          (Comments Demo.store
             ++ [Comment.mk 3 1 2 "" (Demo.noon 2024 2 1)])) 1
     = [Comment.mk 1 1 2 "nice" (Demo.noon 2024 1 11);
        Comment.mk 3 1 2 "" (Demo.noon 2024 2 1)]
  /\ exists author : User.t,
       add_comment Demo.store 1 2 (Some ""%string) (Demo.noon 2024 2 1)
       = (set_Comments Demo.store
            (Comments Demo.store
               ++ [Comment.mk 3 1 2 "" (Demo.noon 2024 2 1)]),
          Ok (mkCommentAdded "Comment added successfully"
                (CommentData.mk 3 "" (Demo.noon 2024 2 1) (author_of author)))
             201).
Proof.
  split; [exact example_post_1|]. split; [exact example_user_2|].
  destruct (add_comment_appends Demo.store 1 2 "" (Demo.noon 2024 2 1)
              example_post_1 example_user_2)
    as [[author [_ Hadd]] [Hrows _]].
  split; [exact Hrows|]. exists author. exact Hadd.
Defined.

Lemma refused_request_changes_nothing_witness :
  snd (serve (H := Demo.env) Demo.store (ToggleLike 9 1) (Demo.noon 2024 2 1))
  <> 200
  /\ snd (serve (H := Demo.env) Demo.store (ToggleLike 9 1)
            (Demo.noon 2024 2 1))
     <> 201
  /\ fst (serve (H := Demo.env) Demo.store (ToggleLike 9 1)
            (Demo.noon 2024 2 1))
     = Demo.store.
Proof.
  assert (snd (serve (H := Demo.env) Demo.store (ToggleLike 9 1)
                 (Demo.noon 2024 2 1)) <> 200) as H200
    by (simpl; lia).
  assert (snd (serve (H := Demo.env) Demo.store (ToggleLike 9 1)
                 (Demo.noon 2024 2 1)) <> 201) as H201
    by (simpl; lia).
  split; [exact H200|]. split; [exact H201|].
  exact (refused_request_changes_nothing (H := Demo.env) Demo.store
           (ToggleLike 9 1) (Demo.noon 2024 2 1) H200 H201).
Defined.

Lemma serve_all_keeps_keys_witness :
  primary_keys_unique Demo.store
  /\ primary_keys_unique
       (serve_all (H := Demo.env) Demo.store
          [(CreatePost 1 (Some "new"%string), Demo.noon 2024 2 1);
           (ToggleLike 4 2, Demo.noon 2024 2 2);
           (AddComment 4 2 (Some "first"%string), Demo.noon 2024 2 3);
           (ToggleFollow 2 1, Demo.noon 2024 2 4);
           (UpdateProfile 2 (ProfileData.mk (Some "robert"%string) None None),
            Demo.noon 2024 2 5);
           (ToggleLike 1 2, Demo.noon 2024 2 6)]).
Proof.
  split; [exact example_primary_keys|].
  apply (serve_all_keeps_keys (H := Demo.env)). exact example_primary_keys.
Defined.

Lemma register_then_login_witness :
  let data :=
    RegisterData.mk (Some "carol"%string) (Some "Carol"%string)
                    (Some "carol@example.org"%string)
                    (Some "longpassword"%string) in
  let s' :=
    fst (handle_register (H := Demo.env) Demo.store "application/json" data
           (Demo.noon 2024 2 1)) in
  handle_register (H := Demo.env) Demo.store "application/json" data
    (Demo.noon 2024 2 1)
  = (s', Ok (mkRegistered "User registered successfully" 3) 201)
  /\ @collate_eqb Demo.env "carol" "carol" = true
  /\ @check_password_hash demo_auth
       (@generate_password_hash Demo.env "longpassword") "longpassword"
     = true
  /\ @handle_login Demo.env demo_auth s' "application/json"
       (Some "carol"%string) (Some "longpassword"%string)
     = Ok (Login.mk "token:3" 3 "carol") 200
  /\ @handle_login Demo.env demo_auth s' "application/json"
       (Some "carol"%string) (Some "shortpassword"%string)
     = Error "Invalid credentials" 401.
Proof.
  intros data s'.
  assert (handle_register (H := Demo.env) Demo.store "application/json" data
            (Demo.noon 2024 2 1)
          = (s', Ok (mkRegistered "User registered successfully" 3) 201))
    as Hreg by reflexivity.
  assert (@collate_eqb Demo.env "carol" "carol" = true) as Hrefl
    by reflexivity.
  assert (@check_password_hash demo_auth
            (@generate_password_hash Demo.env "longpassword") "longpassword"
          = true) as Hcheck by reflexivity.
  split; [exact Hreg|]. split; [exact Hrefl|]. split; [exact Hcheck|].
  destruct (@register_then_login Demo.env demo_auth Demo.store s' "carol"
              "Carol" "carol@example.org" "longpassword" (Demo.noon 2024 2 1)
              "User registered successfully" 3 Hreg Hrefl Hcheck)
    as [Hlogin Hwrong].
  split; [exact Hlogin|]. apply Hwrong. reflexivity.
Defined.

Lemma update_then_show_profile_witness :
  let data :=
    ProfileData.mk (Some "alice2"%string) None (Some "Alice B"%string) in
  let s' := fst (update_user_profile (H := Demo.env) Demo.store 1 data) in
  update_user_profile (H := Demo.env) Demo.store 1 data
  = (s', Ok (Profile.mk "Profile updated successfully" 1 "alice2" "Alice B"
               "alice@example.org")
            200)
  /\ exists before : OwnProfile.t,
       show_user_profile Demo.store 1 = Ok before 200
       /\ show_user_profile s' 1
          = Ok (OwnProfile.mk 1 "alice2" "Alice B" "alice@example.org"
                  (OwnProfile.posts_count before)
                  (OwnProfile.followers_count before)
                  (OwnProfile.following_count before))
               200.
Proof.
  intros data s'.
  assert (update_user_profile (H := Demo.env) Demo.store 1 data
          = (s', Ok (Profile.mk "Profile updated successfully" 1 "alice2"
                       "Alice B" "alice@example.org")
                    200)) as Hupdate by reflexivity.
  split; [exact Hupdate|].
  exact (proj2 (@update_then_show_profile Demo.env Demo.store s' 1 data _
                  Hupdate)).
Defined.

Lemma update_user_profile_applies_witness :
  let data :=
    ProfileData.mk (Some "alice2"%string) None (Some ""%string) in
  User_get Demo.store 1 = Some Demo.alice
  /\ @User_by_username Demo.env Demo.store "alice2" = None
  /\ exists s',
       update_user_profile (H := Demo.env) Demo.store 1 data
       = (s', Ok (Profile.mk "Profile updated successfully" 1 "alice2" "Alice"
                    "alice@example.org")
                 200).
Proof.
  intros data.
  assert (User_get Demo.store 1 = Some Demo.alice) as Huser by reflexivity.
  assert (@User_by_username Demo.env Demo.store "alice2" = None) as Hfree
    by reflexivity.
  split; [exact Huser|]. split; [exact Hfree|].
  apply (@update_user_profile_applies Demo.env Demo.store 1 Demo.alice data
           Huser).
  - intros n Hn _ _. simpl in Hn. injection Hn as <-. exact Hfree.
  - intros e He. simpl in He. discriminate He.
Defined.

Lemma get_current_user_posts_lists_witness :
  comment_authors_stored Demo.store
  /\ exists posts : list UserPost.t,
       get_current_user_posts Demo.store 1 = Ok posts 200
       /\ Permutation (map UserPost.post_id posts) [1; 3]
       /\ StronglySorted (fun a b => datetime_leb b a = true)
            (map UserPost.created_at posts)
       /\ (forall e, In e posts ->
             UserPost.likes_count e
             = Z.of_nat (length (likes_of Demo.store (UserPost.post_id e)))).
Proof.
  split; [exact example_comment_authors|].
  exact (get_current_user_posts_lists Demo.store 1 example_comment_authors).
Defined.

(** Alice has six posts, of six different days: the viewer is shown the
    five newest, and her oldest post is left out. *)
Lemma get_other_user_posts_first_five_witness :
  let ordered := rev (owned_posts demo_busy_store 1) in
  let mine :=
    match get_current_user_posts demo_busy_store 1 with
    | Ok posts _ => posts
    | Error _ _ => []
    end in
  user_stored demo_busy_store 1
  /\ newest_first (owned_posts demo_busy_store 1) ordered
  /\ get_current_user_posts demo_busy_store 1 = Ok mine 200
  /\ length mine = 6%nat
  /\ NoDup (map Post.created_at (owned_posts demo_busy_store 1))
  /\ exists posts : list OtherPost.t,
       get_other_user_posts demo_busy_store 1 2 ordered = Ok posts 200
       /\ length posts = 5%nat
       /\ map shown_of_other_post posts
          = [(7, "seventh"%string, Demo.noon 2024 1 16, 0);
             (6, "sixth"%string, Demo.noon 2024 1 15, 0);
             (5, "fifth"%string, Demo.noon 2024 1 14, 0);
             (4, "fourth"%string, Demo.noon 2024 1 13, 0);
             (3, "again"%string, Demo.noon 2024 1 12, 0)].
Proof.
  intros ordered mine.
  assert (newest_first (owned_posts demo_busy_store 1) ordered) as Hordered.
  { split; [apply Permutation_rev|].
    repeat (constructor; [|repeat (constructor; [reflexivity|]); constructor]).
    constructor. }
  assert (get_current_user_posts demo_busy_store 1 = Ok mine 200) as Hmine
    by reflexivity.
  assert (NoDup (map Post.created_at (owned_posts demo_busy_store 1)))
    as Hdistinct.
  { simpl. repeat (constructor; [simpl; intuition discriminate|]).
    constructor. }
  split; [exact example_user_1|]. split; [exact Hordered|].
  split; [exact Hmine|]. split; [reflexivity|]. split; [exact Hdistinct|].
  destruct (get_other_user_posts_first_five demo_busy_store 1 2 ordered mine
              example_user_1 Hordered Hmine)
    as [posts [Hanswer [Hlength [_ [_ [_ [Hfirst _]]]]]]].
  exists posts. split; [exact Hanswer|]. split; [exact Hlength|].
  exact (Hfirst Hdistinct).
Defined.

Lemma get_user_profile_totals_witness :
  keys_unique Demo.store
  /\ get_user_profile Demo.store 1
     = Ok (PublicProfile.mk 1 "alice" "Alice" 2 1 1 0 0) 200
  /\ exists stats : Stats.t,
       get_post_stats (H := Demo.env) Demo.store 1 = Ok stats 200
       /\ Stats.total_posts stats = 2
       /\ Stats.total_likes stats = 1
       /\ Stats.total_comments stats = 1.
Proof.
  assert (get_user_profile Demo.store 1
          = Ok (PublicProfile.mk 1 "alice" "Alice" 2 1 1 0 0) 200) as Hprofile
    by reflexivity.
  split; [exact example_keys_unique|]. split; [exact Hprofile|].
  exact (proj2 (proj2 (proj2
           (get_user_profile_totals (H := Demo.env) Demo.store 1 _
              example_keys_unique Hprofile)))).
Defined.

Lemma profiles_agree_witness :
  primary_keys_unique demo_follow_store
  /\ follow_users_stored demo_follow_store
  /\ get_user_profile demo_follow_store 2
     = Ok (PublicProfile.mk 2 "bob" "Bob" 1 0 1 1 0) 200
  /\ exists own : OwnProfile.t,
       show_user_profile demo_follow_store 2 = Ok own 200
       /\ OwnProfile.user_id own = 2
       /\ OwnProfile.username own = "bob"%string
       /\ OwnProfile.name own = "Bob"%string
       /\ OwnProfile.posts_count own = 1
       /\ OwnProfile.followers_count own = 1
       /\ OwnProfile.following_count own = 0.
Proof.
  assert (primary_keys_unique demo_follow_store) as Hkeys.
  { unfold primary_keys_unique. simpl.
    repeat split; repeat (constructor; [simpl; intuition discriminate|]);
      constructor. }
  assert (follow_users_stored demo_follow_store) as Hfk.
  { intros f [<-|[]]. split; [exact example_user_1 | exact example_user_2]. }
  assert (get_user_profile demo_follow_store 2
          = Ok (PublicProfile.mk 2 "bob" "Bob" 1 0 1 1 0) 200) as Hprofile
    by reflexivity.
  split; [exact Hkeys|]. split; [exact Hfk|]. split; [exact Hprofile|].
  exact (profiles_agree demo_follow_store 2 _ Hkeys Hfk Hprofile).
Defined.
